(** * kino-bey: the stateful interaction engine of [index.js]

    A shallow embedding of the bot's session store, flood guard, admin
    wizard, subscription gate, rating handler and broadcast controller,
    followed by the properties the specification states about them.

    Conventions of the embedding.
    - [Date.now()] is an argument [now] of every handler; a handler runs
      to completion at that instant.
    - The in-memory [Map]s ([floodMap], [state], [adminCache]) are [gmap]s
      keyed by the chat identity.
    - The MongoDB collections are lists of documents in insertion order;
      [findOne]/[updateOne] act on the first match.  The store is always
      reachable; the one failure it raises is Mongoose's cast error when
      a [NaN] is given where the schema says [Number].
    - The Telegram transport is an oracle [Transport]: for every call it
      says whether the call succeeds or which status code it fails with.
      Every transport call, and every [console.error], is appended to the
      trace [out] of the world.
    - A JavaScript exception is the [Throw] outcome of the monad [M];
      [try]/[catch] is [try_catch]. *)

From stdpp Require Import base gmap list strings pretty.
From Stdlib Require Import ZArith Lia Ascii.

Open Scope Z_scope.

(** ** JavaScript built-ins used by the source *)

Definition dq : ascii := ascii_of_nat 34.

(** White space removed by [String.prototype.trim] (ASCII range). *)
Definition is_space (c : ascii) : bool :=
  let n := nat_of_ascii c in
  ((n =? 32) || ((9 <=? n) && (n <=? 13)))%nat.

Fixpoint trim_start (s : string) : string :=
  match s with
  | String c s' => if is_space c then trim_start s' else s
  | EmptyString => EmptyString
  end.

Definition trim (s : string) : string :=
  String.rev (trim_start (String.rev (trim_start s))).

Definition startsWith (s p : string) : bool := String.prefix p s.

Fixpoint includes (s sub : string) : bool :=
  String.prefix sub s ||
  match s with
  | String _ s' => includes s' sub
  | EmptyString => false
  end.

(** [s.split(sep)] for a non-empty separator: [skip] counts the
    characters of a matched separator still to be passed over, [cur] is
    the current piece, reversed. *)
Fixpoint split_go (sep : string) (skip : nat) (cur s : string) : list string :=
  match s with
  | EmptyString => [String.rev cur]
  | String c s' =>
      match skip with
      | S k => split_go sep k cur s'
      | O =>
          if String.prefix sep s
          then String.rev cur :: split_go sep (String.length sep - 1) EmptyString s'
          else split_go sep 0 (String c cur) s'
      end
  end.

Definition js_split (s sep : string) : list string := split_go sep 0 EmptyString s.

(** [s.replace(/c/g, rep)] for a one-character pattern. *)
Fixpoint replace_all (c : ascii) (rep : string) (s : string) : string :=
  match s with
  | EmptyString => EmptyString
  | String d s' =>
      if Ascii.eqb c d then rep +:+ replace_all c rep s'
      else String d (replace_all c rep s')
  end.

Definition is_digit (c : ascii) : bool :=
  let n := nat_of_ascii c in ((48 <=? n) && (n <=? 57))%nat.

(** [/^\d+$/.test(s)] *)
Fixpoint all_digits_from (s : string) : bool :=
  match s with
  | EmptyString => true
  | String c s' => is_digit c && all_digits_from s'
  end.

Definition all_digits (s : string) : bool :=
  match s with
  | EmptyString => false
  | _ => all_digits_from s
  end.

(** [/^-100\d+$/.test(s)] *)
Definition is_channel_id (s : string) : bool :=
  match s with
  | String "-" (String "1" (String "0" (String "0" r))) => all_digits r
  | _ => false
  end.

(** A JavaScript number that is an integer or [NaN]; the embedding is
    exact below 2^53. *)
Definition JsNum := option Z.

Definition digit_val (radix : Z) (c : ascii) : option Z :=
  let n := Z.of_nat (nat_of_ascii c) in
  let v :=
    if (48 <=? n) && (n <=? 57) then Some (n - 48)
    else if (97 <=? n) && (n <=? 122) then Some (n - 87)
    else if (65 <=? n) && (n <=? 90) then Some (n - 55)
    else None in
  match v with
  | Some d => if d <? radix then Some d else None
  | None => None
  end.

(** The longest prefix of radix digits, as a number; [acc] is [None]
    until a digit has been read. *)
Fixpoint read_digits (radix : Z) (s : string) (acc : option Z) : option Z :=
  match s with
  | EmptyString => acc
  | String c s' =>
      match digit_val radix c with
      | Some d => read_digits radix s' (Some (radix * default 0 acc + d))
      | None => acc
      end
  end.

(** [parseInt(s)] with no radix argument: leading white space, a sign,
    an optional [0x] prefix, then the longest digit prefix; [NaN] if
    that prefix is empty. *)
Definition parseInt (s : string) : JsNum :=
  let s := trim_start s in
  let '(sign, s) :=
    match s with
    | String "-" r => (-1, r)
    | String "+" r => (1, r)
    | _ => (1, s)
    end in
  let '(radix, s) :=
    match s with
    | String "0" (String "x" r) => (16, r)
    | String "0" (String "X" r) => (16, r)
    | _ => (10, s)
    end in
  match read_digits radix s None with
  | Some v => Some (sign * v)
  | None => None
  end.

Definition isNaN (n : JsNum) : bool :=
  match n with None => true | Some _ => false end.

(** [a || b] on strings: the empty string is falsy. *)
Definition str_or (a : option string) (b : string) : string :=
  match a with
  | Some (String c r) => String c r
  | _ => b
  end.

(** [s.padStart(2, '0')] *)
Definition padStart2 (s : string) : string :=
  match s with
  | EmptyString => "00"
  | String c EmptyString => String "0" s
  | _ => s
  end.

(** ** Configuration ([CONFIG]) *)

Definition floodLimit : Z := 800.
Definition downloadCooldown : Z := 5000.
Definition stateTTL : Z := 30 * 60 * 1000.
Definition adminCacheTTL : Z := 60 * 1000.

(** ** Data model *)

Inductive ContentType := movie | series.
Inductive ChannelType := main | movie_codes.
Inductive Perm := P_movies | P_channels | P_settings | P_users | P_broadcast | P_admins.

(** [st.action] *)
Inductive Action :=
  | ASK_BIRTH_YEAR | WAITING_SUB | ADD_CONTENT | ADD_EPISODE | ADD_CHANNEL
  | EDIT_SEARCH | EDIT_FIELD | BROADCAST | SEARCH_USER | MANAGE_ADMIN_ID.

(** [st.step] *)
Inductive Step := VIDEO | POSTER | TITLE | COUNTRY | LANG | ADULT | CODE | NAME | URL.

(** [st.field], the third component of an [ed_f_] callback. *)
Inductive Field := F_title | F_country | F_posterId | F_fileId | F_other (name : string).

#[global] Instance ContentType_eq_dec : EqDecision ContentType.
Proof. solve_decision. Defined.
#[global] Instance ChannelType_eq_dec : EqDecision ChannelType.
Proof. solve_decision. Defined.
#[global] Instance Perm_eq_dec : EqDecision Perm.
Proof. solve_decision. Defined.
#[global] Instance Action_eq_dec : EqDecision Action.
Proof. solve_decision. Defined.
#[global] Instance Step_eq_dec : EqDecision Step.
Proof. solve_decision. Defined.

(** [msg.video] *)
Record Video := {
  v_file_id : string;
  v_width : option Z;
  v_duration : option Z;
}.

(** An inbound Telegram message; [m_photo] lists the [file_id]s of the
    photo sizes. *)
Record Msg := {
  m_chat : Z;
  m_message_id : Z;
  m_text : option string;
  m_caption : option string;
  m_video : option Video;
  m_photo : option (list string);
  m_first_name : option string;
  m_username : option string;
}.

(** [st.data] of the content and channel wizards. *)
Record Draft := {
  d_fileId : option string;
  d_quality : option string;
  d_duration : option string;
  d_posterId : option string;
  d_title : option string;
  d_country : option string;
  d_language : option string;
  d_isAdult : option bool;
  d_name : option string;
}.

(** [st.tempEpisodeData] *)
Record TempEpisode := {
  te_fileId : string;
  te_quality : string;
}.

(** One entry of the [state] map. *)
Record Session := {
  action : Action;
  step : option Step;
  data : option Draft;
  contentType : option ContentType;
  permissionRequired : option Perm;
  timestamp : option Z;
  pendingCode : option string;
  movieId : option string;
  field : option Field;
  tempEpisodeData : option TempEpisode;
  s_type : option ChannelType;
  s_msg : option Msg;
}.

(** [adminCache] entry *)
Record CacheEntry := {
  c_isAdmin : bool;
  c_expire : Z;
}.

(** [broadcastController] *)
Record Controller := {
  isActive : bool;
  shouldStop : bool;
}.

(** [userSchema] *)
Record UserDoc := {
  u_id : nat;
  u_telegramId : Z;
  u_firstName : string;
  u_username : option string;
  u_birthYear : option Z;
  u_isBanned : bool;
  u_isActive : bool;
  u_lastMessageId : option Z;
  u_canDownload : bool;
  u_contentProtected : bool;
}.

Record Episode := {
  e_number : Z;
  e_fileId : option string;
  e_name : string;
  e_addedAt : Z;
}.

(** [movieSchema] *)
Record MovieDoc := {
  mv_id : string;
  mv_code : Z;
  mv_contentType : ContentType;
  mv_title : option string;
  mv_posterId : option string;
  mv_country : option string;
  mv_language : option string;
  mv_quality : option string;
  mv_duration : option string;
  mv_isAdult : bool;
  mv_fileId : option string;
  mv_episodes : list Episode;
  mv_views : Z;
  mv_downloads : Z;
  mv_ratingSum : Z;
  mv_ratingCount : Z;
  mv_ratedUsers : list Z;
  mv_addedBy : Z;
}.

(** [channelSchema] *)
Record ChannelDoc := {
  ch_id : string;
  ch_channelId : string;
  ch_name : option string;
  ch_url : string;
  ch_type : ChannelType;
}.

Record Permissions := {
  p_movies : bool;
  p_channels : bool;
  p_settings : bool;
  p_users : bool;
  p_broadcast : bool;
  p_admins : bool;
}.

(** [adminSchema] *)
Record AdminDoc := {
  a_telegramId : Z;
  a_addedBy : Z;
  a_permissions : Permissions;
}.

(** [settingsSchema] *)
Record SettingsDoc := {
  globalProtection : bool;
  globalDownload : bool;
  autoPost : bool;
}.

(** ** What the bot says

    Each constructor stands for one message text of the source. *)
Inductive Notice :=
  | NBroadcastBusy            (* Hozirda boshqa reklama ketmoqda! *)
  | NBroadcastStarted         (* Reklama boshlandi... *)
  | NBroadcastStopped (count : Z)                  (* Reklama to'xtatildi! Yuborildi: count *)
  | NBroadcastFinished (count blocked elapsed : Z) (* Tugadi: count, blocked, seconds *)
  | NSessionExpired           (* Sessiya vaqti tugadi. *)
  | NBadYear (currentYear : Z)
  | NYearSaved
  | NAskBirthYear
  | NNoPermission             (* Ushbu amal uchun ruxsat yo'q! *)
  | NSendVideo                (* Video yuboring! *)
  | NAskPoster
  | NSendPhoto                (* Rasm yuboring! *)
  | NAskTitle
  | NAskCountry
  | NAskLang
  | NAskAdult
  | NAskCode
  | NOnlyNumber               (* Faqat raqam! *)
  | NCodeTaken                (* Bu kod band! Boshqa kod yozing. *)
  | NContentAdded (ct : option ContentType) (code : Z)
  | NSeriesNotFound
  | NSendEpisodeVideo
  | NAskEpisodeName (n : Z)
  | NEpisodeAdded (n : Z) (name : string)
  | NAskChannelName
  | NAskChannelUrl
  | NChannelAdded (channelId : string) (name : option string)
  | NChannelError
  | NNotFound                 (* Topilmadi. *)
  | NAskEditCode
  | NAskNewValue (f : Field)
  | NSendPhotoPlease
  | NSendVideoFile
  | NEdited
  | NMovieNotFound
  | NAskNextEpisode
  | NAskBroadcastPost
  | NConfirmBroadcast
  | NAskUserId
  | NOnlyNumericId
  | NUserNotFound
  | NAskAdminId
  | NOnlyNumericAdminId
  | NSuperAdminImmune
  | NSystemError              (* Tizim xatoligi yuz berdi. Qayta urinib ko'ring. *)
  | NChooseContentType
  | NAskVideo (ct : ContentType)
  | NWelcome
  | NSubRequest (missing : list ChannelDoc)
  | NSubConfirmed
  | NCardNotFound
  | NCard (m : MovieDoc)
  | NCancelled
  | NAutoPost (m : MovieDoc)
  | NAdminPanel (p : option Permissions) (super : bool)
  | NEditMoviePanel (m : MovieDoc)
  | NChannelsPanel (cs : list ChannelDoc)
  | NUserPanel (u : UserDoc)
  | NAdminPermsPanel (a : AdminDoc)
  | NSettingsPanel (c : SettingsDoc)
  | NStatistics
  | NDeleted                  (* O'chirildi *)
  | NVideoError               (* Video fayl xatosi yoki o'chirilgan. *)
  | NEpisodeVideoError.       (* Video fayl xatosi. *)

(** What [bot.answerCallbackQuery] carries. *)
Inductive CbAnswer :=
  | ASystemError              (* Tizim xatosi! *)
  | ANotSubscribed
  | ANoPermission
  | AStopping                 (* To'xtatilmoqda... *)
  | ANothingToStop            (* Reklama jarayoni yo'q. *)
  | ARated (score : Z)
  | AAlreadyVoted             (* Siz allaqachon ovoz bergansiz! *)
  | AWait                     (* Kuting! *)
  | ANotFound                 (* Topilmadi *)
  | ADownloadForbidden        (* Yuklash taqiqlangan. *)
  | ASending                  (* Yuborilmoqda... *)
  | ASendingEpisode (n : JsNum)
  | ASeriesNotFound           (* Serial topilmadi *)
  | AEpisodeNotFound          (* Qism topilmadi *)
  | ARefreshed                (* Yangilandi *)
  | AEmpty.                   (* no text *)

(** What [console.error] is called with. *)
Inductive LogLine :=
  | LHandlerError
  | LAdminInputError
  | LCallbackError
  | LSubscription (channelId : string)
  | LAutoPost
  | LChannelAdd
  | LUnhandledRejection.

(** The trace of outward actions. *)
Inductive Effect :=
  | ESend (chat : Z) (n : Notice)
  | EPhoto (chat : string) (n : Notice)
  | EEdit (chat : Z) (msgId : option Z) (n : Notice)
  | EDelete (chat msgId : Z)
  | EAnswer (a : CbAnswer) (alert : bool)
  | ECopy (to from msgId : Z)
  | EGetChatMember (channelId : string) (user : Z)
  | EGetChat (username : string)
  | EVideo (chat : Z) (fileId : option string) (protect : bool)
  | EChatAction (chat : Z)
  | EEditMarkup (chat msgId : Z) (code : Z) (page : JsNum)
  | ELog (l : LogLine).

(** ** The transport oracle *)

Inductive Outcome (A : Type) :=
  | Delivered (a : A)
  | Failed (statusCode : option Z).
Arguments Delivered {A} a.
Arguments Failed {A} statusCode.

Inductive MemberStatus := creator | administrator | member | restricted | left | kicked.

Record Transport := {
  sendMessage : Z -> Notice -> Outcome Z;
  sendPhoto : string -> Outcome unit;
  deleteMessage : Z -> Z -> Outcome unit;
  copyMessage : Z -> Z -> Z -> Outcome unit;
  getChatMember : string -> Z -> Outcome MemberStatus;
  getChat : string -> Outcome Z;
  sendVideo : Z -> option string -> Outcome unit;
  editMessageReplyMarkup : Z -> Z -> Outcome unit;
}.

(** ** The world: in-memory tables, persisted collections, trace *)

(** A running [startBroadcast]: the locals of the function between two
    iterations of its loop.  [j_cursor] holds the users the cursor has
    yet to yield; [j_stopMsg] is the [message_id] of [stopMsg], absent
    when [safeSend] returned [undefined]. *)
Record Job := {
  j_admin : Z;
  j_message : Msg;
  j_cursor : list UserDoc;
  j_count : Z;
  j_blocked : Z;
  j_startTime : Z;
  j_stopMsg : option Z;
}.

Record World := {
  floodMap : gmap Z Z;
  downloadLimitMap : gmap Z Z;
  state : gmap Z Session;
  adminCache : gmap Z CacheEntry;
  broadcastController : Controller;
  users : list UserDoc;
  movies : list MovieDoc;
  channels : list ChannelDoc;
  admins : list AdminDoc;
  settings : option SettingsDoc;
  nextId : nat;
  jobs : list Job;
  out : list Effect;
}.

Definition with_floodMap (f : gmap Z Z -> gmap Z Z) (w : World) : World :=
  {| floodMap := f (floodMap w); downloadLimitMap := downloadLimitMap w;
     state := state w; adminCache := adminCache w;
     broadcastController := broadcastController w; users := users w;
     movies := movies w; channels := channels w; admins := admins w;
     settings := settings w; nextId := nextId w; jobs := jobs w;
     out := out w |}.

Definition with_downloadLimitMap (f : gmap Z Z -> gmap Z Z) (w : World) : World :=
  {| floodMap := floodMap w; downloadLimitMap := f (downloadLimitMap w);
     state := state w; adminCache := adminCache w;
     broadcastController := broadcastController w; users := users w;
     movies := movies w; channels := channels w; admins := admins w;
     settings := settings w; nextId := nextId w; jobs := jobs w;
     out := out w |}.

Definition with_state (f : gmap Z Session -> gmap Z Session) (w : World) : World :=
  {| floodMap := floodMap w; downloadLimitMap := downloadLimitMap w;
     state := f (state w); adminCache := adminCache w;
     broadcastController := broadcastController w; users := users w;
     movies := movies w; channels := channels w; admins := admins w;
     settings := settings w; nextId := nextId w; jobs := jobs w;
     out := out w |}.

Definition with_adminCache (f : gmap Z CacheEntry -> gmap Z CacheEntry) (w : World) : World :=
  {| floodMap := floodMap w; downloadLimitMap := downloadLimitMap w;
     state := state w; adminCache := f (adminCache w);
     broadcastController := broadcastController w; users := users w;
     movies := movies w; channels := channels w; admins := admins w;
     settings := settings w; nextId := nextId w; jobs := jobs w;
     out := out w |}.

Definition with_controller (f : Controller -> Controller) (w : World) : World :=
  {| floodMap := floodMap w; downloadLimitMap := downloadLimitMap w;
     state := state w; adminCache := adminCache w;
     broadcastController := f (broadcastController w); users := users w;
     movies := movies w; channels := channels w; admins := admins w;
     settings := settings w; nextId := nextId w; jobs := jobs w;
     out := out w |}.

Definition with_users (f : list UserDoc -> list UserDoc) (w : World) : World :=
  {| floodMap := floodMap w; downloadLimitMap := downloadLimitMap w;
     state := state w; adminCache := adminCache w;
     broadcastController := broadcastController w; users := f (users w);
     movies := movies w; channels := channels w; admins := admins w;
     settings := settings w; nextId := nextId w; jobs := jobs w;
     out := out w |}.

Definition with_movies (f : list MovieDoc -> list MovieDoc) (w : World) : World :=
  {| floodMap := floodMap w; downloadLimitMap := downloadLimitMap w;
     state := state w; adminCache := adminCache w;
     broadcastController := broadcastController w; users := users w;
     movies := f (movies w); channels := channels w; admins := admins w;
     settings := settings w; nextId := nextId w; jobs := jobs w;
     out := out w |}.

Definition with_channels (f : list ChannelDoc -> list ChannelDoc) (w : World) : World :=
  {| floodMap := floodMap w; downloadLimitMap := downloadLimitMap w;
     state := state w; adminCache := adminCache w;
     broadcastController := broadcastController w; users := users w;
     movies := movies w; channels := f (channels w); admins := admins w;
     settings := settings w; nextId := nextId w; jobs := jobs w;
     out := out w |}.

Definition with_admins (f : list AdminDoc -> list AdminDoc) (w : World) : World :=
  {| floodMap := floodMap w; downloadLimitMap := downloadLimitMap w;
     state := state w; adminCache := adminCache w;
     broadcastController := broadcastController w; users := users w;
     movies := movies w; channels := channels w; admins := f (admins w);
     settings := settings w; nextId := nextId w; jobs := jobs w;
     out := out w |}.

Definition with_settings (f : option SettingsDoc -> option SettingsDoc) (w : World) : World :=
  {| floodMap := floodMap w; downloadLimitMap := downloadLimitMap w;
     state := state w; adminCache := adminCache w;
     broadcastController := broadcastController w; users := users w;
     movies := movies w; channels := channels w; admins := admins w;
     settings := f (settings w); nextId := nextId w; jobs := jobs w;
     out := out w |}.

Definition with_nextId (f : nat -> nat) (w : World) : World :=
  {| floodMap := floodMap w; downloadLimitMap := downloadLimitMap w;
     state := state w; adminCache := adminCache w;
     broadcastController := broadcastController w; users := users w;
     movies := movies w; channels := channels w; admins := admins w;
     settings := settings w; nextId := f (nextId w); jobs := jobs w;
     out := out w |}.

Definition with_jobs (f : list Job -> list Job) (w : World) : World :=
  {| floodMap := floodMap w; downloadLimitMap := downloadLimitMap w;
     state := state w; adminCache := adminCache w;
     broadcastController := broadcastController w; users := users w;
     movies := movies w; channels := channels w; admins := admins w;
     settings := settings w; nextId := nextId w; jobs := f (jobs w);
     out := out w |}.

Definition with_out (f : list Effect -> list Effect) (w : World) : World :=
  {| floodMap := floodMap w; downloadLimitMap := downloadLimitMap w;
     state := state w; adminCache := adminCache w;
     broadcastController := broadcastController w; users := users w;
     movies := movies w; channels := channels w; admins := admins w;
     settings := settings w; nextId := nextId w; jobs := jobs w;
     out := f (out w) |}.

(** ** The handler monad: world-passing with exceptions *)

Inductive Exn :=
  | TypeError
  | CastError
  | TransportError (statusCode : option Z).

Inductive Res (A : Type) :=
  | Ok (a : A)
  | Throw (e : Exn).
Arguments Ok {A} a.
Arguments Throw {A} e.

Definition M (A : Type) : Type := World -> Res A * World.

Definition ret {A} (a : A) : M A := fun w => (Ok a, w).

Definition bind {A B} (m : M A) (k : A -> M B) : M B := fun w =>
  match m w with
  | (Ok a, w') => k a w'
  | (Throw e, w') => (Throw e, w')
  end.

Declare Scope M_scope.
Delimit Scope M_scope with M.
Notation "'let!' x ':=' m 'in' k" := (bind m (fun x => k))
  (at level 10, x name, m at level 200, k at level 200) : M_scope.
Notation "m ;; k" := (bind m (fun _ => k))
  (at level 100, k at level 200, right associativity) : M_scope.
Open Scope M_scope.

Definition throw {A} (e : Exn) : M A := fun w => (Throw e, w).

(** [try { m } catch (e) { h e }] *)
Definition try_catch {A} (m : M A) (h : Exn -> M A) : M A := fun w =>
  match m w with
  | (Ok a, w') => (Ok a, w')
  | (Throw e, w') => h e w'
  end.

Definition gets {A} (f : World -> A) : M A := fun w => (Ok (f w), w).
Definition modify (f : World -> World) : M unit := fun w => (Ok tt, f w).
Definition emit (e : Effect) : M unit := modify (with_out (fun o => o ++ [e])).

(** Property access on a possibly [undefined] object. *)
Definition defined {A} (o : option A) : M A :=
  match o with
  | Some a => ret a
  | None => throw TypeError
  end.

(** An awaited transport call. *)
Definition await {A} (r : Outcome A) : M A :=
  match r with
  | Delivered a => ret a
  | Failed c => throw (TransportError c)
  end.

(** ** Document updates *)

Definition set_u_isActive (b : bool) (u : UserDoc) : UserDoc :=
  {| u_id := u_id u; u_telegramId := u_telegramId u; u_firstName := u_firstName u;
     u_username := u_username u; u_birthYear := u_birthYear u;
     u_isBanned := u_isBanned u; u_isActive := b;
     u_lastMessageId := u_lastMessageId u; u_canDownload := u_canDownload u;
     u_contentProtected := u_contentProtected u |}.

Definition set_u_birthYear (y : Z) (u : UserDoc) : UserDoc :=
  {| u_id := u_id u; u_telegramId := u_telegramId u; u_firstName := u_firstName u;
     u_username := u_username u; u_birthYear := Some y;
     u_isBanned := u_isBanned u; u_isActive := u_isActive u;
     u_lastMessageId := u_lastMessageId u; u_canDownload := u_canDownload u;
     u_contentProtected := u_contentProtected u |}.

Definition toggle_u_isBanned (u : UserDoc) : UserDoc :=
  {| u_id := u_id u; u_telegramId := u_telegramId u; u_firstName := u_firstName u;
     u_username := u_username u; u_birthYear := u_birthYear u;
     u_isBanned := negb (u_isBanned u); u_isActive := u_isActive u;
     u_lastMessageId := u_lastMessageId u; u_canDownload := u_canDownload u;
     u_contentProtected := u_contentProtected u |}.

Definition toggle_u_canDownload (u : UserDoc) : UserDoc :=
  {| u_id := u_id u; u_telegramId := u_telegramId u; u_firstName := u_firstName u;
     u_username := u_username u; u_birthYear := u_birthYear u;
     u_isBanned := u_isBanned u; u_isActive := u_isActive u;
     u_lastMessageId := u_lastMessageId u; u_canDownload := negb (u_canDownload u);
     u_contentProtected := u_contentProtected u |}.

(** [{ $inc: { downloads: 1 } }] *)
Definition inc_downloads (m : MovieDoc) : MovieDoc :=
  {| mv_id := mv_id m; mv_code := mv_code m; mv_contentType := mv_contentType m;
     mv_title := mv_title m; mv_posterId := mv_posterId m;
     mv_country := mv_country m; mv_language := mv_language m;
     mv_quality := mv_quality m; mv_duration := mv_duration m;
     mv_isAdult := mv_isAdult m; mv_fileId := mv_fileId m;
     mv_episodes := mv_episodes m; mv_views := mv_views m;
     mv_downloads := mv_downloads m + 1; mv_ratingSum := mv_ratingSum m;
     mv_ratingCount := mv_ratingCount m; mv_ratedUsers := mv_ratedUsers m;
     mv_addedBy := mv_addedBy m |}.

(** [a.permissions[k] = !a.permissions[k]]; a key outside the schema
    is not stored. *)
Definition toggle_perm (k : string) (p : Permissions) : Permissions :=
  {| p_movies := if String.eqb k "movies" then negb (p_movies p) else p_movies p;
     p_channels := if String.eqb k "channels" then negb (p_channels p) else p_channels p;
     p_settings := if String.eqb k "settings" then negb (p_settings p) else p_settings p;
     p_users := if String.eqb k "users" then negb (p_users p) else p_users p;
     p_broadcast := if String.eqb k "broadcast" then negb (p_broadcast p) else p_broadcast p;
     p_admins := if String.eqb k "admins" then negb (p_admins p) else p_admins p |}.

(** [c[k] = !c[k]] on the settings document, for its three flags. *)
Definition toggle_setting (k : string) (c : SettingsDoc) : SettingsDoc :=
  {| globalProtection :=
       if String.eqb k "globalProtection" then negb (globalProtection c)
       else globalProtection c;
     globalDownload :=
       if String.eqb k "globalDownload" then negb (globalDownload c)
       else globalDownload c;
     autoPost := if String.eqb k "autoPost" then negb (autoPost c) else autoPost c |}.

(** Schema defaults of the settings document. *)
Definition default_settings : SettingsDoc :=
  {| globalProtection := false; globalDownload := true; autoPost := true |}.

(** A change of the editable fields of a content record. *)
Definition edit_movie
    (title posterId country quality duration fileId : option string -> option string)
    (episodes : list Episode -> list Episode) (views : Z -> Z)
    (m : MovieDoc) : MovieDoc :=
  {| mv_id := mv_id m; mv_code := mv_code m; mv_contentType := mv_contentType m;
     mv_title := title (mv_title m); mv_posterId := posterId (mv_posterId m);
     mv_country := country (mv_country m); mv_language := mv_language m;
     mv_quality := quality (mv_quality m); mv_duration := duration (mv_duration m);
     mv_isAdult := mv_isAdult m; mv_fileId := fileId (mv_fileId m);
     mv_episodes := episodes (mv_episodes m); mv_views := views (mv_views m);
     mv_downloads := mv_downloads m; mv_ratingSum := mv_ratingSum m;
     mv_ratingCount := mv_ratingCount m; mv_ratedUsers := mv_ratedUsers m;
     mv_addedBy := mv_addedBy m |}.

(** [{ $push: { ratedUsers: userId }, $inc: { ratingSum: score, ratingCount: 1 } }] *)
Definition rate_movie (userId score : Z) (m : MovieDoc) : MovieDoc :=
  {| mv_id := mv_id m; mv_code := mv_code m; mv_contentType := mv_contentType m;
     mv_title := mv_title m; mv_posterId := mv_posterId m;
     mv_country := mv_country m; mv_language := mv_language m;
     mv_quality := mv_quality m; mv_duration := mv_duration m;
     mv_isAdult := mv_isAdult m; mv_fileId := mv_fileId m;
     mv_episodes := mv_episodes m; mv_views := mv_views m;
     mv_downloads := mv_downloads m; mv_ratingSum := mv_ratingSum m + score;
     mv_ratingCount := mv_ratingCount m + 1;
     mv_ratedUsers := mv_ratedUsers m ++ [userId];
     mv_addedBy := mv_addedBy m |}.

Definition set_step (s : Step) (st : Session) : Session :=
  {| action := action st; step := Some s; data := data st;
     contentType := contentType st; permissionRequired := permissionRequired st;
     timestamp := timestamp st; pendingCode := pendingCode st;
     movieId := movieId st; field := field st;
     tempEpisodeData := tempEpisodeData st; s_type := s_type st;
     s_msg := s_msg st |}.

Definition set_data (d : Draft) (st : Session) : Session :=
  {| action := action st; step := step st; data := Some d;
     contentType := contentType st; permissionRequired := permissionRequired st;
     timestamp := timestamp st; pendingCode := pendingCode st;
     movieId := movieId st; field := field st;
     tempEpisodeData := tempEpisodeData st; s_type := s_type st;
     s_msg := s_msg st |}.

Definition set_tempEpisodeData (t : TempEpisode) (st : Session) : Session :=
  {| action := action st; step := step st; data := data st;
     contentType := contentType st; permissionRequired := permissionRequired st;
     timestamp := timestamp st; pendingCode := pendingCode st;
     movieId := movieId st; field := field st;
     tempEpisodeData := Some t; s_type := s_type st;
     s_msg := s_msg st |}.

Definition set_msg (m : Msg) (st : Session) : Session :=
  {| action := action st; step := step st; data := data st;
     contentType := contentType st; permissionRequired := permissionRequired st;
     timestamp := timestamp st; pendingCode := pendingCode st;
     movieId := movieId st; field := field st;
     tempEpisodeData := tempEpisodeData st; s_type := s_type st;
     s_msg := Some m |}.

(** A fresh session object [{ action, timestamp: Date.now() }]; the
    callbacks fill in the fields their wizard uses. *)
Definition new_session (a : Action) (now : Z) : Session :=
  {| action := a; step := None; data := None; contentType := None;
     permissionRequired := None; timestamp := Some now; pendingCode := None;
     movieId := None; field := None; tempEpisodeData := None;
     s_type := None; s_msg := None |}.

Definition empty_draft : Draft :=
  {| d_fileId := None; d_quality := None; d_duration := None;
     d_posterId := None; d_title := None; d_country := None;
     d_language := None; d_isAdult := None; d_name := None |}.

Definition set_d_posterId (v : string) (d : Draft) : Draft :=
  {| d_fileId := d_fileId d; d_quality := d_quality d; d_duration := d_duration d;
     d_posterId := Some v; d_title := d_title d; d_country := d_country d;
     d_language := d_language d; d_isAdult := d_isAdult d; d_name := d_name d |}.

Definition set_d_title (v : string) (d : Draft) : Draft :=
  {| d_fileId := d_fileId d; d_quality := d_quality d; d_duration := d_duration d;
     d_posterId := d_posterId d; d_title := Some v; d_country := d_country d;
     d_language := d_language d; d_isAdult := d_isAdult d; d_name := d_name d |}.

Definition set_d_country (v : string) (d : Draft) : Draft :=
  {| d_fileId := d_fileId d; d_quality := d_quality d; d_duration := d_duration d;
     d_posterId := d_posterId d; d_title := d_title d; d_country := Some v;
     d_language := d_language d; d_isAdult := d_isAdult d; d_name := d_name d |}.

Definition set_d_language (v : string) (d : Draft) : Draft :=
  {| d_fileId := d_fileId d; d_quality := d_quality d; d_duration := d_duration d;
     d_posterId := d_posterId d; d_title := d_title d; d_country := d_country d;
     d_language := Some v; d_isAdult := d_isAdult d; d_name := d_name d |}.

Definition set_d_isAdult (v : bool) (d : Draft) : Draft :=
  {| d_fileId := d_fileId d; d_quality := d_quality d; d_duration := d_duration d;
     d_posterId := d_posterId d; d_title := d_title d; d_country := d_country d;
     d_language := d_language d; d_isAdult := Some v; d_name := d_name d |}.

(** ** Collection operations *)

(** [updateOne]: the first document matching [p] is changed by [f]. *)
Fixpoint update_first {A} (p : A -> bool) (f : A -> A) (l : list A) : list A :=
  match l with
  | [] => []
  | x :: r => if p x then f x :: r else x :: update_first p f r
  end.

(** [deleteOne], [findByIdAndDelete]: the first document matching [p]
    is removed. *)
Fixpoint delete_first {A} (p : A -> bool) (l : list A) : list A :=
  match l with
  | [] => []
  | x :: r => if p x then r else x :: delete_first p r
  end.

(** A truthy string: defined and not empty. *)
Definition truthy (s : option string) : bool :=
  match s with
  | Some (String _ _) => true
  | _ => false
  end.

(** ** Utilities (section 3 of the source) *)

Definition sanitize (str : string) : string :=
  trim (replace_all dq "&quot;"
         (replace_all ">"%char "&gt;"
           (replace_all "<"%char "&lt;"
             (replace_all "&"%char "&amp;" str)))).

Definition detectQuality (w : option Z) : string :=
  match w with
  | None => "480p"
  | Some w =>
      if w =? 0 then "480p"
      else if 3840 <=? w then "4K UHD"
      else if 1920 <=? w then "1080p FHD"
      else if 1280 <=? w then "720p HD"
      else "480p HQ"
  end.

Definition formatDuration (d : option Z) : string :=
  match d with
  | None => "00:00"
  | Some d =>
      if d =? 0 then "00:00"
      else
        let h := d / 3600 in
        let m := (Z.rem d 3600) / 60 in
        let s := Z.rem d 60 in
        (if 0 <? h then pretty h +:+ ":" else "")
          +:+ pretty m +:+ ":" +:+ padStart2 (pretty s)
  end.

(** [(msg.text || msg.caption || '').trim()] *)
Definition msg_text (msg : Msg) : string :=
  trim (str_or (m_text msg) (str_or (m_caption msg) "")).

Section Bot.

(** [CONFIG.superAdminId] and the transport the bot talks to. *)
Variable superAdminId : Z.
Variable tr : Transport.

(** *** Persisted store *)

Definition User_findOne (tid : Z) : M (option UserDoc) :=
  gets (fun w => List.find (fun u => u_telegramId u =? tid) (users w)).

Definition User_updateOne_telegramId (tid : Z) (f : UserDoc -> UserDoc) : M unit :=
  modify (with_users (update_first (fun u => u_telegramId u =? tid) f)).

Definition User_updateOne_id (id : nat) (f : UserDoc -> UserDoc) : M unit :=
  modify (with_users (update_first (fun u => Nat.eqb (u_id u) id) f)).

Definition new_user (id : nat) (tid : Z) (firstName : string)
    (username : option string) : UserDoc :=
  {| u_id := id; u_telegramId := tid; u_firstName := firstName;
     u_username := username; u_birthYear := None; u_isBanned := false;
     u_isActive := true; u_lastMessageId := None; u_canDownload := true;
     u_contentProtected := false |}.

(** [User.findOneAndUpdate({ telegramId }, { $setOnInsert: ..., isActive: true },
    { upsert: true, new: true, setDefaultsOnInsert: true })] *)
Definition User_findOneAndUpdate (tid : Z) (firstName : string)
    (username : option string) : M UserDoc :=
  let! found := User_findOne tid in
  match found with
  | Some u =>
      User_updateOne_telegramId tid (set_u_isActive true);;
      ret (set_u_isActive true u)
  | None =>
      let! id := gets nextId in
      let u := new_user id tid firstName username in
      modify (with_nextId S);;
      modify (with_users (fun us => us ++ [u]));;
      ret u
  end.

(** A query on the [Number] path [code]: [NaN] does not cast. *)
Definition Movie_findOne (code : JsNum) : M (option MovieDoc) :=
  match code with
  | None => throw CastError
  | Some c => gets (fun w => List.find (fun m => mv_code m =? c) (movies w))
  end.

Definition Movie_findById (id : option string) : M (option MovieDoc) :=
  match id with
  | None => ret None
  | Some i => gets (fun w => List.find (fun m => String.eqb (mv_id m) i) (movies w))
  end.

(** [movie.save()] after in-place changes [f] of the loaded document. *)
Definition Movie_save (id : string) (f : MovieDoc -> MovieDoc) : M unit :=
  modify (with_movies (update_first (fun m => String.eqb (mv_id m) id) f)).

(** The [_id] of a new content record is the decimal numeral of the
    store's counter. *)
Definition Movie_create (doc : string -> MovieDoc) : M MovieDoc :=
  let! n := gets nextId in
  let id := pretty (Z.of_nat n) in
  modify (with_nextId S);;
  modify (with_movies (fun ms => ms ++ [doc id]));;
  ret (doc id).

Definition Admin_findOne (tid : Z) : M (option AdminDoc) :=
  gets (fun w => List.find (fun a => a_telegramId a =? tid) (admins w)).

(** Schema defaults of [permissions]. *)
Definition default_permissions : Permissions :=
  {| p_movies := true; p_channels := true; p_settings := false;
     p_users := true; p_broadcast := false; p_admins := false |}.

Definition Admin_create (tid addedBy : Z) : M AdminDoc :=
  let a := {| a_telegramId := tid; a_addedBy := addedBy;
              a_permissions := default_permissions |} in
  modify (with_admins (fun l => l ++ [a]));;
  ret a.

Definition Channel_findOne_type (t : ChannelType) : M (option ChannelDoc) :=
  gets (fun w => List.find (fun c => bool_decide (ch_type c = t)) (channels w)).

(** [Channel.findOneAndUpdate({ channelId }, { channelId, name, url, type },
    { upsert: true })] *)
Definition Channel_upsert (cid : string) (name : option string) (url : string)
    (t : option ChannelType) : M unit :=
  let! found := gets (fun w => List.find (fun c => String.eqb (ch_channelId c) cid) (channels w)) in
  match found with
  | Some _ =>
      modify (with_channels (update_first (fun c => String.eqb (ch_channelId c) cid)
        (fun c => {| ch_id := ch_id c; ch_channelId := cid; ch_name := name;
                     ch_url := url; ch_type := default (ch_type c) t |})))
  | None =>
      let! n := gets nextId in
      modify (with_nextId S);;
      modify (with_channels (fun l => l ++
        [{| ch_id := pretty (Z.of_nat n); ch_channelId := cid; ch_name := name; ch_url := url;
            ch_type := default main t |}]))
  end.

(** *** Security helpers *)

Definition safeDelete (chatId : Z) (msgId : option Z) : M unit :=
  match msgId with
  | None => ret tt
  | Some id => if id =? 0 then ret tt else emit (EDelete chatId id)
  end.

Definition safeSend (chatId : Z) (text : Notice) : M (option Z) :=
  emit (ESend chatId text);;
  match sendMessage tr chatId text with
  | Delivered mid => ret (Some mid)
  | Failed code =>
      (if bool_decide (code = Some 403)
       then User_updateOne_telegramId chatId (set_u_isActive false)
       else ret tt);;
      ret None
  end.

Definition isFlooding (now userId : Z) : M bool :=
  let! last := gets (fun w => default 0 (floodMap w !! userId)) in
  if now - last <? floodLimit then ret true
  else modify (with_floodMap <[userId := now]>);; ret false.

Definition isUserAdmin (now userId : Z) : M bool :=
  if userId =? superAdminId then ret true
  else
    let! cached := gets (fun w => adminCache w !! userId) in
    match cached with
    | Some c =>
        if now <? c_expire c then ret (c_isAdmin c)
        else
          let! admin := Admin_findOne userId in
          let isAdmin := bool_decide (is_Some admin) in
          modify (with_adminCache
            <[userId := {| c_isAdmin := isAdmin; c_expire := now + adminCacheTTL |}]>);;
          ret isAdmin
    | None =>
        let! admin := Admin_findOne userId in
        let isAdmin := bool_decide (is_Some admin) in
        modify (with_adminCache
          <[userId := {| c_isAdmin := isAdmin; c_expire := now + adminCacheTTL |}]>);;
        ret isAdmin
    end.

Definition get_perm (perm : Perm) (p : Permissions) : bool :=
  match perm with
  | P_movies => p_movies p
  | P_channels => p_channels p
  | P_settings => p_settings p
  | P_users => p_users p
  | P_broadcast => p_broadcast p
  | P_admins => p_admins p
  end.

Definition hasPermission (userId : Z) (perm : Perm) : M bool :=
  if userId =? superAdminId then ret true
  else
    let! admin := Admin_findOne userId in
    match admin with
    | None => ret false
    | Some a => ret (get_perm perm (a_permissions a))
    end.

(** [['left', 'kicked'].includes(res.status)] *)
Definition not_joined (s : MemberStatus) : bool :=
  match s with
  | left | kicked => true
  | _ => false
  end.

(** The [for (const ch of channels)] loop of [checkSubscription]. *)
Fixpoint check_channels (userId : Z) (chs : list ChannelDoc) : M (list ChannelDoc) :=
  match chs with
  | [] => ret []
  | ch :: rest =>
      let! missing := try_catch
        (emit (EGetChatMember (ch_channelId ch) userId);;
         let! res := await (getChatMember tr (ch_channelId ch) userId) in
         ret (if not_joined res then [ch] else []))
        (fun e => emit (ELog (LSubscription (ch_channelId ch)));; ret []) in
      let! others := check_channels userId rest in
      ret (missing ++ others)
  end.

Definition checkSubscription (now userId : Z) : M (list ChannelDoc) :=
  let! a := isUserAdmin now userId in
  if a then ret []
  else
    let! chs := gets channels in
    match chs with
    | [] => ret []
    | _ => check_channels userId chs
    end.

(** *** Panels and cards *)

Definition all_permissions : Permissions :=
  {| p_movies := true; p_channels := true; p_settings := true;
     p_users := true; p_broadcast := true; p_admins := true |}.

Definition showAdminPanel (now chatId : Z) (msgId : option Z) : M unit :=
  let! a := isUserAdmin now chatId in
  if a then
    let! admin := Admin_findOne chatId in
    let p := if chatId =? superAdminId then Some all_permissions
             else a_permissions <$> admin in
    let txt := NAdminPanel p (chatId =? superAdminId) in
    match msgId with
    | Some _ => emit (EEdit chatId msgId txt)
    | None => safeSend chatId txt;; ret tt
    end
  else ret tt.

Definition showEditMoviePanel (chatId : Z) (mid : option string) (msgId : option Z) : M unit :=
  let! m := Movie_findById mid in
  match m with
  | None => safeSend chatId NNotFound;; ret tt
  | Some m =>
      match msgId with
      | Some _ => emit (EEdit chatId msgId (NEditMoviePanel m))
      | None => safeSend chatId (NEditMoviePanel m);; ret tt
      end
  end.

Definition showChannelsPanel (chatId : Z) (msgId : option Z) : M unit :=
  let! cs := gets channels in
  emit (EEdit chatId msgId (NChannelsPanel cs)).

Definition showUserManagePanel (chatId : Z) (u : UserDoc) (msgId : option Z) : M unit :=
  match msgId with
  | Some _ => emit (EEdit chatId msgId (NUserPanel u))
  | None => safeSend chatId (NUserPanel u);; ret tt
  end.

Definition showAdminPermsPanel (chatId : Z) (a : AdminDoc) (msgId : option Z) : M unit :=
  match msgId with
  | Some _ => emit (EEdit chatId msgId (NAdminPermsPanel a))
  | None => safeSend chatId (NAdminPermsPanel a);; ret tt
  end.

Definition sendSubRequest (chatId : Z) (chs : list ChannelDoc) : M unit :=
  safeSend chatId (NSubRequest chs);; ret tt.

Definition showMovieCard (chatId : Z) (code : string) : M unit :=
  let! m := Movie_findOne (parseInt code) in
  match m with
  | None => safeSend chatId NCardNotFound;; ret tt
  | Some mv =>
      modify (with_movies (update_first (fun m => mv_code m =? mv_code mv)
        (edit_movie id id id id id id id (fun v => v + 1))));;
      if truthy (mv_posterId mv)
      then emit (EPhoto (pretty chatId) (NCard mv))
      else safeSend chatId (NCard mv);; ret tt
  end.

Definition handleMovieCodeRequest (now chatId : Z) (codeStr : string) : M unit :=
  let! missing := checkSubscription now chatId in
  match missing with
  | _ :: _ =>
      modify (with_state <[chatId :=
        {| action := WAITING_SUB; step := None; data := None; contentType := None;
           permissionRequired := None; timestamp := Some now;
           pendingCode := Some codeStr; movieId := None; field := None;
           tempEpisodeData := None; s_type := None; s_msg := None |}]>);;
      sendSubRequest chatId missing
  | [] => showMovieCard chatId codeStr
  end.

(** *** The admin wizard ([handleAdminInput]) *)

(** [state.delete(chatId)] *)
Definition state_delete (chatId : Z) : M unit :=
  modify (with_state (delete chatId)).

(** An assignment to a field of the session object [st], which is the
    object stored under [chatId]. *)
Definition st_assign (chatId : Z) (f : Session -> Session) : M unit :=
  modify (with_state (alter f chatId)).

(** The [username] computed at the [URL] step of the channel wizard. *)
Definition channel_username (text : string) : M string :=
  if includes text "t.me/" then
    let! p1 := defined (js_split text "t.me/" !! 1%nat) in
    let! p2 := defined (head (js_split p1 "/")) in
    let! p3 := defined (head (js_split p2 "?")) in
    ret ("@" +:+ p3)
  else if negb (startsWith text "@") && negb (startsWith text "-100")
  then ret ("@" +:+ text)
  else ret text.

(** [ADD_CONTENT], step [CODE], after the code was found free. *)
Definition create_content (now chatId : Z) (st : Session) (code : Z) : M unit :=
  let d := default empty_draft (data st) in
  let! eps :=
    if bool_decide (contentType st = Some series)
    then let! sd := defined (data st) in
         ret [{| e_number := 1; e_fileId := d_fileId sd;
                 e_name := "1-qism"; e_addedAt := now |}]
    else ret [] in
  let! m := Movie_create (fun id =>
    {| mv_id := id; mv_code := code;
       mv_contentType := default movie (contentType st);
       mv_title := trim <$> d_title d; mv_posterId := d_posterId d;
       mv_country := d_country d; mv_language := d_language d;
       mv_quality := d_quality d; mv_duration := d_duration d;
       mv_isAdult := default false (d_isAdult d);
       mv_fileId := if bool_decide (contentType st = Some series)
                    then None else d_fileId d;
       mv_episodes := eps; mv_views := 0; mv_downloads := 0;
       mv_ratingSum := 0; mv_ratingCount := 0; mv_ratedUsers := [];
       mv_addedBy := chatId |}) in
  let! conf := gets settings in
  (if default false (autoPost <$> conf) then
     let! codesChannel := Channel_findOne_type movie_codes in
     match codesChannel with
     | Some c =>
         try_catch
           (emit (EPhoto (ch_channelId c) (NAutoPost m));;
            await (sendPhoto tr (ch_channelId c)))
           (fun e => emit (ELog LAutoPost))
     | None => ret tt
     end
   else ret tt);;
  state_delete chatId;;
  safeSend chatId (NContentAdded (contentType st) code);;
  showAdminPanel now chatId None.

Definition add_content (now chatId : Z) (msg : Msg) (st : Session) (text : string) : M unit :=
  match step st with
  | Some VIDEO =>
      match m_video msg with
      | None => safeSend chatId NSendVideo;; ret tt
      | Some v =>
          st_assign chatId (set_data
            {| d_fileId := Some (v_file_id v);
               d_quality := Some (detectQuality (v_width v));
               d_duration := Some (formatDuration (v_duration v));
               d_posterId := None; d_title := None; d_country := None;
               d_language := None; d_isAdult := None; d_name := None |});;
          st_assign chatId (set_step POSTER);;
          safeSend chatId NAskPoster;; ret tt
      end
  | Some POSTER =>
      match m_photo msg with
      | None => safeSend chatId NSendPhoto;; ret tt
      | Some photo =>
          let! size := defined (last photo) in
          let! d := defined (data st) in
          st_assign chatId (set_data (set_d_posterId size d));;
          st_assign chatId (set_step TITLE);;
          safeSend chatId NAskTitle;; ret tt
      end
  | Some TITLE =>
      let! d := defined (data st) in
      st_assign chatId (set_data (set_d_title (sanitize text) d));;
      st_assign chatId (set_step COUNTRY);;
      safeSend chatId NAskCountry;; ret tt
  | Some COUNTRY =>
      let! d := defined (data st) in
      st_assign chatId (set_data (set_d_country (sanitize text) d));;
      st_assign chatId (set_step LANG);;
      safeSend chatId NAskLang;; ret tt
  | Some LANG =>
      let! d := defined (data st) in
      st_assign chatId (set_data (set_d_language (sanitize text) d));;
      st_assign chatId (set_step ADULT);;
      safeSend chatId NAskAdult;; ret tt
  | Some CODE =>
      match parseInt text with
      | None => safeSend chatId NOnlyNumber;; ret tt
      | Some code =>
          let! taken := Movie_findOne (Some code) in
          match taken with
          | Some _ => safeSend chatId NCodeTaken;; ret tt
          | None => create_content now chatId st code
          end
      end
  | _ => ret tt
  end.

Definition add_episode (now chatId : Z) (msg : Msg) (st : Session) (text : string) : M unit :=
  let! found := Movie_findById (movieId st) in
  match found with
  | None => state_delete chatId;; safeSend chatId NSeriesNotFound;; ret tt
  | Some mv =>
      match step st with
      | Some VIDEO =>
          match m_video msg with
          | None => safeSend chatId NSendEpisodeVideo;; ret tt
          | Some v =>
              st_assign chatId (set_tempEpisodeData
                {| te_fileId := v_file_id v;
                   te_quality := detectQuality (v_width v) |});;
              st_assign chatId (set_step NAME);;
              safeSend chatId
                (NAskEpisodeName (Z.of_nat (length (mv_episodes mv)) + 1));;
              ret tt
          end
      | Some NAME =>
          let nextEpNum := Z.of_nat (length (mv_episodes mv)) + 1 in
          let epName := sanitize text in
          let! te := defined (tempEpisodeData st) in
          Movie_save (mv_id mv)
            (edit_movie id id id (fun _ => Some (te_quality te)) id id
               (fun eps => eps ++
                  [{| e_number := nextEpNum; e_fileId := Some (te_fileId te);
                      e_name := epName; e_addedAt := now |}])
               id);;
          state_delete chatId;;
          safeSend chatId (NEpisodeAdded nextEpNum epName);;
          showEditMoviePanel chatId (Some (mv_id mv)) None
      | _ => ret tt
      end
  end.

Definition add_channel (chatId : Z) (st : Session) (text : string) : M unit :=
  match step st with
  | Some NAME =>
      st_assign chatId (set_data
        {| d_fileId := None; d_quality := None; d_duration := None;
           d_posterId := None; d_title := None; d_country := None;
           d_language := None; d_isAdult := None;
           d_name := Some (sanitize text) |});;
      st_assign chatId (set_step URL);;
      safeSend chatId NAskChannelUrl;; ret tt
  | Some URL =>
      let! username := channel_username text in
      let! d := defined (data st) in
      try_catch
        (let! channelId :=
           if is_channel_id text then ret text
           else
             emit (EGetChat username);;
             let! chat := await (getChat tr username) in
             ret (pretty chat) in
         Channel_upsert channelId (d_name d) text (s_type st);;
         state_delete chatId;;
         safeSend chatId (NChannelAdded channelId (d_name d));;
         showChannelsPanel chatId None)
        (fun e =>
           emit (ELog LChannelAdd);;
           safeSend chatId NChannelError;; ret tt)
  | _ => ret tt
  end.

Definition edit_field (chatId : Z) (msg : Msg) (st : Session) (text : string) : M unit :=
  let! found := Movie_findById (movieId st) in
  match found with
  | Some mv =>
      let saved (f : MovieDoc -> MovieDoc) : M unit :=
        Movie_save (mv_id mv) f;;
        safeSend chatId NEdited;;
        state_delete chatId;;
        showEditMoviePanel chatId (movieId st) None in
      match field st with
      | Some F_title =>
          saved (edit_movie (fun _ => Some (trim (sanitize text))) id id id id id id id)
      | Some F_country =>
          saved (edit_movie id id (fun _ => Some (sanitize text)) id id id id id)
      | Some F_posterId =>
          match m_photo msg with
          | Some photo =>
              let! size := defined (last photo) in
              saved (edit_movie id (fun _ => Some size) id id id id id id)
          | None => safeSend chatId NSendPhotoPlease;; ret tt
          end
      | Some F_fileId =>
          match mv_contentType mv with
          | movie =>
              match m_video msg with
              | Some v =>
                  saved (edit_movie id id id
                    (fun _ => Some (detectQuality (v_width v)))
                    (fun _ => Some (formatDuration (v_duration v)))
                    (fun _ => Some (v_file_id v)) id id)
              | None => safeSend chatId NSendVideoFile;; ret tt
              end
          | series => saved id
          end
      | _ => saved id
      end
  | None => state_delete chatId;; safeSend chatId NMovieNotFound;; ret tt
  end.

(** The body of the [try] block of [handleAdminInput]. *)
Definition admin_input_body (now chatId : Z) (msg : Msg) (st : Session) (text : string) : M unit :=
  match action st with
  | ADD_CONTENT => add_content now chatId msg st text
  | ADD_EPISODE => add_episode now chatId msg st text
  | ADD_CHANNEL => add_channel chatId st text
  | EDIT_SEARCH =>
      let! found := Movie_findOne (parseInt text) in
      match found with
      | None => safeSend chatId NNotFound;; ret tt
      | Some mv =>
          state_delete chatId;;
          showEditMoviePanel chatId (Some (mv_id mv)) None
      end
  | EDIT_FIELD => edit_field chatId msg st text
  | BROADCAST =>
      st_assign chatId (set_msg msg);;
      safeSend chatId NConfirmBroadcast;; ret tt
  | SEARCH_USER =>
      match parseInt text with
      | None => safeSend chatId NOnlyNumericId;; ret tt
      | Some tid =>
          let! u := User_findOne tid in
          state_delete chatId;;
          match u with
          | Some u => showUserManagePanel chatId u None
          | None => safeSend chatId NUserNotFound;; ret tt
          end
      end
  | MANAGE_ADMIN_ID =>
      match parseInt text with
      | None => safeSend chatId NOnlyNumericAdminId;; ret tt
      | Some tid =>
          if tid =? superAdminId then safeSend chatId NSuperAdminImmune;; ret tt
          else
            let! found := Admin_findOne tid in
            let! adm :=
              match found with
              | Some a => ret a
              | None => Admin_create tid chatId
              end in
            state_delete chatId;;
            showAdminPermsPanel chatId adm None
      end
  | _ => ret tt
  end.

Definition handleAdminInput (now chatId : Z) (msg : Msg) : M unit :=
  let! stored := gets (fun w => state w !! chatId) in
  let! st := defined stored in
  let text := msg_text msg in
  let! allowed :=
    match permissionRequired st with
    | Some perm => hasPermission chatId perm
    | None => ret true
    end in
  if negb allowed then
    state_delete chatId;;
    safeSend chatId NNoPermission;; ret tt
  else
    try_catch (admin_input_body now chatId msg st text)
      (fun e =>
         emit (ELog LAdminInputError);;
         state_delete chatId;;
         safeSend chatId NSystemError;; ret tt).

(** *** The message handler ([bot.on('message')]) *)

(** [!user.birthYear] is false *)
Definition has_birthYear (u : UserDoc) : bool :=
  match u_birthYear u with
  | Some y => negb (y =? 0)
  | None => false
  end.

Definition set_session (chatId : Z) (st : Session) : M unit :=
  modify (with_state <[chatId := st]>).

(** The [STATE HANDLER] block; the result says whether the handler
    returned from inside the block. *)
Definition state_handler (now currentYear : Z) (msg : Msg) (user : UserDoc)
    (st : Session) : M bool :=
  let chatId := m_chat msg in
  let text := msg_text msg in
  if stateTTL <? now - default 0 (timestamp st) then
    state_delete chatId;;
    safeSend chatId NSessionExpired;; ret true
  else if bool_decide (action st = ASK_BIRTH_YEAR) then
    match parseInt text with
    | None => safeSend chatId (NBadYear currentYear);; ret true
    | Some year =>
        if (year <? 1950) || (currentYear <? year)
        then safeSend chatId (NBadYear currentYear);; ret true
        else
          User_updateOne_id (u_id user) (set_u_birthYear year);;
          state_delete chatId;;
          safeSend chatId NYearSaved;;
          match pendingCode st with
          | Some (String c r) => handleMovieCodeRequest now chatId (String c r)
          | _ => ret tt
          end;;
          ret true
    end
  else
    let! a := isUserAdmin now chatId in
    if a then handleAdminInput now chatId msg;; ret true
    else ret false.

(** What follows the [STATE HANDLER] block. *)
Definition message_tail (now : Z) (msg : Msg) (user : UserDoc) : M unit :=
  let chatId := m_chat msg in
  let text := msg_text msg in
  if negb (has_birthYear user) then
    let args := if startsWith text "/start " then js_split text " " !! 1%nat else None in
    set_session chatId
      {| action := ASK_BIRTH_YEAR; step := None; data := None; contentType := None;
         permissionRequired := None; timestamp := Some now; pendingCode := args;
         movieId := None; field := None; tempEpisodeData := None;
         s_type := None; s_msg := None |};;
    safeSend chatId NAskBirthYear;; ret tt
  else if startsWith text "/start" then
    safeDelete chatId (u_lastMessageId user);;
    let args := js_split text " " !! 1%nat in
    let! missing := checkSubscription now chatId in
    match missing with
    | _ :: _ =>
        (if truthy args then
           set_session chatId
             {| action := WAITING_SUB; step := None; data := None;
                contentType := None; permissionRequired := None;
                timestamp := Some now; pendingCode := args; movieId := None;
                field := None; tempEpisodeData := None; s_type := None;
                s_msg := None |}
         else ret tt);;
        sendSubRequest chatId missing
    | [] =>
        if truthy args && all_digits (default "" args)
        then showMovieCard chatId (default "" args)
        else
          let! a := isUserAdmin now chatId in
          if a then showAdminPanel now chatId None
          else
            Channel_findOne_type movie_codes;;
            safeSend chatId NWelcome;; ret tt
    end
  else
    let! panel :=
      if String.eqb text "/admin" then isUserAdmin now chatId else ret false in
    if panel then showAdminPanel now chatId None
    else if all_digits text then handleMovieCodeRequest now chatId text
    else ret tt.

Definition message_body (now currentYear : Z) (msg : Msg) : M unit :=
  let chatId := m_chat msg in
  let! user := User_findOneAndUpdate chatId
                 (sanitize (default "" (m_first_name msg))) (m_username msg) in
  if u_isBanned user then ret tt
  else
    let! stored := gets (fun w => state w !! chatId) in
    let! returned :=
      match stored with
      | Some st => state_handler now currentYear msg user st
      | None => ret false
      end in
    if returned then ret tt else message_tail now msg user.

Definition on_message (now currentYear : Z) (msg : Msg) : M unit :=
  let! flooding := isFlooding now (m_chat msg) in
  if flooding then ret tt
  else
    try_catch (message_body now currentYear msg)
      (fun e => emit (ELog LHandlerError)).

(** *** Rating ([handleRating]) *)

(** [parseInt] of an array element that may be [undefined]. *)
Definition parseInt_at (parts : list string) (i : nat) : JsNum :=
  match parts !! i with
  | Some s => parseInt s
  | None => None
  end.

(** The filter [{ code: code, ratedUsers: { $ne: userId } }] *)
Definition can_rate (userId code : Z) (m : MovieDoc) : bool :=
  (mv_code m =? code) && negb (existsb (Z.eqb userId) (mv_ratedUsers m)).

Definition handleRating (userId : Z) (data : string) : M unit :=
  let parts := js_split data "_" in
  match parseInt_at parts 1, parseInt_at parts 2 with
  | Some code, Some score =>
      let! modified := gets (fun w => existsb (can_rate userId code) (movies w)) in
      modify (with_movies (update_first (can_rate userId code) (rate_movie userId score)));;
      if modified then emit (EAnswer (ARated score) false)
      else emit (EAnswer AAlreadyVoted true)
  | _, _ => throw CastError
  end.

(** *** Downloads and series navigation *)

Definition isDownloadFlooding (now userId : Z) : M bool :=
  let! last := gets (fun w => default 0 (downloadLimitMap w !! userId)) in
  if now - last <? downloadCooldown then ret true
  else modify (with_downloadLimitMap <[userId := now]>);; ret false.

(** [!conf.globalDownload || !user.restrictions.canDownload], with
    [conf] defaulting to [{ globalDownload: true }] and [user] possibly
    [null]. *)
Definition download_forbidden (conf : option SettingsDoc) (user : option UserDoc) : M bool :=
  if negb (default true (globalDownload <$> conf)) then ret true
  else let! u := defined user in ret (negb (u_canDownload u)).

(** [conf.globalProtection || user.restrictions.contentProtected] *)
Definition protect_content (conf : option SettingsDoc) (user : option UserDoc) : M bool :=
  if default false (globalProtection <$> conf) then ret true
  else let! u := defined user in ret (u_contentProtected u).

Definition handleDownloadMovie (now userId : Z) (data : string) : M unit :=
  let! flooding := isDownloadFlooding now userId in
  if flooding then emit (EAnswer AWait true)
  else
    let code := parseInt_at (js_split data "_") 1 in
    let! found := Movie_findOne code in
    match found with
    | None => emit (EAnswer ANotFound true)
    | Some mv =>
        let! user := User_findOne userId in
        let! conf := gets settings in
        let! forbidden := download_forbidden conf user in
        if forbidden then emit (EAnswer ADownloadForbidden true)
        else
          emit (EAnswer ASending false);;
          emit (EChatAction userId);;
          modify (with_movies (update_first (fun m => mv_code m =? mv_code mv) inc_downloads));;
          let! protect := protect_content conf user in
          try_catch
            (emit (EVideo userId (mv_fileId mv) protect);;
             await (sendVideo tr userId (mv_fileId mv)))
            (fun e => safeSend userId NVideoError;; ret tt)
    end.

Definition handleDownloadEpisode (now userId : Z) (data : string) : M unit :=
  let! flooding := isDownloadFlooding now userId in
  if flooding then emit (EAnswer AWait true)
  else
    let parts := js_split data "_" in
    let code := parseInt_at parts 2 in
    let epNum := parseInt_at parts 3 in
    let! found := Movie_findOne code in
    match found with
    | Some mv =>
        match mv_contentType mv with
        | series =>
            match List.find (fun e => bool_decide (Some (e_number e) = epNum)) (mv_episodes mv) with
            | None => emit (EAnswer AEpisodeNotFound true)
            | Some episode =>
                let! user := User_findOne userId in
                let! conf := gets settings in
                let! forbidden := download_forbidden conf user in
                if forbidden then emit (EAnswer ADownloadForbidden true)
                else
                  emit (EAnswer (ASendingEpisode epNum) false);;
                  emit (EChatAction userId);;
                  let! protect := protect_content conf user in
                  try_catch
                    (emit (EVideo userId (e_fileId episode) protect);;
                     await (sendVideo tr userId (e_fileId episode)))
                    (fun e => safeSend userId NEpisodeVideoError;; ret tt)
            end
        | movie => emit (EAnswer ASeriesNotFound true)
        end
    | None => emit (EAnswer ASeriesNotFound true)
    end.

Definition handleSeriesNavigation (userId : Z) (data : string) (msgId : Z) : M unit :=
  let parts := js_split data "_" in
  let code := parseInt_at parts 2 in
  let page := parseInt_at parts 3 in
  let! found := Movie_findOne code in
  match found with
  | None => emit (EAnswer ASeriesNotFound false)
  | Some mv =>
      try_catch
        (emit (EEditMarkup userId msgId (mv_code mv) page);;
         await (editMessageReplyMarkup tr userId msgId);;
         emit (EAnswer AEmpty false))
        (fun e => emit (EAnswer ARefreshed false))
  end.

(** *** Statistics and settings panels *)

Definition showStatistics (chatId : Z) (msgId : option Z) : M unit :=
  match msgId with
  | Some _ => emit (EEdit chatId msgId NStatistics)
  | None => safeSend chatId NStatistics;; ret tt
  end.

(** [await Settings.findOne({ key: 'config' }) || await Settings.create({})] *)
Definition Settings_findOrCreate : M SettingsDoc :=
  let! conf := gets settings in
  match conf with
  | Some c => ret c
  | None => modify (with_settings (fun _ => Some default_settings));; ret default_settings
  end.

Definition showSettingsPanel (chatId msgId : Z) : M unit :=
  let! conf := Settings_findOrCreate in
  emit (EEdit chatId (Some msgId) (NSettingsPanel conf)).

(** A query value cast to the [Number] path [telegramId]: [undefined]
    and the empty string match no document, a decimal numeral is its
    value, anything else does not cast. *)
Definition cast_id (v : option string) : M (option Z) :=
  match v with
  | None => ret None
  | Some EmptyString => ret None
  | Some s =>
      match trim s with
      | String "-" r => if all_digits r then ret (parseInt s) else throw CastError
      | String "+" r => if all_digits r then ret (parseInt s) else throw CastError
      | r => if all_digits r then ret (parseInt s) else throw CastError
      end
  end.

(** *** The broadcast controller ([startBroadcast]) *)

Definition set_isActive (b : bool) : M unit :=
  modify (with_controller (fun c => {| isActive := b; shouldStop := shouldStop c |})).

Definition set_shouldStop (b : bool) : M unit :=
  modify (with_controller (fun c => {| isActive := isActive c; shouldStop := b |})).

(** The filter [{ isBanned: false, isActive: true }] *)
Definition eligible (u : UserDoc) : bool := negb (u_isBanned u) && u_isActive u.

(** [startBroadcast] up to the creation of the cursor; the loop goes on
    as a job of the event loop. *)
Definition startBroadcast (now adminId : Z) (message : Msg) : M unit :=
  let! c := gets broadcastController in
  if isActive c then safeSend adminId NBroadcastBusy;; ret tt
  else
    set_isActive true;;
    set_shouldStop false;;
    let! stopMsg := safeSend adminId NBroadcastStarted in
    let! cursor := gets (fun w => List.filter eligible (users w)) in
    modify (with_jobs (fun js => js ++
      [{| j_admin := adminId; j_message := message; j_cursor := cursor;
          j_count := 0; j_blocked := 0; j_startTime := now;
          j_stopMsg := stopMsg |}])).

Inductive JobStatus :=
  | Running (j : Job)
  | Finished.

Definition next_job (j : Job) (rest : list UserDoc) (count blocked : Z) : Job :=
  {| j_admin := j_admin j; j_message := j_message j; j_cursor := rest;
     j_count := count; j_blocked := blocked; j_startTime := j_startTime j;
     j_stopMsg := j_stopMsg j |}.

(** [e.response && (statusCode === 403 || statusCode === 400)] *)
Definition unreachable (code : option Z) : bool :=
  match code with
  | Some c => (c =? 403) || (c =? 400)
  | None => false
  end.

(** One turn of the [for] loop: [cursor.next()], the stop check, the
    relay; or, with the cursor exhausted, what follows the loop. *)
Definition broadcast_iteration (now : Z) (j : Job) : M JobStatus :=
  match j_cursor j with
  | user :: rest =>
      let! c := gets broadcastController in
      if shouldStop c then
        set_isActive false;;
        safeSend (j_admin j) (NBroadcastStopped (j_count j));;
        ret Finished
      else
        emit (ECopy (u_telegramId user) (m_chat (j_message j))
                (m_message_id (j_message j)));;
        match copyMessage tr (u_telegramId user) (m_chat (j_message j))
                (m_message_id (j_message j)) with
        | Delivered _ => ret (Running (next_job j rest (j_count j + 1) (j_blocked j)))
        | Failed code =>
            if unreachable code then
              User_updateOne_id (u_id user) (set_u_isActive false);;
              ret (Running (next_job j rest (j_count j) (j_blocked j + 1)))
            else ret (Running (next_job j rest (j_count j) (j_blocked j)))
        end
  | [] =>
      set_isActive false;;
      let! stopMsgId := defined (j_stopMsg j) in
      safeDelete (j_admin j) (Some stopMsgId);;
      safeSend (j_admin j)
        (NBroadcastFinished (j_count j) (j_blocked j) (now - j_startTime j));;
      ret Finished
  end.

(** The loop run without interleaving, for at most [fuel] turns. *)
Fixpoint run_job (fuel : nat) (now : Z) (j : Job) : M JobStatus :=
  match fuel with
  | O => ret (Running j)
  | S fuel' =>
      let! r := broadcast_iteration now j in
      match r with
      | Running j' => run_job fuel' now j'
      | Finished => ret Finished
      end
  end.

(** *** The callback handler ([bot.on('callback_query')]) *)

Record Callback := {
  q_chat : Z;
  q_message_id : Z;
  q_data : string;
}.

(** A sequence of [if] blocks, each of which may [return]: a block
    yields [true] when the handler returned inside it. *)
Fixpoint blocks (l : list (M bool)) : M unit :=
  match l with
  | [] => ret tt
  | b :: r =>
      let! returned := b in
      if returned then ret tt else blocks r
  end.

Definition when (c : bool) (body : M bool) : M bool :=
  if c then body else ret false.

Definition parse_field (s : string) : Field :=
  if String.eqb s "title" then F_title
  else if String.eqb s "country" then F_country
  else if String.eqb s "posterId" then F_posterId
  else if String.eqb s "fileId" then F_fileId
  else F_other s.

Definition wizard (a : Action) (s : option Step) (ct : option ContentType)
    (perm : option Perm) (now : Z) (mid : option string) (f : option Field)
    (t : option ChannelType) : Session :=
  {| action := a; step := s; data := None; contentType := ct;
     permissionRequired := perm; timestamp := Some now; pendingCode := None;
     movieId := mid; field := f; tempEpisodeData := None; s_type := t;
     s_msg := None |}.

(** The [adult_yes] / [adult_no] block. *)
Definition adult_flag (chatId msgId : Z) (yes : bool) : M unit :=
  let! st := gets (fun w => state w !! chatId) in
  match st with
  | Some st =>
      if bool_decide (action st = ADD_CONTENT) then
        let! d := defined (data st) in
        st_assign chatId (set_data (set_d_isAdult yes d));;
        st_assign chatId (set_step CODE);;
        safeDelete chatId (Some msgId);;
        safeSend chatId NAskCode;; ret tt
      else ret tt
  | None => ret tt
  end.

(** The [confirm_broadcast] block. *)
Definition confirm_broadcast (now chatId msgId : Z) : M unit :=
  let! st := gets (fun w => state w !! chatId) in
  match st ≫= s_msg with
  | Some m =>
      state_delete chatId;;
      safeDelete chatId (Some msgId);;
      startBroadcast now chatId m
  | None => ret tt
  end.

(** The [stop_broadcast] block. *)
Definition stop_broadcast : M unit :=
  let! c := gets broadcastController in
  if isActive c then
    set_shouldStop true;;
    emit (EAnswer AStopping false)
  else emit (EAnswer ANothingToStop true).

(** The [try] block of the callback handler: its [if] blocks, in the
    order of the source. *)
Definition callback_body (now : Z) (q : Callback) : M unit :=
  let chatId := q_chat q in
  let qdata := q_data q in
  let msgId := q_message_id q in
  blocks [
    when (String.eqb qdata "cancel_action")
      (state_delete chatId;;
       safeDelete chatId (Some msgId);;
       let! a := isUserAdmin now chatId in
       (if a then showAdminPanel now chatId None
        else emit (ESend chatId NCancelled));;
       ret true);
    when (String.eqb qdata "check_sub")
      (let! missing := checkSubscription now chatId in
       match missing with
       | [] =>
           emit (EDelete chatId msgId);;
           await (deleteMessage tr chatId msgId);;
           let! st := gets (fun w => state w !! chatId) in
           match st ≫= pendingCode with
           | Some (String c r) => showMovieCard chatId (String c r)
           | _ => safeSend chatId NSubConfirmed;; ret tt
           end
       | _ :: _ => emit (EAnswer ANotSubscribed true)
       end;;
       ret true);
    when (startsWith qdata "rate_") (handleRating chatId qdata;; ret false);
    when (startsWith qdata "dl_") (handleDownloadMovie now chatId qdata;; ret false);
    when (startsWith qdata "s_nav_")
      (handleSeriesNavigation chatId qdata msgId;; ret false);
    when (startsWith qdata "s_dl_") (handleDownloadEpisode now chatId qdata;; ret false);
    when (String.eqb qdata "noop") (emit (EAnswer AEmpty false);; ret true);
    (let! a := isUserAdmin now chatId in ret (negb a));
    when (String.eqb qdata "admin_home")
      (showAdminPanel now chatId (Some msgId);; ret false);
    when (String.eqb qdata "admin_stats")
      (showStatistics chatId (Some msgId);; ret false);
    when (String.eqb qdata "admin_add_content_select")
      (let! p := hasPermission chatId P_movies in
       if negb p then emit (EAnswer ANoPermission true);; ret true
       else safeSend chatId NChooseContentType;; ret false);
    when (String.eqb qdata "start_add_movie" || String.eqb qdata "start_add_series")
      (let type := if String.eqb qdata "start_add_movie" then movie else series in
       set_session chatId
         (wizard ADD_CONTENT (Some VIDEO) (Some type) (Some P_movies) now None None None);;
       safeDelete chatId (Some msgId);;
       safeSend chatId (NAskVideo type);; ret false);
    when (String.eqb qdata "adult_yes" || String.eqb qdata "adult_no")
      (adult_flag chatId msgId (String.eqb qdata "adult_yes");; ret false);
    when (String.eqb qdata "admin_edit_movie")
      (let! p := hasPermission chatId P_movies in
       if negb p then ret true
       else
         set_session chatId
           (wizard EDIT_SEARCH None None (Some P_movies) now None None None);;
         safeSend chatId NAskEditCode;; ret false);
    when (startsWith qdata "ed_f_")
      (let parts := js_split qdata "_" in
       let f := parse_field <$> parts !! 2%nat in
       set_session chatId
         (wizard EDIT_FIELD None None (Some P_movies) now (parts !! 3%nat) f None);;
       safeDelete chatId (Some msgId);;
       safeSend chatId (NAskNewValue (default (F_other "") f));; ret false);
    when (startsWith qdata "add_ep_")
      (set_session chatId
         (wizard ADD_EPISODE (Some VIDEO) None (Some P_movies) now
            (js_split qdata "_" !! 2%nat) None None);;
       safeSend chatId NAskNextEpisode;; ret false);
    when (String.eqb qdata "admin_channels")
      (let! p := hasPermission chatId P_channels in
       if negb p then ret true
       else showChannelsPanel chatId (Some msgId);; ret false);
    when (String.eqb qdata "add_ch_main" || String.eqb qdata "add_ch_codes")
      (let! p := hasPermission chatId P_channels in
       if negb p then ret true
       else
         set_session chatId
           (wizard ADD_CHANNEL (Some NAME) None (Some P_channels) now None None
              (Some (if String.eqb qdata "add_ch_main" then main else movie_codes)));;
         safeSend chatId NAskChannelName;; ret false);
    when (startsWith qdata "del_ch_")
      (let! p := hasPermission chatId P_channels in
       if negb p then ret true
       else
         match js_split qdata "_" !! 2%nat with
         | Some cid =>
             modify (with_channels (delete_first (fun c => String.eqb (ch_id c) cid)))
         | None => ret tt
         end;;
         showChannelsPanel chatId (Some msgId);; ret false);
    when (String.eqb qdata "admin_broadcast")
      (let! p := hasPermission chatId P_broadcast in
       if negb p then ret true
       else
         set_session chatId
           (wizard BROADCAST None None (Some P_broadcast) now None None None);;
         safeSend chatId NAskBroadcastPost;; ret false);
    when (String.eqb qdata "confirm_broadcast")
      (confirm_broadcast now chatId msgId;; ret false);
    when (String.eqb qdata "stop_broadcast") (stop_broadcast;; ret false);
    when (String.eqb qdata "admin_settings")
      (let! p := hasPermission chatId P_settings in
       if negb p then ret true
       else showSettingsPanel chatId msgId;; ret false);
    when (startsWith qdata "tog_set_")
      (let k := default "undefined" (js_split qdata "_" !! 2%nat) in
       let! c := Settings_findOrCreate in
       modify (with_settings (fun _ => Some (toggle_setting k c)));;
       showSettingsPanel chatId msgId;; ret false);
    when (String.eqb qdata "admin_users")
      (let! p := hasPermission chatId P_users in
       if negb p then ret true
       else
         set_session chatId
           (wizard SEARCH_USER None None (Some P_users) now None None None);;
         safeSend chatId NAskUserId;; ret false);
    when (startsWith qdata "usr_")
      (let parts := js_split qdata "_" in
       let act := default "undefined" (parts !! 1%nat) in
       let! uid := cast_id (parts !! 2%nat) in
       let! found :=
         match uid with
         | Some tid => User_findOne tid
         | None => ret None
         end in
       match found with
       | Some u =>
           let u1 := if String.eqb act "ban" then toggle_u_isBanned u else u in
           let u2 := if String.eqb act "dl" then toggle_u_canDownload u1 else u1 in
           User_updateOne_id (u_id u) (fun _ => u2);;
           showUserManagePanel chatId u2 (Some msgId)
       | None => ret tt
       end;;
       ret false);
    when (String.eqb qdata "admin_permission_setup")
      (set_session chatId
         (wizard MANAGE_ADMIN_ID None None None now None None None);;
       safeSend chatId NAskAdminId;; ret false);
    when (startsWith qdata "perm_")
      (let parts := js_split qdata "_" in
       let k := default "undefined" (parts !! 1%nat) in
       let! uid := cast_id (parts !! 2%nat) in
       let! found :=
         match uid with
         | Some tid => Admin_findOne tid
         | None => ret None
         end in
       match found with
       | Some a =>
           let a' := {| a_telegramId := a_telegramId a; a_addedBy := a_addedBy a;
                        a_permissions := toggle_perm k (a_permissions a) |} in
           modify (with_admins
             (update_first (fun x => a_telegramId x =? a_telegramId a) (fun _ => a')));;
           match parseInt_at parts 2 with
           | Some tid => modify (with_adminCache (delete tid))
           | None => ret tt
           end;;
           showAdminPermsPanel chatId a' (Some msgId)
       | None => ret tt
       end;;
       ret false);
    when (startsWith qdata "del_admin_")
      (match parseInt_at (js_split qdata "_") 2 with
       | Some uid =>
           modify (with_admins (delete_first (fun a => a_telegramId a =? uid)))
       | None => throw CastError
       end;;
       safeSend chatId NDeleted;;
       showAdminPanel now chatId None;; ret false);
    when (startsWith qdata "ed_del_")
      (match js_split qdata "_" !! 2%nat with
       | Some mid =>
           modify (with_movies (delete_first (fun m => String.eqb (mv_id m) mid)))
       | None => ret tt
       end;;
       safeSend chatId NDeleted;;
       showAdminPanel now chatId None;; ret false)
  ].

Definition on_callback (now : Z) (q : Callback) : M unit :=
  try_catch (callback_body now q)
    (fun e =>
       emit (ELog LCallbackError);;
       emit (EAnswer ASystemError false)).

(** *** The memory cleanup service ([setInterval], every minute) *)

Definition sweep (now : Z) : M unit :=
  modify (with_floodMap (filter (fun kv => ¬ (now - kv.2 > floodLimit * 2))));;
  modify (with_downloadLimitMap (filter (fun kv => ¬ (now - kv.2 > downloadCooldown))));;
  modify (with_state
    (filter (fun kv => ¬ (now - default 0 (timestamp kv.2) > stateTTL))));;
  modify (with_adminCache (filter (fun kv => ¬ (now > c_expire kv.2)))).

(** *** The event loop *)

Inductive Event :=
  | EvMessage (now currentYear : Z) (msg : Msg)
  | EvCallback (now : Z) (q : Callback)
  | EvBroadcast (now : Z) (i : nat)
  | EvSweep (now : Z).

(** The [i]-th running broadcast takes one turn of its loop; an
    exception ends it as an unhandled rejection. *)
Definition broadcast_turn (now : Z) (i : nat) : M unit :=
  let! js := gets jobs in
  match js !! i with
  | None => ret tt
  | Some j =>
      try_catch
        (let! r := broadcast_iteration now j in
         match r with
         | Running j' => modify (with_jobs <[i := j']>)
         | Finished => modify (with_jobs (delete i))
         end)
        (fun e =>
           emit (ELog LUnhandledRejection);;
           modify (with_jobs (delete i)))
  end.

Definition handle (ev : Event) : M unit :=
  match ev with
  | EvMessage now currentYear msg => on_message now currentYear msg
  | EvCallback now q => on_callback now q
  | EvBroadcast now i => broadcast_turn now i
  | EvSweep now => sweep now
  end.

Definition step_world (ev : Event) (w : World) : World := (handle ev w).2.

Definition run_events (evs : list Event) (w : World) : World :=
  foldl (fun w ev => step_world ev w) w evs.

End Bot.

(** * Inline keyboards ([generateSeriesKeyboard], [showMovieCard]) *)

(** The caption of a button; each constructor stands for one text of
    the source. *)
Inductive Label :=
  | LStars (r : Z)                      (* r stars *)
  | LEpisode (number : Z)               (* the episode number *)
  | LPrevious                           (* Oldingi *)
  | LNext                               (* Keyingi *)
  | LShare                              (* Do'stlarga ulashish *)
  | LDownload (quality : option string). (* Yuklab olish (quality) *)

Inductive Target :=
  | CallbackData (data : string)
  | Url (url : string).

Record Button := {
  b_label : Label;
  b_target : Target;
}.

(** [arr.slice(start, end)]: a negative bound counts from the end, and
    both bounds are clamped to the array. *)
Definition slice_bound (len i : Z) : Z :=
  if i <? 0 then Z.max (len + i) 0 else Z.min i len.

Definition slice {A} (l : list A) (start end_ : Z) : list A :=
  let len := Z.of_nat (length l) in
  let k := slice_bound len start in
  let final := slice_bound len end_ in
  take (Z.to_nat (final - k)) (drop (Z.to_nat k) l).

(** [`rate_${code}_${r}`] *)
Definition rate_data (code r : Z) : string :=
  "rate_" +:+ pretty code +:+ "_" +:+ pretty r.

(** [`s_dl_${code}_${number}`] *)
Definition episode_data (code number : Z) : string :=
  "s_dl_" +:+ pretty code +:+ "_" +:+ pretty number.

(** [`s_nav_${code}_${page}`] *)
Definition nav_data (code page : Z) : string :=
  "s_nav_" +:+ pretty code +:+ "_" +:+ pretty page.


(** [[1, 2, 3, 4, 5].map(r => ...)] *)
Definition ratingRow (mv : MovieDoc) : list Button :=
  map (fun r => {| b_label := LStars r; b_target := CallbackData (rate_data (mv_code mv) r) |})
      [1; 2; 3; 4; 5].

Definition episode_button (mv : MovieDoc) (ep : Episode) : Button :=
  {| b_label := LEpisode (e_number ep);
     b_target := CallbackData (episode_data (mv_code mv) (e_number ep)) |}.

(** The loop that fills [rows]: [tempRow] is pushed when it holds three
    buttons or the last button has been added. *)
Fixpoint button_rows (tempRow : list Button) (epButtons : list Button) : list (list Button) :=
  match epButtons with
  | [] => []
  | b :: rest =>
      let tempRow := tempRow ++ [b] in
      if (length tempRow =? 3)%nat || bool_decide (rest = [])
      then tempRow :: button_rows [] rest
      else button_rows tempRow rest
  end.

(** [navRow]; with [page] being [NaN] both comparisons are false. *)
Definition navRow (mv : MovieDoc) (page end_ : JsNum) (totalEps : Z) : list Button :=
  (match page with
   | Some p =>
       if 0 <? p
       then [{| b_label := LPrevious;
                b_target := CallbackData (nav_data (mv_code mv) (p - 1)) |}]
       else []
   | None => []
   end) ++
  (match page, end_ with
   | Some p, Some e =>
       if e <? totalEps
       then [{| b_label := LNext;
                b_target := CallbackData (nav_data (mv_code mv) (p + 1)) |}]
       else []
   | _, _ => []
   end).

Definition share_button (botUsername : string) (mv : MovieDoc) : Button :=
  {| b_label := LShare;
     b_target := Url ("https://t.me/share/url?url=https://t.me/" +:+ botUsername
                      +:+ "?start=" +:+ pretty (mv_code mv)) |}.

(** [generateSeriesKeyboard(movie, page)]; a [NaN] bound of [slice] is
    read as 0. *)
Definition generateSeriesKeyboard (botUsername : string) (mv : MovieDoc)
    (page : JsNum) : list (list Button) :=
  let limit := 5 in
  let totalEps := Z.of_nat (length (mv_episodes mv)) in
  let start := (fun p => p * limit) <$> page in
  let end_ := (fun s => s + limit) <$> start in
  let currentEps := slice (mv_episodes mv) (default 0 start) (default 0 end_) in
  let epButtons := map (episode_button mv) currentEps in
  let rows := button_rows [] epButtons in
  ratingRow mv :: rows ++ [navRow mv page end_ totalEps; [share_button botUsername mv]].


(** * Vocabulary of the statements, and example data *)

(** [Rel R m] says that running [m] takes every world to an [R]-related
    one, whether [m] returns or throws.  For a reflexive and transitive
    [R] the property passes through [bind] and [try_catch], so a handler
    respects [R] as soon as its primitive steps do. *)
Definition Rel (R : World -> World -> Prop) {A} (m : M A) : Prop :=
  forall w, R w (m w).2.

Definition is_copy (e : Effect) : bool :=
  match e with
  | ECopy _ _ _ => true
  | _ => false
  end.

(** The steps of the handlers outside the broadcast controller: updates
    of the session, cache and store tables, and any outward action other
    than a relay. *)
Record Frame (R : World -> World -> Prop) : Prop := {
  fr_refl : forall w, R w w;
  fr_trans : forall a b c, R a b -> R b c -> R a c;
  fr_downloadLimitMap : forall f w, R w (with_downloadLimitMap f w);
  fr_state : forall f w, R w (with_state f w);
  fr_adminCache : forall f w, R w (with_adminCache f w);
  fr_users : forall f w, R w (with_users f w);
  fr_movies : forall f w, R w (with_movies f w);
  fr_channels : forall f w, R w (with_channels f w);
  fr_admins : forall f w, R w (with_admins f w);
  fr_settings : forall f w, R w (with_settings f w);
  fr_nextId : forall f w, R w (with_nextId f w);
  fr_out : forall e w, is_copy e = false -> R w (with_out (fun o => o ++ [e]) w);
}.

(** The tables and the controller as the program creates them. *)
Definition initial_world : World :=
  {| floodMap := ∅; downloadLimitMap := ∅; state := ∅; adminCache := ∅;
     broadcastController := {| isActive := false; shouldStop := false |};
     users := []; movies := []; channels := []; admins := [];
     settings := None; nextId := 0; jobs := []; out := [] |}.

(** A transport on which every call succeeds. *)
Definition reliable : Transport :=
  {| sendMessage := fun _ _ => Delivered 1;
     sendPhoto := fun _ => Delivered tt;
     deleteMessage := fun _ _ => Delivered tt;
     copyMessage := fun _ _ _ => Delivered tt;
     getChatMember := fun _ _ => Delivered member;
     getChat := fun _ => Delivered (-1001);
     sendVideo := fun _ _ => Delivered tt;
     editMessageReplyMarkup := fun _ _ => Delivered tt |}.

Definition text_msg (chat : Z) (text : string) : Msg :=
  {| m_chat := chat; m_message_id := 1; m_text := Some text; m_caption := None;
     m_video := None; m_photo := None; m_first_name := Some "Ali";
     m_username := None |}.

(** Nothing but [isFlooding] and the sweep writes the flood table. *)
Definition same_floodMap (w w' : World) : Prop := floodMap w' = floodMap w.

(** The transport failed to answer for this channel. *)
Definition membership_failed (tr : Transport) (userId : Z) (ch : ChannelDoc) : bool :=
  match getChatMember tr (ch_channelId ch) userId with
  | Failed _ => true
  | Delivered _ => false
  end.

(** The transport answered, with a status of [left] or [kicked]. *)
Definition reported_missing (tr : Transport) (userId : Z) (ch : ChannelDoc) : bool :=
  match getChatMember tr (ch_channelId ch) userId with
  | Delivered s => not_joined s
  | Failed _ => false
  end.

(** What checking the channels in turn leaves on the trace. *)
Definition subscription_trace (tr : Transport) (userId : Z) (chs : list ChannelDoc) : list Effect :=
  flat_map (fun ch =>
    EGetChatMember (ch_channelId ch) userId ::
    (if membership_failed tr userId ch then [ELog (LSubscription (ch_channelId ch))] else []))
    chs.

(** Three required channels; the second one cannot be queried. *)
Definition three_channels : list ChannelDoc :=
  [ {| ch_id := "1"; ch_channelId := "-1001"; ch_name := Some "A"; ch_url := "a"; ch_type := main |};
    {| ch_id := "2"; ch_channelId := "-1002"; ch_name := Some "B"; ch_url := "b"; ch_type := main |};
    {| ch_id := "3"; ch_channelId := "-1003"; ch_name := Some "C"; ch_url := "c"; ch_type := main |} ].

Definition lost_access : Transport :=
  {| sendMessage := fun _ _ => Delivered 1;
     sendPhoto := fun _ => Delivered tt;
     deleteMessage := fun _ _ => Delivered tt;
     copyMessage := fun _ _ _ => Delivered tt;
     getChatMember := fun cid _ =>
       if String.eqb cid "-1001" then Delivered left
       else if String.eqb cid "-1002" then Failed (Some 403)
       else Delivered member;
     getChat := fun _ => Delivered (-1001);
     sendVideo := fun _ _ => Delivered tt;
     editMessageReplyMarkup := fun _ _ => Delivered tt |}.

(** Every user appears at most once among the raters of a record, and
    the record counts one rating per rater. *)
Definition rated_once (m : MovieDoc) : Prop :=
  NoDup (mv_ratedUsers m) /\ mv_ratingCount m = Z.of_nat (length (mv_ratedUsers m)).

Definition parasyte : MovieDoc :=
  {| mv_id := "0"; mv_code := 4242; mv_contentType := movie;
     mv_title := Some "Parasyte"; mv_posterId := Some "poster-1";
     mv_country := Some "Japan"; mv_language := Some "Japanese";
     mv_quality := Some "720p HD"; mv_duration := Some "24:00";
     mv_isAdult := false; mv_fileId := Some "video-1"; mv_episodes := [];
     mv_views := 0; mv_downloads := 0; mv_ratingSum := 0; mv_ratingCount := 0;
     mv_ratedUsers := []; mv_addedBy := 1 |}.

(** The relay of the broadcast message to one recipient. *)
Definition relay (tr : Transport) (message : Msg) (u : UserDoc) : Outcome unit :=
  copyMessage tr (u_telegramId u) (m_chat message) (m_message_id message).

Definition relay_effect (message : Msg) (u : UserDoc) : Effect :=
  ECopy (u_telegramId u) (m_chat message) (m_message_id message).

Definition relay_delivered (tr : Transport) (message : Msg) (u : UserDoc) : bool :=
  match relay tr message u with
  | Delivered _ => true
  | Failed _ => false
  end.

(** The relay failed and the failure is classified recipient unreachable. *)
Definition relay_unreachable (tr : Transport) (message : Msg) (u : UserDoc) : bool :=
  match relay tr message u with
  | Delivered _ => false
  | Failed code => unreachable code
  end.

(** The recipients of [cursor] whose relay was unreachable, marked
    inactive one after the other. *)
Definition mark_unreachable (tr : Transport) (message : Msg)
    (cursor : list UserDoc) (us : list UserDoc) : list UserDoc :=
  foldl (fun acc u =>
           if relay_unreachable tr message u
           then update_first (fun x => Nat.eqb (u_id x) (u_id u)) (set_u_isActive false) acc
           else acc)
        us cursor.

Definition count_of (p : UserDoc -> bool) (l : list UserDoc) : Z :=
  Z.of_nat (length (List.filter p l)).

Definition is_log (e : Effect) : bool :=
  match e with
  | ELog _ => true
  | _ => false
  end.

Definition mk_user (id : nat) (tid : Z) : UserDoc :=
  {| u_id := id; u_telegramId := tid; u_firstName := "user"; u_username := None;
     u_birthYear := Some 2000; u_isBanned := false; u_isActive := true;
     u_lastMessageId := None; u_canDownload := true; u_contentProtected := false |}.

Definition five_users : list UserDoc :=
  [mk_user 1 11; mk_user 2 12; mk_user 3 13; mk_user 4 14; mk_user 5 15].

(** Recipient 12 has blocked the bot, recipient 14 is an invalid chat,
    recipient 13 hits a server error. *)
Definition two_unreachable : Transport :=
  {| sendMessage := fun _ _ => Delivered 77;
     sendPhoto := fun _ => Delivered tt;
     deleteMessage := fun _ _ => Delivered tt;
     copyMessage := fun to _ _ =>
       if to =? 12 then Failed (Some 403)
       else if to =? 14 then Failed (Some 400)
       else Delivered tt;
     getChatMember := fun _ _ => Delivered member;
     getChat := fun _ => Delivered (-1001);
     sendVideo := fun _ _ => Delivered tt;
     editMessageReplyMarkup := fun _ _ => Delivered tt |}.

Definition server_error : Transport :=
  {| sendMessage := fun _ _ => Delivered 77;
     sendPhoto := fun _ => Delivered tt;
     deleteMessage := fun _ _ => Delivered tt;
     copyMessage := fun to _ _ => if to =? 13 then Failed (Some 500) else Delivered tt;
     getChatMember := fun _ _ => Delivered member;
     getChat := fun _ => Delivered (-1001);
     sendVideo := fun _ _ => Delivered tt;
     editMessageReplyMarkup := fun _ _ => Delivered tt |}.

Definition five_users_job (cursor : list UserDoc) : Job :=
  {| j_admin := 1; j_message := text_msg 1 "news"; j_cursor := cursor;
     j_count := 0; j_blocked := 0; j_startTime := 1000; j_stopMsg := Some 77 |}.

Definition five_users_world : World :=
  with_controller (fun _ => {| isActive := true; shouldStop := false |})
    (with_users (fun _ => five_users) initial_world).

(** The stored user, if any, is not banned. *)
Definition not_banned (chatId : Z) (w : World) : Prop :=
  match List.find (fun u => u_telegramId u =? chatId) (users w) with
  | Some u => u_isBanned u = false
  | None => True
  end.

(** A session of the content wizard, at its first step. *)
Definition fresh_add_movie (now : Z) : Session :=
  wizard ADD_CONTENT (Some VIDEO) (Some movie) (Some P_movies) now None None None.

Definition callback (chat : Z) (data : string) : Callback :=
  {| q_chat := chat; q_message_id := 9; q_data := data |}.

(** The capability check at the head of [handleAdminInput] passes. *)
Definition permitted (superAdminId chatId : Z) (st : Session) (w : World) : Prop :=
  forall perm, permissionRequired st = Some perm ->
    (hasPermission superAdminId chatId perm w).1 = Ok true.






(** The step and the draft of an actor's session. *)
Definition step_of (chatId : Z) (w : World) : option Step :=
  match state w !! chatId with
  | Some st => step st
  | None => None
  end.


Definition video_msg (chat : Z) : Msg :=
  {| m_chat := chat; m_message_id := 2; m_text := None; m_caption := None;
     m_video := Some {| v_file_id := "video-1"; v_width := Some 1280; v_duration := Some 1440 |};
     m_photo := None; m_first_name := Some "Ali"; m_username := None |}.

Definition photo_msg (chat : Z) (caption : option string) : Msg :=
  {| m_chat := chat; m_message_id := 3; m_text := None; m_caption := caption;
     m_video := None; m_photo := Some ["small"; "poster-1"];
     m_first_name := Some "Ali"; m_username := None |}.

(** The operator's steps of the specification's example, up to the code
    prompt: video, poster, title, country, language, not adult. *)
Definition add_parasyte : list Event :=
  [EvCallback 1000000 (callback 1 "start_add_movie");
   EvMessage 1001000 2024 (video_msg 1);
   EvMessage 1002000 2024 (photo_msg 1 None);
   EvMessage 1003000 2024 (text_msg 1 "Parasyte");
   EvMessage 1004000 2024 (text_msg 1 "Japan");
   EvMessage 1005000 2024 (text_msg 1 "Japanese");
   EvCallback 1006000 (callback 1 "adult_no")].

(** The same steps, half a minute later. *)
Definition add_parasyte_again : list Event :=
  [EvCallback 1030000 (callback 1 "start_add_movie");
   EvMessage 1031000 2024 (video_msg 1);
   EvMessage 1032000 2024 (photo_msg 1 None);
   EvMessage 1033000 2024 (text_msg 1 "Parasyte");
   EvMessage 1034000 2024 (text_msg 1 "Japan");
   EvMessage 1035000 2024 (text_msg 1 "Japanese");
   EvCallback 1036000 (callback 1 "adult_no")].

(** The controller is active exactly while one broadcast job is under
    way, and there is never a second job. *)
Definition broadcast_inv (w : World) : Prop :=
  match jobs w with
  | [] => isActive (broadcastController w) = false
  | [_] => isActive (broadcastController w) = true
  | _ => False
  end.

Definition keeps_inv (w w' : World) : Prop := broadcast_inv w -> broadcast_inv w'.




(** The initiator, user 11, cannot be written to. *)
Definition blocked_initiator : Transport :=
  {| sendMessage := fun chat _ => if chat =? 11 then Failed (Some 403) else Delivered 77;
     sendPhoto := fun _ => Delivered tt;
     deleteMessage := fun _ _ => Delivered tt;
     copyMessage := fun _ _ _ => Delivered tt;
     getChatMember := fun _ _ => Delivered member;
     getChat := fun _ => Delivered (-1001);
     sendVideo := fun _ _ => Delivered tt;
     editMessageReplyMarkup := fun _ _ => Delivered tt |}.

(** A confirmed broadcast, then a second confirmation while the first
    is under way. *)
Definition broadcast_twice : list Event :=
  [EvCallback 1000000 (callback 1 "admin_broadcast");
   EvMessage 1001000 2024 (text_msg 1 "news");
   EvCallback 1002000 (callback 1 "confirm_broadcast");
   EvCallback 1003000 (callback 1 "admin_broadcast");
   EvMessage 1004000 2024 (text_msg 1 "more news");
   EvCallback 1005000 (callback 1 "confirm_broadcast")].


(** ** Vocabulary of the further properties *)

(** Every character of the string satisfies [p]. *)
Fixpoint string_forall (p : ascii -> bool) (s : string) : bool :=
  match s with
  | EmptyString => true
  | String c r => p c && string_forall p r
  end.

(** The pieces of a callback payload, joined by underscores. *)
Fixpoint join_us (l : list string) : string :=
  match l with
  | [] => ""
  | [x] => x
  | x :: r => x +:+ String "_" (join_us r)
  end.

Definition no_us (c : ascii) : bool := negb (Ascii.eqb c "_").

Definition mk_episode (n : Z) : Episode :=
  {| e_number := n; e_fileId := Some ("episode-" +:+ pretty n);
     e_name := pretty n +:+ "-qism"; e_addedAt := 0 |}.

(** A series of seven episodes, stored under code 77. *)
Definition seven_episodes : MovieDoc :=
  {| mv_id := "1"; mv_code := 77; mv_contentType := series;
     mv_title := Some "Chronicle"; mv_posterId := None;
     mv_country := Some "Korea"; mv_language := Some "Korean";
     mv_quality := Some "720p HD"; mv_duration := Some "45:00";
     mv_isAdult := false; mv_fileId := None;
     mv_episodes := map mk_episode [1; 2; 3; 4; 5; 6; 7];
     mv_views := 0; mv_downloads := 0; mv_ratingSum := 0; mv_ratingCount := 0;
     mv_ratedUsers := []; mv_addedBy := 1 |}.

(** A catalogue of one film and one series, and one registered user. *)
Definition small_catalogue : World :=
  with_movies (fun _ => [parasyte; seven_episodes])
    (with_users (fun _ => [mk_user 1 11]) initial_world).


(** [Keeps I m]: running [m] from a world in which [I] holds ends,
    whether [m] returns or throws, in a world in which [I] holds. *)
Definition Keeps (I : World -> Prop) {A} (m : M A) : Prop :=
  forall w, I w -> I (m w).2.

Definition ratings_consistent (w : World) : Prop := Forall rated_once (movies w).

(** User 11 rates the film twice, downloads it, and rates the series. *)
Definition rating_session : list Event :=
  [EvCallback 1000000 (callback 11 "rate_4242_4");
   EvCallback 1001000 (callback 11 "rate_4242_5");
   EvCallback 1002000 (callback 11 "dl_4242");
   EvCallback 1003000 (callback 11 "rate_77_3")].


Definition sessions_stamped (w : World) : Prop :=
  map_Forall (fun _ st => is_Some (timestamp st)) (state w).

(** An admin record exists for the chat. *)
Definition is_admin_of (l : list AdminDoc) (c : Z) : bool :=
  existsb (fun a => a_telegramId a =? c) l.

(** The chat is neither the super admin nor a recorded admin. *)
Definition outsider (superAdminId : Z) (l : list AdminDoc) (c : Z) : Prop :=
  c <> superAdminId /\ is_admin_of l c = false.

(** The admin cache answers [true] only for recorded admins. *)
Definition cache_sound (w : World) : Prop :=
  forall c e, adminCache w !! c = Some e -> c_isAdmin e = true ->
    is_admin_of (admins w) c = true.

(** What the operators decide about a user. *)
Definition standing (u : UserDoc) : Z * bool * bool * bool :=
  (u_telegramId u, u_isBanned u, u_canDownload u, u_contentProtected u).

(** A content record without its counters and ratings. *)
Definition listing (m : MovieDoc) : MovieDoc :=
  {| mv_id := mv_id m; mv_code := mv_code m; mv_contentType := mv_contentType m;
     mv_title := mv_title m; mv_posterId := mv_posterId m;
     mv_country := mv_country m; mv_language := mv_language m;
     mv_quality := mv_quality m; mv_duration := mv_duration m;
     mv_isAdult := mv_isAdult m; mv_fileId := mv_fileId m;
     mv_episodes := mv_episodes m; mv_views := 0; mv_downloads := 0;
     mv_ratingSum := 0; mv_ratingCount := 0; mv_ratedUsers := [];
     mv_addedBy := mv_addedBy m |}.

(** The operators' data is as in [w0]: the admin, channel and settings
    collections, the catalogue but for counters and ratings, the standing
    of every user of [w0]; with [strict], also the broadcast controller
    and its jobs. *)
Definition operators_data (strict : bool) (w0 w : World) : Prop :=
  admins w = admins w0 /\ channels w = channels w0 /\ settings w = settings w0 /\
  map listing (movies w) = map listing (movies w0) /\
  map standing (users w0) `prefix_of` map standing (users w) /\
  cache_sound w /\
  (strict = true ->
     jobs w = jobs w0 /\ broadcastController w = broadcastController w0).

(** The events of a chat that is not an admin, the turns of a running
    broadcast (unless [strict]) and the sweeps. *)
Definition outside_event (superAdminId : Z) (strict : bool) (l : list AdminDoc)
    (ev : Event) : Prop :=
  match ev with
  | EvMessage _ _ msg => outsider superAdminId l (m_chat msg)
  | EvCallback _ q => outsider superAdminId l (q_chat q)
  | EvBroadcast _ _ => strict = false
  | EvSweep _ => True
  end.

(** Chat 11, who is no admin, tries the operators' buttons and wizard. *)
Definition intrusion : list Event :=
  [EvMessage 1000000 2024 (text_msg 11 "/admin");
   EvCallback 1001000 (callback 11 "admin_permission_setup");
   EvMessage 1002000 2024 (text_msg 11 "11");
   EvCallback 1003000 (callback 11 "tog_set_globalDownload");
   EvCallback 1004000 (callback 11 "usr_ban_11");
   EvCallback 1005000 (callback 11 "ed_del_0");
   EvCallback 1006000 (callback 11 "admin_broadcast");
   EvSweep 1007000;
   EvCallback 1008000 (callback 11 "rate_4242_5")].

Definition stamped_download (userId now : Z) (d : gmap Z Z) (w : World) : Prop :=
  downloadLimitMap w = <[userId := now]> d.

(** [`del_admin_${admin.telegramId}`], the removal button of
    [showAdminPermsPanel]. *)
Definition del_admin_data (tid : Z) : string := "del_admin_" +:+ pretty tid.

Definition same_admin_cache (c : gmap Z CacheEntry) (w : World) : Prop := adminCache w = c.

Definition same_admins (l : list AdminDoc) (w : World) : Prop := admins w = l.

(** Admin 7, recorded by the super admin, has just been seen by the
    admin check at time 1000000. *)
Definition second_admin : AdminDoc :=
  {| a_telegramId := 7; a_addedBy := 1; a_permissions := default_permissions |}.

Definition admin_seen : World :=
  (isUserAdmin 1 1000000 7 (with_admins (fun _ => [second_admin]) initial_world)).2.

(** A character that cannot open or close a tag or an attribute value
    in Telegram's HTML mode. *)
Definition html_safe (c : ascii) : bool :=
  negb (Ascii.eqb c "<" || Ascii.eqb c ">" || Ascii.eqb c dq).

(** The episode at position [i], counting from 0, has number [i + 1]. *)
Definition episodes_numbered (m : MovieDoc) : Prop :=
  forall (i : nat) ep, mv_episodes m !! i = Some ep -> e_number ep = Z.of_nat i + 1.

Definition catalogue_numbered (w : World) : Prop := Forall episodes_numbered (movies w).

(** The super-administrator adds an episode to the series of the
    catalogue: button, video, name. *)
Definition episode_session : list Event :=
  [EvCallback 1000000 (callback 1 "add_ep_1");
   EvMessage 1001000 2024 (video_msg 1);
   EvMessage 1002000 2024 (text_msg 1 "Finale")].

(** No two user records share a Telegram account or an [_id], and every
    [_id] was drawn from the store's counter. *)
Definition users_unique (w : World) : Prop :=
  NoDup (map u_telegramId (users w)) /\
  NoDup (map u_id (users w)) /\
  Forall (fun i => (i < nextId w)%nat) (map u_id (users w)).

(** Two accounts write to the bot for the first time, the first one
    answers the birth-year question, and the super-administrator bans the
    second. *)
Definition signup_session : list Event :=
  [EvMessage 1000000 2024 (text_msg 11 "/start");
   EvMessage 1001000 2024 (text_msg 12 "77");
   EvMessage 1002000 2024 (text_msg 11 "2001");
   EvCallback 1003000 (callback 1 "usr_ban_12")].

(** At most one admin record per account, and none for the
    super-administrator. *)
Definition admins_unique (superAdminId : Z) (w : World) : Prop :=
  NoDup (map a_telegramId (admins w)) /\
  ~ In superAdminId (map a_telegramId (admins w)).

(** The super-administrator names account 7 an admin, twice, then
    names itself. *)
Definition admin_session : list Event :=
  [EvCallback 1000000 (callback 1 "admin_permission_setup");
   EvMessage 1001000 2024 (text_msg 1 "7");
   EvCallback 1002000 (callback 1 "admin_permission_setup");
   EvMessage 1003000 2024 (text_msg 1 "7");
   EvCallback 1004000 (callback 1 "admin_permission_setup");
   EvMessage 1005000 2024 (text_msg 1 "1")].

(** [`usr_ban_${u.telegramId}`] and [`usr_dl_${u.telegramId}`], the
    buttons of [showUserManagePanel]. *)
Definition usr_data (act : string) (tid : Z) : string :=
  "usr_" +:+ act +:+ "_" +:+ pretty tid.

(** Accounts 11 and 12 are registered, and account 7 is an admin who
    may neither manage users nor anything else. *)
Definition powerless_admin : AdminDoc :=
  {| a_telegramId := 7; a_addedBy := 1;
     a_permissions := {| p_movies := false; p_channels := false; p_settings := false;
                         p_users := false; p_broadcast := false; p_admins := false |} |}.

Definition two_users : World :=
  with_nextId (fun _ => 2%nat)
    (with_admins (fun _ => [powerless_admin])
       (with_users (fun _ => [mk_user 0 11; mk_user 1 12]) initial_world)).

(** [`perm_movies_${admin.telegramId}`] and the like, the buttons of
    [showAdminPermsPanel]. *)
Definition perm_data (k : string) (tid : Z) : string :=
  "perm_" +:+ k +:+ "_" +:+ pretty tid.

(** A stored birth year lies between 1950 and [Y]. *)
Definition year_valid (Y : Z) (u : UserDoc) : Prop :=
  forall y, u_birthYear u = Some y -> 1950 <= y <= Y.

Definition years_valid (Y : Z) (w : World) : Prop := Forall (year_valid Y) (users w).

(** The calendar year at which a message is handled is at most [Y]. *)
Definition year_at_most (Y : Z) (ev : Event) : Prop :=
  match ev with
  | EvMessage _ currentYear _ => currentYear <= Y
  | _ => True
  end.

(** Account 11 answers the birth-year question with a year too early,
    a year to come, and its year. *)
Definition birth_year_session : list Event :=
  [EvMessage 1000000 2024 (text_msg 11 "/start");
   EvMessage 1002000 2024 (text_msg 11 "1949");
   EvMessage 1004000 2024 (text_msg 11 "2025");
   EvMessage 1006000 2024 (text_msg 11 "2004")].

Definition same_state (s : gmap Z Session) (w : World) : Prop := state w = s.
Definition same_movies (l : list MovieDoc) (w : World) : Prop := movies w = l.
Definition same_channels (l : list ChannelDoc) (w : World) : Prop := channels w = l.
Definition same_settings (c : option SettingsDoc) (w : World) : Prop := settings w = c.

(** Admin 7 is in the content wizard, and has lost the permission it
    requires. *)
Definition revoked_wizard : World :=
  with_state <[7 := fresh_add_movie 1000000]> two_users.

(** [{ $inc: { views: 1 } }] *)
Definition viewed (m : MovieDoc) : MovieDoc :=
  edit_movie id id id id id id id (fun v => v + 1) m.

(** What [checkSubscription] returns and leaves on the trace: nothing
    for an admin, and for anyone else the channels reported missing and
    the queries made. *)
Definition gate_missing (superAdminId : Z) (tr : Transport) (now userId : Z)
    (w : World) : list ChannelDoc :=
  match (isUserAdmin superAdminId now userId w).1 with
  | Ok true => []
  | _ => List.filter (reported_missing tr userId) (channels w)
  end.

Definition gate_trace (superAdminId : Z) (tr : Transport) (now userId : Z)
    (w : World) : list Effect :=
  match (isUserAdmin superAdminId now userId w).1 with
  | Ok true => []
  | _ => subscription_trace tr userId (channels w)
  end.

(** The card of [showMovieCard], as a photo when the record has a
    poster. *)
Definition card_effect (chatId : Z) (mv : MovieDoc) : Effect :=
  if truthy (mv_posterId mv) then EPhoto (pretty chatId) (NCard mv)
  else ESend chatId (NCard mv).

(** [{ action: 'WAITING_SUB', pendingCode: codeStr, timestamp: Date.now() }] *)
Definition waiting_sub (now : Z) (codeStr : string) : Session :=
  {| action := WAITING_SUB; step := None; data := None; contentType := None;
     permissionRequired := None; timestamp := Some now;
     pendingCode := Some codeStr; movieId := None; field := None;
     tempEpisodeData := None; s_type := None; s_msg := None |}.

(** The catalogue behind three required channels, and a transport that
    reports every account as having left them. *)
Definition gated_catalogue : World :=
  with_channels (fun _ => three_channels) small_catalogue.

Definition not_joined_yet : Transport :=
  {| sendMessage := fun _ _ => Delivered 1;
     sendPhoto := fun _ => Delivered tt;
     deleteMessage := fun _ _ => Delivered tt;
     copyMessage := fun _ _ _ => Delivered tt;
     getChatMember := fun _ _ => Delivered left;
     getChat := fun _ => Delivered (-1001);
     sendVideo := fun _ _ => Delivered tt;
     editMessageReplyMarkup := fun _ _ => Delivered tt |}.

(** Account 11 has asked for code 4242 before joining. *)
Definition waiting_world : World :=
  (on_message 1 not_joined_yet 1000000 2024 (text_msg 11 "4242") gated_catalogue).2.

(** No two channel records share a channel id. *)
Definition channels_unique (w : World) : Prop :=
  NoDup (map ch_channelId (channels w)).

(** The super-administrator adds the channel [@kinolar] twice, the
    second time by its link. *)
Definition channel_session : list Event :=
  [EvCallback 1000000 (callback 1 "add_ch_main");
   EvMessage 1001000 2024 (text_msg 1 "Kinolar");
   EvMessage 1002000 2024 (text_msg 1 "@kinolar");
   EvCallback 1003000 (callback 1 "add_ch_main");
   EvMessage 1004000 2024 (text_msg 1 "Kinolar 2");
   EvMessage 1005000 2024 (text_msg 1 "https://t.me/kinolar")].

(** A transport that cannot resolve any chat. *)
Definition chat_unknown : Transport :=
  {| sendMessage := fun _ _ => Delivered 1;
     sendPhoto := fun _ => Delivered tt;
     deleteMessage := fun _ _ => Delivered tt;
     copyMessage := fun _ _ _ => Delivered tt;
     getChatMember := fun _ _ => Delivered member;
     getChat := fun _ => Failed (Some 400);
     sendVideo := fun _ _ => Delivered tt;
     editMessageReplyMarkup := fun _ _ => Delivered tt |}.

(** The super-administrator has named a new channel and is asked for
    its link. *)
Definition naming_channel : World :=
  run_events 1 reliable (take 2 channel_session) initial_world.

(** * Reasoning about handlers *)

Section RelLemmas.

Variable R : World -> World -> Prop.
Hypothesis HR : Frame R.

Lemma rel_ret {A} (a : A) : Rel R (ret a).
Proof. intros w. apply (fr_refl R HR). Qed.

Lemma rel_throw {A} (e : Exn) : Rel R (@throw A e).
Proof. intros w. apply (fr_refl R HR). Qed.

Lemma rel_gets {A} (f : World -> A) : Rel R (gets f).
Proof. intros w. apply (fr_refl R HR). Qed.

Lemma rel_defined {A} (o : option A) : Rel R (defined o).
Proof. destruct o; [apply rel_ret | apply rel_throw]. Qed.

Lemma rel_await {A} (o : Outcome A) : Rel R (await o).
Proof. destruct o; [apply rel_ret | apply rel_throw]. Qed.

Lemma rel_modify (f : World -> World) : (forall w, R w (f w)) -> Rel R (modify f).
Proof. intros H w. apply H. Qed.

Lemma rel_bind {A B} (m : M A) (k : A -> M B) :
  Rel R m -> (forall a, Rel R (k a)) -> Rel R (bind m k).
Proof.
  intros Hm Hk w. unfold bind. specialize (Hm w).
  destruct (m w) as [[a|e] w']; cbn in *.
  - eapply (fr_trans R HR); [exact Hm | apply Hk].
  - exact Hm.
Qed.

Lemma rel_try_catch {A} (m : M A) (h : Exn -> M A) :
  Rel R m -> (forall e, Rel R (h e)) -> Rel R (try_catch m h).
Proof.
  intros Hm Hh w. unfold try_catch. specialize (Hm w).
  destruct (m w) as [[a|e] w']; cbn in *.
  - exact Hm.
  - eapply (fr_trans R HR); [exact Hm | apply Hh].
Qed.

Lemma rel_emit (e : Effect) : is_copy e = false -> Rel R (emit e).
Proof. intros H. apply rel_modify. intros w. apply (fr_out R HR). exact H. Qed.

Lemma rel_blocks (l : list (M bool)) : Forall (Rel R) l -> Rel R (blocks l).
Proof.
  induction 1 as [|b r Hb _ IH]; cbn.
  - apply rel_ret.
  - apply rel_bind; [exact Hb|]. intros [|]; [apply rel_ret | exact IH].
Qed.

Lemma rel_when (c : bool) (body : M bool) : Rel R body -> Rel R (when c body).
Proof. intros H. destruct c; cbn; [exact H | apply rel_ret]. Qed.

End RelLemmas.

Ltac head_of t :=
  match t with
  | ?f _ => head_of f
  | _ => t
  end.

(** Decomposes a goal [Rel R m] along the structure of [m]. *)
Ltac rel_step HR :=
  match goal with
  | |- Rel _ (ret _) => apply (rel_ret _ HR)
  | |- Rel _ (throw _) => apply (rel_throw _ HR)
  | |- Rel _ (gets _) => apply (rel_gets _ HR)
  | |- Rel _ (defined _) => apply (rel_defined _ HR)
  | |- Rel _ (await _) => apply (rel_await _ HR)
  | |- Rel _ (emit _) => apply (rel_emit _ HR); reflexivity
  | |- Rel _ (bind _ _) => apply (rel_bind _ HR); [| intros ?]
  | |- Rel _ (try_catch _ _) => apply (rel_try_catch _ HR); [| intros ?]
  | |- Rel _ (when _ _) => apply (rel_when _ HR)
  | |- Rel _ (blocks _) => apply (rel_blocks _ HR)
  | |- Forall _ (_ :: _) => constructor
  | |- Forall _ [] => constructor
  | |- Rel _ (modify (with_downloadLimitMap _)) =>
      apply (rel_modify _); apply (fr_downloadLimitMap _ HR)
  | |- Rel _ (modify (with_settings _)) => apply (rel_modify _); apply (fr_settings _ HR)
  | |- Rel _ (modify (with_state _)) => apply (rel_modify _); apply (fr_state _ HR)
  | |- Rel _ (modify (with_adminCache _)) => apply (rel_modify _); apply (fr_adminCache _ HR)
  | |- Rel _ (modify (with_users _)) => apply (rel_modify _); apply (fr_users _ HR)
  | |- Rel _ (modify (with_movies _)) => apply (rel_modify _); apply (fr_movies _ HR)
  | |- Rel _ (modify (with_channels _)) => apply (rel_modify _); apply (fr_channels _ HR)
  | |- Rel _ (modify (with_admins _)) => apply (rel_modify _); apply (fr_admins _ HR)
  | |- Rel _ (modify (with_nextId _)) => apply (rel_modify _); apply (fr_nextId _ HR)
  | |- Rel _ (modify _) => apply (rel_modify _); solve [eauto]
  | |- Rel _ (match ?x with _ => _ end) => destruct x
  | |- Rel _ (let _ := _ in _) => cbv zeta
  | |- Rel _ _ => solve [eauto]
  | |- Rel _ ?m => let h := head_of m in progress unfold h
  end.

Ltac rel_auto HR := repeat rel_step HR.

Section RelHandlers.

Variable R : World -> World -> Prop.
Hypothesis HR : Frame R.
Variable superAdminId : Z.
Variable tr : Transport.

Lemma rel_check_channels userId chs : Rel R (check_channels tr userId chs).
Proof. induction chs as [|ch rest IH]; cbn; rel_auto HR. Qed.

Lemma rel_message_body now currentYear msg :
  Rel R (message_body superAdminId tr now currentYear msg).
Proof.
  pose proof rel_check_channels as Hc.
  rel_auto HR.
Qed.

(** The steps of the remaining handlers. *)
Hypothesis H_floodMap : forall f w, R w (with_floodMap f w).
Hypothesis H_confirm : forall now chatId m, Rel R (startBroadcast tr now chatId m).
Hypothesis H_stop : Rel R stop_broadcast.
Hypothesis H_turn : forall now i, Rel R (broadcast_turn tr now i).

Lemma rel_on_message now currentYear msg :
  Rel R (on_message superAdminId tr now currentYear msg).
Proof.
  pose proof rel_message_body as Hb.
  unfold on_message, isFlooding. rel_auto HR.
Qed.

Lemma rel_on_callback now q : Rel R (on_callback superAdminId tr now q).
Proof.
  pose proof rel_check_channels as Hc.
  unfold on_callback, callback_body.
  rel_auto HR.
Qed.

Lemma rel_sweep now : Rel R (sweep now).
Proof. unfold sweep. rel_auto HR. Qed.

Lemma rel_handle ev : Rel R (handle superAdminId tr ev).
Proof.
  destruct ev; cbn;
    [apply rel_on_message | apply rel_on_callback | apply H_turn | apply rel_sweep].
Qed.

Lemma rel_run_events evs w : R w (run_events superAdminId tr evs w).
Proof.
  revert w. induction evs as [|ev evs IH]; intros w; cbn.
  - apply (fr_refl R HR).
  - eapply (fr_trans R HR); [apply (rel_handle ev w) | apply IH].
Qed.

End RelHandlers.

(** * The rate limiter *)

Lemma isFlooding_throttled now userId w :
  now - default 0 (floodMap w !! userId) < floodLimit ->
  isFlooding now userId w = (Ok true, w).
Proof.
  intros H. unfold isFlooding, bind, gets.
  destruct (Z.ltb_spec (now - default 0 (floodMap w !! userId)) floodLimit); [reflexivity | lia].
Qed.

Lemma isFlooding_accepted now userId w :
  floodLimit <= now - default 0 (floodMap w !! userId) ->
  isFlooding now userId w = (Ok false, with_floodMap <[userId := now]> w).
Proof.
  intros H. unfold isFlooding, bind, gets.
  destruct (Z.ltb_spec (now - default 0 (floodMap w !! userId)) floodLimit); [lia | reflexivity].
Qed.

Lemma same_floodMap_frame : Frame same_floodMap.
Proof.
  split; unfold same_floodMap; intros; cbn; try reflexivity.
  etransitivity; eassumption.
Qed.

Lemma message_body_floodMap superAdminId tr now currentYear msg w :
  floodMap (message_body superAdminId tr now currentYear msg w).2 = floodMap w.
Proof. apply (rel_message_body same_floodMap same_floodMap_frame). Qed.

Lemma on_message_throttled superAdminId tr now currentYear msg w :
  now - default 0 (floodMap w !! m_chat msg) < floodLimit ->
  on_message superAdminId tr now currentYear msg w = (Ok tt, w).
Proof.
  intros H. unfold on_message, bind. rewrite isFlooding_throttled by exact H.
  reflexivity.
Qed.

Lemma on_message_accepted superAdminId tr now currentYear msg w :
  floodLimit <= now - default 0 (floodMap w !! m_chat msg) ->
  floodMap (on_message superAdminId tr now currentYear msg w).2
    = <[m_chat msg := now]> (floodMap w).
Proof.
  intros H. unfold on_message, bind. rewrite isFlooding_accepted by exact H.
  unfold try_catch.
  pose proof (message_body_floodMap superAdminId tr now currentYear msg
                (with_floodMap <[m_chat msg := now]> w)) as Hb.
  destruct (message_body _ _ _ _ _ _) as [[[]|e] w']; cbn in *; exact Hb.
Qed.

(** C3. [isFlooding] answers [true] and leaves the stored time alone
    when less than the window has elapsed since the recorded action, and
    otherwise records the current time and answers [false]; the message
    handler drops a throttled message with no reply and no change at
    all.  Hence of two messages of one actor, the first accepted at
    [now] and the second arriving at [t2] within the window that
    acceptance opened, exactly the first is acted on. *)
Theorem C3_flood_guard (superAdminId : Z) (tr : Transport) (w : World) (userId now : Z) :
  let last := default 0 (floodMap w !! userId) in
  (now - last < floodLimit -> isFlooding now userId w = (Ok true, w)) /\
  (floodLimit <= now - last ->
     isFlooding now userId w = (Ok false, with_floodMap <[userId := now]> w)) /\
  (forall y m, m_chat m = userId -> now - last < floodLimit ->
     on_message superAdminId tr now y m w = (Ok tt, w)) /\
  (forall y1 y2 m1 m2 t2,
     m_chat m1 = userId -> m_chat m2 = userId ->
     floodLimit <= now - last -> t2 - now < floodLimit ->
     let w1 := (on_message superAdminId tr now y1 m1 w).2 in
     (isFlooding now userId w).1 = Ok false /\
     (isFlooding t2 userId w1).1 = Ok true /\
     on_message superAdminId tr t2 y2 m2 w1 = (Ok tt, w1)).
Proof.
  cbv zeta. repeat split.
  - apply isFlooding_throttled.
  - apply isFlooding_accepted.
  - intros y m <- H. apply on_message_throttled, H.
  - rewrite isFlooding_accepted by assumption. reflexivity.
  - subst userId. rewrite isFlooding_throttled; [reflexivity|].
    rewrite on_message_accepted by assumption.
    rewrite lookup_insert_eq. cbn. assumption.
  - subst userId. apply on_message_throttled.
    rewrite H0. rewrite on_message_accepted by assumption.
    rewrite lookup_insert_eq. cbn. assumption.
Qed.

Lemma C3_flood_guard_witness :
  let w1 := (on_message 1 reliable 1000000 2024 (text_msg 5 "a") initial_world).2 in
  on_message 1 reliable 1000300 2024 (text_msg 5 "b") w1 = (Ok tt, w1).
Proof.
  refine (let H := proj2 (proj2 (proj2
            (C3_flood_guard 1 reliable initial_world 5 1000000))) in
          proj2 (proj2 (H 2024 2024 (text_msg 5 "a") (text_msg 5 "b") 1000300
                          eq_refl eq_refl _ _))).
  - vm_compute. discriminate.
  - vm_compute. reflexivity.
Defined.

(** * The subscription gate *)

Lemma with_out_nil w : with_out (fun o => o ++ []) w = w.
Proof. destruct w; unfold with_out; cbn. by rewrite app_nil_r. Qed.

Lemma with_out_app a b w :
  with_out (fun o => o ++ b) (with_out (fun o => o ++ a) w)
  = with_out (fun o => o ++ (a ++ b)) w.
Proof. unfold with_out; cbn. by rewrite app_assoc. Qed.

Lemma check_channels_spec tr userId chs w :
  check_channels tr userId chs w
  = (Ok (List.filter (reported_missing tr userId) chs),
     with_out (fun o => o ++ subscription_trace tr userId chs) w).
Proof.
  revert w. induction chs as [|ch rest IH]; intros w.
  - cbn. unfold ret. by rewrite with_out_nil.
  - cbn [check_channels subscription_trace flat_map List.filter].
    unfold bind at 1. unfold try_catch, bind at 1. unfold emit at 1, modify at 1.
    unfold reported_missing at 1, membership_failed at 1.
    destruct (getChatMember tr (ch_channelId ch) userId) as [s|c]; cbn.
    + unfold bind. rewrite IH. rewrite with_out_app. cbn.
      destruct (not_joined s); reflexivity.
    + unfold bind. rewrite IH. rewrite !with_out_app. reflexivity.
Qed.

Lemma isUserAdmin_total superAdminId now userId w :
  exists b w1, isUserAdmin superAdminId now userId w = (Ok b, w1)
    /\ channels w1 = channels w /\ out w1 = out w.
Proof.
  unfold isUserAdmin.
  destruct (userId =? superAdminId); [by eexists _, _|].
  unfold bind, gets; cbn.
  destruct (adminCache w !! userId) as [c|]; [destruct (now <? c_expire c)|];
    by eexists _, _.
Qed.

(** C9. The subscription check always returns.  For an admin it
    returns the empty list and makes no membership query (the trace is
    unchanged).  For any other actor every configured channel is queried,
    in order; a channel whose query raises a transport error is logged
    and left out of the result, and the result is exactly the channels
    the transport reported as [left] or [kicked]. *)
Theorem C9_subscription_gate (superAdminId : Z) (tr : Transport) (now userId : Z) (w : World) :
  exists missing w',
    checkSubscription superAdminId tr now userId w = (Ok missing, w') /\
    ((isUserAdmin superAdminId now userId w).1 = Ok true ->
       missing = [] /\ out w' = out w) /\
    ((isUserAdmin superAdminId now userId w).1 = Ok false ->
       missing = List.filter (reported_missing tr userId) (channels w) /\
       out w' = out w ++ subscription_trace tr userId (channels w) /\
       (forall ch, In ch (channels w) ->
          In (EGetChatMember (ch_channelId ch) userId) (subscription_trace tr userId (channels w))) /\
       (forall ch, In ch (channels w) -> membership_failed tr userId ch = true ->
          ~ In ch missing /\
          In (ELog (LSubscription (ch_channelId ch))) (subscription_trace tr userId (channels w)))).
Proof.
  destruct (isUserAdmin_total superAdminId now userId w) as (b & w1 & Ha & Hch & Hout).
  unfold checkSubscription, bind. rewrite Ha. cbn [fst snd].
  destruct b.
  - eexists _, _. split; [reflexivity|]. split; [|discriminate].
    intros _. by split.
  - unfold gets; cbn. rewrite Hch.
    assert (Hres : exists w',
      (match channels w with [] => ret [] | _ :: _ => check_channels tr userId (channels w) end) w1
      = (Ok (List.filter (reported_missing tr userId) (channels w)), w')
      /\ out w' = out w ++ subscription_trace tr userId (channels w)).
    { destruct (channels w) as [|c cs] eqn:E.
      - exists w1. cbn. rewrite app_nil_r. by split.
      - rewrite check_channels_spec. eexists. split; [reflexivity|].
        cbn [out with_out]. by rewrite Hout. }
    destruct Hres as (w' & Hrun & Hout').
    exists (List.filter (reported_missing tr userId) (channels w)), w'.
    split; [exact Hrun|]. split; [discriminate|].
    intros _. split; [reflexivity|]. split; [exact Hout'|]. split.
    + intros ch Hin. unfold subscription_trace. apply in_flat_map.
      exists ch. split; [exact Hin | by left].
    + intros ch Hin Hf. split.
      * rewrite filter_In. intros [_ Hm]. unfold reported_missing in Hm.
        unfold membership_failed in Hf.
        destruct (getChatMember tr (ch_channelId ch) userId); discriminate.
      * unfold subscription_trace. apply in_flat_map.
        exists ch. split; [exact Hin|]. rewrite Hf. right. by left.
Qed.

Lemma C9_subscription_gate_witness :
  let w := with_channels (fun _ => three_channels) initial_world in
  exists missing w',
    checkSubscription 1 lost_access 1000000 5 w = (Ok missing, w') /\
    missing = List.filter (reported_missing lost_access 5) three_channels /\
    out w' = [EGetChatMember "-1001" 5; EGetChatMember "-1002" 5;
              ELog (LSubscription "-1002"); EGetChatMember "-1003" 5].
Proof.
  destruct (C9_subscription_gate 1 lost_access 1000000 5
              (with_channels (fun _ => three_channels) initial_world))
    as (missing & w' & Hrun & _ & Hother).
  destruct (Hother eq_refl) as (Hm & Ho & _).
  exists missing, w'. split; [exact Hrun|]. split; [exact Hm | exact Ho].
Defined.

(** * Rating *)




Lemma update_first_Forall {A} (Q : A -> Prop) (p : A -> bool) (f : A -> A) (l : list A) :
  (forall x, Q x -> p x = true -> Q (f x)) ->
  Forall Q l -> Forall Q (update_first p f l).
Proof.
  intros Hf. induction 1 as [|x r Hx Hr IH]; cbn; [constructor|].
  destruct (p x) eqn:E; constructor; auto.
Qed.

Lemma rated_In userId (l : list Z) : existsb (Z.eqb userId) l = true <-> In userId l.
Proof.
  rewrite existsb_exists. split.
  - intros (x & Hx & E). apply Z.eqb_eq in E. by subst.
  - intros H. exists userId. split; [done | apply Z.eqb_refl].
Qed.

Lemma can_rate_true userId code m :
  can_rate userId code m = true <-> mv_code m = code /\ ~ In userId (mv_ratedUsers m).
Proof.
  unfold can_rate. rewrite andb_true_iff, Z.eqb_eq, negb_true_iff.
  rewrite <- rated_In. destruct (existsb _ _); intuition congruence.
Qed.


Lemma rate_movie_rated_once userId code score m :
  rated_once m -> can_rate userId code m = true -> rated_once (rate_movie userId score m).
Proof.
  intros [Hnd Hc] Hr. apply can_rate_true in Hr as [_ Hnot].
  split; cbn.
  - apply NoDup_app. split; [done|]. split; [|apply NoDup_singleton].
    intros x Hx Hx'. apply list_elem_of_In in Hx. apply list_elem_of_singleton in Hx'.
    by subst.
  - rewrite length_app, Hc. cbn. lia.
Qed.





(** * The broadcast controller *)

Lemma next_job_next j rest c b rest' c' b' :
  next_job (next_job j rest c b) rest' c' b' = next_job j rest' c' b'.
Proof. reflexivity. Qed.

Lemma broadcast_iteration_relay tr now j user rest w :
  j_cursor j = user :: rest ->
  shouldStop (broadcastController w) = false ->
  broadcast_iteration tr now j w
  = (Ok (Running (next_job j rest
           (j_count j + (if relay_delivered tr (j_message j) user then 1 else 0))
           (j_blocked j + (if relay_unreachable tr (j_message j) user then 1 else 0)))),
     with_users (mark_unreachable tr (j_message j) [user])
       (with_out (fun o => o ++ [relay_effect (j_message j) user]) w)).
Proof.
  intros Hc Hs. unfold broadcast_iteration. rewrite Hc.
  unfold bind at 1. unfold gets at 1. cbn iota beta. rewrite Hs.
  unfold bind, emit, modify. cbn iota beta.
  unfold mark_unreachable. cbn [foldl].
  unfold relay_delivered, relay_unreachable, relay_effect, relay.
  destruct (copyMessage tr _ _ _) as [[]|code]; cbn.
  - unfold ret. rewrite Z.add_0_r. destruct w; reflexivity.
  - destruct (unreachable code); cbn.
    + rewrite Z.add_0_r. reflexivity.
    + unfold ret. rewrite !Z.add_0_r. destruct w; reflexivity.
Qed.

Lemma count_of_cons p u l :
  count_of p (u :: l) = (if p u then 1 else 0) + count_of p l.
Proof. unfold count_of. cbn. destruct (p u); cbn [length]; lia. Qed.

(** The loop over a whole cursor, nobody asking it to stop. *)
Lemma run_job_relays tr now cursor : forall j w,
  j_cursor j = cursor ->
  shouldStop (broadcastController w) = false ->
  run_job tr (length cursor) now j w
  = (Ok (Running (next_job j []
           (j_count j + count_of (relay_delivered tr (j_message j)) cursor)
           (j_blocked j + count_of (relay_unreachable tr (j_message j)) cursor))),
     with_users (mark_unreachable tr (j_message j) cursor)
       (with_out (fun o => o ++ map (relay_effect (j_message j)) cursor) w)).
Proof.
  induction cursor as [|user rest IH]; intros j w Hc Hs.
  - cbn. unfold ret, count_of. cbn. rewrite !Z.add_0_r.
    destruct j, w; cbn in *; subst. unfold next_job, with_users, with_out; cbn.
    by rewrite app_nil_r.
  - cbn [length run_job]. unfold bind at 1.
    rewrite (broadcast_iteration_relay tr now j user rest w Hc Hs).
    rewrite IH by done. cbn [j_count j_blocked j_message next_job].
    rewrite !count_of_cons. f_equal.
    + do 2 f_equal. unfold next_job. cbn. f_equal; lia.
    + unfold with_users, with_out, mark_unreachable; cbn.
      by rewrite <- app_assoc.
Qed.

(** What follows the loop once the cursor is exhausted. *)
Lemma broadcast_iteration_done tr now j w :
  j_cursor j = [] ->
  (forall sm, j_stopMsg j = Some sm ->
     broadcast_iteration tr now j w
     = (let! _ := safeDelete (j_admin j) (Some sm) in
        let! _ := safeSend tr (j_admin j)
                    (NBroadcastFinished (j_count j) (j_blocked j) (now - j_startTime j)) in
        ret Finished)
         (with_controller (fun c => {| isActive := false; shouldStop := shouldStop c |}) w)) /\
  (j_stopMsg j = None ->
     broadcast_iteration tr now j w
     = (Throw TypeError,
        with_controller (fun c => {| isActive := false; shouldStop := shouldStop c |}) w)).
Proof.
  intros Hc. unfold broadcast_iteration. rewrite Hc. split.
  - intros sm ->. reflexivity.
  - intros ->. reflexivity.
Qed.

Lemma run_job_app tr now n k : forall j w,
  run_job tr (n + k) now j w
  = match run_job tr n now j w with
    | (Ok (Running j'), w') => run_job tr k now j' w'
    | r => r
    end.
Proof.
  induction n as [|n IH]; intros j w; [reflexivity|].
  cbn [Nat.add run_job]. unfold bind.
  destruct (broadcast_iteration tr now j w) as [[[j'|]|e] w1]; [apply IH | reflexivity..].
Qed.

Lemma safeSend_out tr chatId text w :
  out (safeSend tr chatId text w).2 = out w ++ [ESend chatId text]
  /\ broadcastController (safeSend tr chatId text w).2 = broadcastController w
  /\ jobs (safeSend tr chatId text w).2 = jobs w
  /\ state (safeSend tr chatId text w).2 = state w
  /\ movies (safeSend tr chatId text w).2 = movies w
  /\ exists r, (safeSend tr chatId text w).1 = Ok r.
Proof.
  unfold safeSend, bind, emit, modify. cbn.
  destruct (sendMessage tr chatId text) as [mid|code]; cbn; [by eauto 10|].
  destruct (bool_decide (code = Some 403)); cbn; by eauto 10.
Qed.

(** C4, as the code has it.  While nobody has asked the broadcast to
    stop, each turn of the loop relays to the next recipient and goes on
    to the rest of the cursor whatever the outcome: a delivered relay
    adds one to [count]; a failure with status 403 or 400 adds one to
    [blocked] and marks that user inactive in the store; any other
    failure changes neither the counters nor the store.  The relay
    attempt is the only entry a turn adds to the trace: no failure is
    logged.  Over the whole cursor every recipient is attempted, the
    counters end at the numbers of delivered and of unreachable relays,
    exactly the unreachable users are marked inactive, and when the
    start notice had been sent the next turn clears [isActive] and
    reports both counters to the initiator. *)
Theorem C4_broadcast_recipients (tr : Transport) (now : Z) (j : Job) (w : World) :
  shouldStop (broadcastController w) = false ->
  (forall user rest, j_cursor j = user :: rest ->
     exists j' w',
       broadcast_iteration tr now j w = (Ok (Running j'), w') /\
       j_cursor j' = rest /\
       out w' = out w ++ [relay_effect (j_message j) user] /\
       broadcastController w' = broadcastController w /\
       match relay tr (j_message j) user with
       | Delivered _ =>
           j_count j' = j_count j + 1 /\ j_blocked j' = j_blocked j /\
           users w' = users w
       | Failed code =>
           if unreachable code then
             j_count j' = j_count j /\ j_blocked j' = j_blocked j + 1 /\
             users w' = update_first (fun x => Nat.eqb (u_id x) (u_id user))
                          (set_u_isActive false) (users w)
           else
             j_count j' = j_count j /\ j_blocked j' = j_blocked j /\
             users w' = users w
       end) /\
  (exists j' w',
     run_job tr (length (j_cursor j)) now j w = (Ok (Running j'), w') /\
     j_cursor j' = [] /\
     j_count j' = j_count j + count_of (relay_delivered tr (j_message j)) (j_cursor j) /\
     j_blocked j' = j_blocked j + count_of (relay_unreachable tr (j_message j)) (j_cursor j) /\
     users w' = mark_unreachable tr (j_message j) (j_cursor j) (users w) /\
     out w' = out w ++ map (relay_effect (j_message j)) (j_cursor j) /\
     forall sm, j_stopMsg j = Some sm ->
       exists w'',
         run_job tr (length (j_cursor j) + 1) now j w = (Ok Finished, w'') /\
         isActive (broadcastController w'') = false /\
         out w'' = out w' ++ (if sm =? 0 then [] else [EDelete (j_admin j) sm])
                     ++ [ESend (j_admin j)
                           (NBroadcastFinished (j_count j') (j_blocked j')
                              (now - j_startTime j))]).
Proof.
  intros Hs. split.
  - intros user rest Hc.
    rewrite (broadcast_iteration_relay tr now j user rest w Hc Hs).
    eexists _, _. split; [reflexivity|].
    cbn [next_job j_cursor j_count j_blocked out users broadcastController
         with_users with_out].
    split; [done|]. split; [done|]. split; [done|].
    unfold mark_unreachable, relay_delivered, relay_unreachable. cbn [foldl].
    destruct (relay tr (j_message j) user) as [[]|code]; [|destruct (unreachable code)];
      repeat split; first [lia | reflexivity].
  - rewrite (run_job_relays tr now (j_cursor j) j w eq_refl Hs).
    eexists _, _. split; [reflexivity|].
    cbn [next_job j_cursor j_count j_blocked out users broadcastController
         with_users with_out].
    do 5 (split; [done|]).
    intros sm Hsm. rewrite run_job_app.
    rewrite (run_job_relays tr now (j_cursor j) j w eq_refl Hs).
    cbn [run_job]. unfold bind at 1.
    match goal with |- context [broadcast_iteration tr now ?jf ?wf] =>
      destruct (broadcast_iteration_done tr now jf wf eq_refl) as [Hd _];
      rewrite (Hd sm Hsm); clear Hd
    end.
    cbn [next_job j_admin j_count j_blocked j_startTime].
    unfold bind at 1. unfold safeDelete.
    match goal with |- context [safeSend tr ?a ?n] => set (report := n) end.
    destruct (sm =? 0).
    + unfold ret at 1. unfold bind.
      match goal with |- context [safeSend tr ?a report ?w0] =>
        destruct (safeSend_out tr a report w0) as (Ho & Hb & _ & _ & _ & r & Hr);
        destruct (safeSend tr a report w0) as [res w2]
      end.
      cbn in *. subst res. eexists. split; [reflexivity|].
      rewrite Hb, Ho. done.
    + unfold emit, modify at 1. unfold bind.
      match goal with |- context [safeSend tr ?a report ?w0] =>
        destruct (safeSend_out tr a report w0) as (Ho & Hb & _ & _ & _ & r & Hr);
        destruct (safeSend tr a report w0) as [res w2]
      end.
      cbn in *. subst res. eexists. split; [reflexivity|].
      rewrite Hb, Ho. split; [done|]. by rewrite <- app_assoc.
Qed.

Lemma C4_broadcast_recipients_witness :
  exists j' w',
    run_job two_unreachable 5 2000 (five_users_job five_users) five_users_world
      = (Ok (Running j'), w') /\
    j_count j' = 3 /\ j_blocked j' = 2 /\
    map (fun u => (u_telegramId u, u_isActive u)) (users w')
      = [(11, true); (12, false); (13, true); (14, false); (15, true)] /\
    exists w'',
      run_job two_unreachable 6 2000 (five_users_job five_users) five_users_world
        = (Ok Finished, w'') /\
      isActive (broadcastController w'') = false /\
      out w'' = out w' ++ [EDelete 1 77; ESend 1 (NBroadcastFinished 3 2 1000)].
Proof.
  destruct (proj2 (C4_broadcast_recipients two_unreachable 2000
                     (five_users_job five_users) five_users_world eq_refl))
    as (j' & w' & Hrun & _ & Hc & Hb & Hu & _ & Hfin).
  exists j', w'. split; [exact Hrun|].
  split; [rewrite Hc; reflexivity|]. split; [rewrite Hb; reflexivity|].
  split; [rewrite Hu; reflexivity|].
  destruct (Hfin 77 eq_refl) as (w'' & Hrun' & Ha & Ho).
  exists w''. split; [exact Hrun'|]. split; [exact Ha|].
  rewrite Ho, Hc, Hb. reflexivity.
Defined.

(** C4, the claim as stated fails: a relay that fails with a server
    error (status 500) is not logged; the turn leaves the relay attempt
    on the trace and nothing else. *)
Lemma C4_transient_failure_not_logged :
  relay server_error (text_msg 1 "news") (mk_user 3 13) = Failed (Some 500) /\
  out (broadcast_iteration server_error 2000 (five_users_job [mk_user 3 13])
         five_users_world).2 = [ECopy 13 1 1] /\
  existsb is_log
    (out (broadcast_iteration server_error 2000 (five_users_job [mk_user 3 13])
            five_users_world).2) = false.
Proof. repeat split. Qed.

(** * The session store *)

Lemma User_findOneAndUpdate_spec tid firstName username w :
  exists u w1,
    User_findOneAndUpdate tid firstName username w = (Ok u, w1) /\
    state w1 = state w /\ out w1 = out w /\ movies w1 = movies w /\
    broadcastController w1 = broadcastController w /\ jobs w1 = jobs w /\
    admins w1 = admins w /\ adminCache w1 = adminCache w /\
    u_isBanned u =
      match List.find (fun u => u_telegramId u =? tid) (users w) with
      | Some u0 => u_isBanned u0
      | None => false
      end.
Proof.
  unfold User_findOneAndUpdate, User_findOne, bind, gets. cbn.
  destruct (List.find _ (users w)) as [u0|]; cbn; eexists _, _; by repeat split.
Qed.

(** C2, as the code has it.  A message that passes the flood guard and
    whose sender is not banned, arriving when the sender's session is
    older than the TTL, deletes that session and sends the expiry notice
    and does nothing else: whatever wizard and step the session was at,
    the session table only loses that entry, the content collection is
    untouched and the notice is the only outward action.  A message the
    flood guard throttles changes nothing at all, and a message of a
    banned sender leaves the session table and the trace as they are. *)
Theorem C2_expired_session (superAdminId : Z) (tr : Transport) (now currentYear : Z)
    (msg : Msg) (w : World) :
  (forall st,
     floodLimit <= now - default 0 (floodMap w !! m_chat msg) ->
     not_banned (m_chat msg) w ->
     state w !! m_chat msg = Some st ->
     stateTTL < now - default 0 (timestamp st) ->
     exists w',
       on_message superAdminId tr now currentYear msg w = (Ok tt, w') /\
       state w' = delete (m_chat msg) (state w) /\
       out w' = out w ++ [ESend (m_chat msg) NSessionExpired] /\
       movies w' = movies w /\
       broadcastController w' = broadcastController w /\
       jobs w' = jobs w) /\
  (now - default 0 (floodMap w !! m_chat msg) < floodLimit ->
     on_message superAdminId tr now currentYear msg w = (Ok tt, w)) /\
  (forall u,
     floodLimit <= now - default 0 (floodMap w !! m_chat msg) ->
     List.find (fun u => u_telegramId u =? m_chat msg) (users w) = Some u ->
     u_isBanned u = true ->
     exists w',
       on_message superAdminId tr now currentYear msg w = (Ok tt, w') /\
       state w' = state w /\ out w' = out w).
Proof.
  split; [|split].
  - intros st Hflood Hban Hst Hexp.
    unfold on_message, bind at 1. rewrite isFlooding_accepted by exact Hflood.
    cbn iota beta. unfold try_catch, message_body, bind at 1.
    destruct (User_findOneAndUpdate_spec (m_chat msg)
                (sanitize (default "" (m_first_name msg))) (m_username msg)
                (with_floodMap <[m_chat msg := now]> w))
      as (u & w1 & -> & Hs1 & Ho1 & Hm1 & Hc1 & Hj1 & _ & _ & Hb).
    cbn in Hs1, Ho1, Hm1, Hc1, Hj1, Hb.
    assert (u_isBanned u = false) as ->.
    { rewrite Hb. unfold not_banned in Hban. by destruct (List.find _ _). }
    unfold bind at 1, gets at 1. cbn iota beta. rewrite Hs1, Hst.
    unfold bind at 1. unfold state_handler.
    destruct (Z.ltb_spec stateTTL (now - default 0 (timestamp st))) as [_|]; [|lia].
    unfold bind at 1, state_delete at 1, modify at 1. cbn iota beta.
    unfold bind at 1.
    match goal with |- context [safeSend tr ?c ?n ?w0] =>
      destruct (safeSend_out tr c n w0) as (Ho & Hc & Hj & Hs & Hm & r & Hr);
      destruct (safeSend tr c n w0) as [res w2]
    end.
    cbn in Ho, Hc, Hj, Hs, Hm, Hr. subst res. cbn.
    eexists. split; [reflexivity|].
    rewrite Hs, Ho, Hm, Hc, Hj, Hs1, Ho1, Hm1, Hc1, Hj1. done.
  - apply on_message_throttled.
  - intros u Hflood Hfind Hban.
    unfold on_message, bind at 1. rewrite isFlooding_accepted by exact Hflood.
    cbn iota beta. unfold try_catch, message_body, bind at 1.
    destruct (User_findOneAndUpdate_spec (m_chat msg)
                (sanitize (default "" (m_first_name msg))) (m_username msg)
                (with_floodMap <[m_chat msg := now]> w))
      as (u' & w1 & -> & Hs1 & Ho1 & _ & _ & _ & _ & _ & Hb).
    cbn in Hs1, Ho1, Hb. rewrite Hfind, Hban in Hb. rewrite Hb.
    eexists. split; [reflexivity|]. done.
Qed.

Lemma C2_expired_session_witness :
  let w := (on_callback 1 reliable 1000000 (callback 1 "start_add_movie") initial_world).2 in
  exists w',
    on_message 1 reliable 3000000 2024 (text_msg 1 "Parasyte") w = (Ok tt, w') /\
    state w' = delete 1 (state w) /\
    out w' = out w ++ [ESend 1 NSessionExpired].
Proof.
  destruct (proj1 (C2_expired_session 1 reliable 3000000 2024 (text_msg 1 "Parasyte")
              (on_callback 1 reliable 1000000 (callback 1 "start_add_movie") initial_world).2)
              (fresh_add_movie 1000000))
    as (w' & Hrun & Hs & Ho & _).
  - vm_compute. discriminate.
  - exact I.
  - reflexivity.
  - reflexivity.
  - exists w'. split; [exact Hrun|]. split; [exact Hs | exact Ho].
Defined.

(** C2, the claim as stated fails: the operator starts the content
    wizard at time 1000000; a message sent just before the session
    expires is handled as a wizard step (re-prompt); a second message,
    200 ms later and now past the TTL, is dropped by the flood guard: the
    stale session stays and no expiry notice is sent. *)
Lemma C2_throttled_message_keeps_stale_session :
  let w1 := run_events 1 reliable
              [EvCallback 1000000 (callback 1 "start_add_movie");
               EvMessage 2799900 2024 (text_msg 1 "Parasyte")] initial_world in
  let w2 := step_world 1 reliable (EvMessage 2800100 2024 (text_msg 1 "Japan")) w1 in
  (stateTTL <? 2800100 - 1000000) = true /\
  state w2 !! 1 = Some (fresh_add_movie 1000000) /\
  out w2 = out w1 /\
  existsb (fun e => match e with ESend _ NSessionExpired => true | _ => false end) (out w2)
    = false.
Proof. vm_compute. repeat split. Qed.

(** * The admin wizard *)

Lemma hasPermission_pure superAdminId chatId perm w :
  exists b, hasPermission superAdminId chatId perm w = (Ok b, w).
Proof.
  unfold hasPermission. destruct (chatId =? superAdminId); [by eexists|].
  unfold bind, Admin_findOne, gets. cbn.
  destruct (List.find _ (admins w)); by eexists.
Qed.

Lemma handleAdminInput_permitted superAdminId tr now chatId msg st w :
  state w !! chatId = Some st ->
  permitted superAdminId chatId st w ->
  handleAdminInput superAdminId tr now chatId msg w
  = try_catch (admin_input_body superAdminId tr now chatId msg st (msg_text msg))
      (fun e =>
         emit (ELog LAdminInputError);;
         state_delete chatId;;
         safeSend tr chatId NSystemError;; ret tt) w.
Proof.
  intros Hst Hp. unfold handleAdminInput, bind at 1, gets at 1. rewrite Hst.
  cbn iota beta. unfold bind at 1, defined, ret at 1. cbn iota beta.
  unfold bind at 1.
  destruct (permissionRequired st) as [perm|] eqn:E.
  - specialize (Hp perm E).
    destruct (hasPermission_pure superAdminId chatId perm w) as [b Hb].
    rewrite Hb in Hp |- *. cbn in Hp. injection Hp as ->. reflexivity.
  - reflexivity.
Qed.

Lemma try_bind_ok {A B} (m : M A) (k : A -> M B) (h : Exn -> M B) w a w1 :
  m w = (Ok a, w1) -> try_catch (bind m k) h w = try_catch (k a) h w1.
Proof. unfold try_catch, bind. by intros ->. Qed.

Lemma reprompt_run tr chatId n (h : Exn -> M unit) w :
  exists w',
    try_catch (safeSend tr chatId n;; ret tt) h w = (Ok tt, w') /\
    state w' = state w /\ movies w' = movies w /\
    out w' = out w ++ [ESend chatId n].
Proof.
  unfold try_catch, bind.
  destruct (safeSend_out tr chatId n w) as (Ho & _ & _ & Hs & Hm & r & Hr).
  destruct (safeSend tr chatId n w) as [res w2]. cbn in *. subst res.
  by eexists.
Qed.






(** ** The code step of the content wizard *)

(** At the code step, an input [parseInt] cannot read and a code some
    record already carries are both answered with a re-prompt; the
    session stays at the step and no record is created. *)
Lemma code_step_rejects (superAdminId : Z) (tr : Transport) (now chatId : Z)
    (msg : Msg) (st : Session) (w : World) :
  state w !! chatId = Some st ->
  permitted superAdminId chatId st w ->
  action st = ADD_CONTENT -> step st = Some CODE ->
  match parseInt (msg_text msg) with
  | None =>
      exists w',
        handleAdminInput superAdminId tr now chatId msg w = (Ok tt, w') /\
        state w' = state w /\ movies w' = movies w /\
        out w' = out w ++ [ESend chatId NOnlyNumber]
  | Some code =>
      forall m, List.find (fun m => mv_code m =? code) (movies w) = Some m ->
      exists w',
        handleAdminInput superAdminId tr now chatId msg w = (Ok tt, w') /\
        state w' = state w /\ movies w' = movies w /\
        out w' = out w ++ [ESend chatId NCodeTaken]
  end.
Proof.
  intros Hst Hp Ha Hs. rewrite (handleAdminInput_permitted _ _ _ _ _ _ _ Hst Hp).
  unfold admin_input_body. rewrite Ha. unfold add_content. rewrite Hs.
  destruct (parseInt (msg_text msg)) as [code|]; [|apply reprompt_run].
  intros m Hm.
  rewrite (try_bind_ok _ _ _ w (Some m) w); [apply reprompt_run|].
  unfold Movie_findOne, gets. by rewrite Hm.
Qed.

(** The example of the specification: code 4242 yields one record, and
    a second run of the wizard with the same code is turned down. *)
Lemma add_content_4242_once :
  let w1 := run_events 1 reliable
              (add_parasyte ++ [EvMessage 1007000 2024 (text_msg 1 "4242")])
              initial_world in
  let w2 := run_events 1 reliable
              (add_parasyte_again ++ [EvMessage 1037000 2024 (text_msg 1 "4242")]) w1 in
  map (fun m => (mv_code m, mv_title m, mv_country m, mv_language m, mv_isAdult m))
      (movies w1)
    = [(4242, Some "Parasyte", Some "Japan", Some "Japanese", false)] /\
  state w1 !! 1 = None /\
  movies w2 = movies w1 /\
  step_of 1 w2 = Some CODE /\
  last (out w2) = Some (ESend 1 NCodeTaken).
Proof. vm_compute. repeat split. Qed.

(** C6, the failing input: at the code step the text [12abc], which is
    not a number, is accepted, and a record with code 12 is created. *)
Lemma C6_code_step_accepts_12abc :
  let w := run_events 1 reliable
             (add_parasyte ++ [EvMessage 1007000 2024 (text_msg 1 "12abc")])
             initial_world in
  all_digits "12abc" = false /\
  parseInt "12abc" = Some 12 /\
  map mv_code (movies w) = [12] /\
  state w !! 1 = None /\
  existsb (fun e => match e with
                    | ESend _ (NContentAdded _ code) => code =? 12
                    | _ => false
                    end) (out w) = true.
Proof. vm_compute. repeat split. Qed.

(** * Handler boundaries *)





Lemma sweep_returns now w : exists w', sweep now w = (Ok tt, w').
Proof. by eexists. Qed.




(** * One broadcast at a time, and stopping it *)

Lemma keeps_inv_frame : Frame keeps_inv.
Proof.
  split; unfold keeps_inv; try (unfold broadcast_inv; intros; cbn in *; assumption).
  intros a b c Hab Hbc Ha. exact (Hbc (Hab Ha)).
Qed.



Lemma startBroadcast_busy tr now adminId message w :
  isActive (broadcastController w) = true ->
  startBroadcast tr now adminId message w
  = (Ok tt, (safeSend tr adminId NBroadcastBusy w).2).
Proof.
  intros H. unfold startBroadcast, bind at 1, gets. cbn iota beta. rewrite H.
  unfold bind.
  destruct (safeSend_out tr adminId NBroadcastBusy w) as (_ & _ & _ & _ & _ & r & Hr).
  destruct (safeSend tr adminId NBroadcastBusy w) as [res w2]. cbn in *. by subst.
Qed.

Lemma startBroadcast_idle tr now adminId message w :
  isActive (broadcastController w) = false ->
  exists stopMsg w1,
    startBroadcast tr now adminId message w
    = (Ok tt, with_jobs (fun js => js ++
         [{| j_admin := adminId; j_message := message;
             j_cursor := List.filter eligible (users w1);
             j_count := 0; j_blocked := 0; j_startTime := now;
             j_stopMsg := stopMsg |}]) w1) /\
    broadcastController w1 = {| isActive := true; shouldStop := false |} /\
    jobs w1 = jobs w /\
    out w1 = out w ++ [ESend adminId NBroadcastStarted].
Proof.
  intros H. unfold startBroadcast, bind at 1, gets at 1. cbn iota beta. rewrite H.
  unfold bind at 1, set_isActive, modify at 1. cbn iota beta.
  unfold bind at 1, set_shouldStop, modify at 1. cbn iota beta.
  unfold bind at 1.
  match goal with |- context [safeSend tr ?c ?n ?w0] =>
    destruct (safeSend_out tr c n w0) as (Ho & Hc & Hj & _ & _ & r & Hr);
    destruct (safeSend tr c n w0) as [res w2]
  end.
  cbn in Ho, Hc, Hj, Hr. subst res. exists r, w2. split; [reflexivity|]. done.
Qed.

Lemma startBroadcast_keeps_inv tr now adminId message :
  Rel keeps_inv (startBroadcast tr now adminId message).
Proof.
  intros w Hinv. destruct (isActive (broadcastController w)) eqn:E.
  - rewrite startBroadcast_busy by done.
    destruct (safeSend_out tr adminId NBroadcastBusy w) as (_ & Hc & Hj & _).
    unfold broadcast_inv in *. cbn [snd]. by rewrite Hc, Hj.
  - destruct (startBroadcast_idle tr now adminId message w E)
      as (sm & w1 & -> & Hc & Hj & _).
    unfold broadcast_inv in *. cbn. rewrite Hj, Hc.
    destruct (jobs w) as [|? [|]]; [done | congruence | done].
Qed.



Lemma stop_broadcast_spec w :
  stop_broadcast w
  = if isActive (broadcastController w)
    then (Ok tt, with_out (fun o => o ++ [EAnswer AStopping false])
                   (with_controller
                      (fun c => {| isActive := isActive c; shouldStop := true |}) w))
    else (Ok tt, with_out (fun o => o ++ [EAnswer ANothingToStop true]) w).
Proof.
  unfold stop_broadcast, bind, gets. cbn.
  by destruct (isActive (broadcastController w)).
Qed.

Lemma stop_broadcast_keeps_inv : Rel keeps_inv stop_broadcast.
Proof.
  intros w Hinv. rewrite stop_broadcast_spec. unfold broadcast_inv in *.
  destruct (isActive (broadcastController w)) eqn:E; cbn; rewrite ?E; exact Hinv.
Qed.



Lemma filter_copy_snoc (o : list Effect) (e : Effect) :
  is_copy e = false -> List.filter is_copy (o ++ [e]) = List.filter is_copy o.
Proof. intros H. rewrite List.filter_app. cbn. rewrite H. by rewrite app_nil_r. Qed.

(** What a turn of the loop does to the controller and the job list. *)
Lemma broadcast_iteration_cases tr now j w :
  exists r w',
    broadcast_iteration tr now j w = (r, w') /\
    jobs w' = jobs w /\
    match r with
    | Ok (Running _) =>
        broadcastController w' = broadcastController w /\
        shouldStop (broadcastController w) = false
    | _ =>
        isActive (broadcastController w') = false /\
        List.filter is_copy (out w') = List.filter is_copy (out w)
    end.
Proof.
  unfold broadcast_iteration. destruct (j_cursor j) as [|user rest].
  - unfold bind at 1, set_isActive, modify at 1. cbn iota beta.
    destruct (j_stopMsg j) as [sm|]; [|by eexists _, _].
    unfold bind at 1, defined, ret at 1. cbn iota beta.
    unfold bind at 1.
    assert (Hdel : exists w1, safeDelete (j_admin j) (Some sm)
              (with_controller (fun c => {| isActive := false; shouldStop := shouldStop c |}) w)
              = (Ok tt, w1) /\ jobs w1 = jobs w /\
              isActive (broadcastController w1) = false /\
              List.filter is_copy (out w1) = List.filter is_copy (out w)).
    { unfold safeDelete. destruct (sm =? 0); [by eexists|].
      eexists. split; [reflexivity|]. cbn. repeat split; try done.
      by apply filter_copy_snoc. }
    destruct Hdel as (w1 & -> & Hj1 & Ha1 & Ho1). unfold bind.
    match goal with |- context [safeSend tr ?c ?n ?w0] =>
      destruct (safeSend_out tr c n w0) as (Ho & Hc & Hj & _ & _ & r & Hr);
      destruct (safeSend tr c n w0) as [res w2]
    end.
    cbn in Ho, Hc, Hj, Hr. subst res. eexists _, _. split; [reflexivity|].
    rewrite Hj, Hc, Ho, filter_copy_snoc by done. done.
  - unfold bind at 1, gets at 1. cbn iota beta.
    destruct (shouldStop (broadcastController w)) eqn:Es.
    + unfold bind at 1, set_isActive, modify at 1. cbn iota beta. unfold bind.
      match goal with |- context [safeSend tr ?c ?n ?w0] =>
        destruct (safeSend_out tr c n w0) as (Ho & Hc & Hj & _ & _ & r & Hr);
        destruct (safeSend tr c n w0) as [res w2]
      end.
      cbn in Ho, Hc, Hj, Hr. subst res. eexists _, _. split; [reflexivity|].
      rewrite Hj, Hc, Ho, filter_copy_snoc by done. done.
    + unfold bind, emit, modify. cbn iota beta.
      destruct (copyMessage tr _ _ _) as [[]|code]; [by eexists _, _|].
      destruct (unreachable code); by eexists _, _.
Qed.

Lemma broadcast_turn_keeps_inv tr now i : Rel keeps_inv (broadcast_turn tr now i).
Proof.
  intros w Hinv. unfold broadcast_turn, bind at 1, gets. cbn iota beta.
  destruct (jobs w !! i) as [j|] eqn:Ej; [|done].
  unfold try_catch, bind.
  destruct (broadcast_iteration_cases tr now j w) as (r & w' & -> & Hj & Hr).
  unfold broadcast_inv in *.
  destruct (jobs w) as [|j0 [|]] eqn:Ejs; [done| |done].
  destruct i; [|done].
  destruct r as [[j'|]|e]; cbn; rewrite Hj; cbn.
  - destruct Hr as [-> _]. done.
  - by destruct Hr.
  - by destruct Hr.
Qed.

Lemma run_events_keeps_inv superAdminId tr evs w :
  broadcast_inv w -> broadcast_inv (run_events superAdminId tr evs w).
Proof.
  apply (rel_run_events keeps_inv keeps_inv_frame superAdminId tr).
  - intros f w0 H. exact H.
  - apply startBroadcast_keeps_inv.
  - apply stop_broadcast_keeps_inv.
  - apply broadcast_turn_keeps_inv.
Qed.

(** C1, as the code has it.  [startBroadcast] called while the
    controller is active sends the initiator the already-running notice
    and returns: the controller flags, the running job with its counters
    and cursor, the sessions and the content are as before, nothing is
    relayed, and the user collection is as before except that the
    initiator's own record is marked inactive when that notice bounces
    with status 403.  From a state in which the controller is active
    exactly while one job is under way, every sequence of events leads to
    such a state: there is never more than one job. *)
Theorem C1_single_broadcast (superAdminId : Z) (tr : Transport) (now adminId : Z)
    (message : Msg) (w : World) :
  (isActive (broadcastController w) = true ->
   exists w',
     startBroadcast tr now adminId message w = (Ok tt, w') /\
     broadcastController w' = broadcastController w /\
     jobs w' = jobs w /\
     state w' = state w /\ movies w' = movies w /\
     out w' = out w ++ [ESend adminId NBroadcastBusy] /\
     users w' =
       match sendMessage tr adminId NBroadcastBusy with
       | Delivered _ => users w
       | Failed code =>
           if bool_decide (code = Some 403)
           then update_first (fun u => u_telegramId u =? adminId)
                  (set_u_isActive false) (users w)
           else users w
       end) /\
  (forall evs,
     broadcast_inv w ->
     broadcast_inv (run_events superAdminId tr evs w) /\
     (length (jobs (run_events superAdminId tr evs w)) <= 1)%nat).
Proof.
  split.
  - intros Ha. rewrite startBroadcast_busy by done.
    eexists. split; [reflexivity|].
    destruct (safeSend_out tr adminId NBroadcastBusy w) as (Ho & Hc & Hj & Hs & Hm & _).
    do 5 (split; [done|]).
    unfold safeSend, bind, emit, modify. cbn.
    destruct (sendMessage tr adminId NBroadcastBusy) as [|code]; [done|].
    by destruct (bool_decide (code = Some 403)).
  - intros evs Hinv.
    pose proof (run_events_keeps_inv superAdminId tr evs w Hinv) as H.
    split; [exact H|]. unfold broadcast_inv in H.
    destruct (jobs (run_events superAdminId tr evs w)) as [|? [|]]; cbn; [lia | lia | done].
Qed.

Lemma C1_single_broadcast_witness :
  let w := run_events 1 reliable broadcast_twice
             (with_users (fun _ => five_users) initial_world) in
  broadcast_inv w /\ (length (jobs w) <= 1)%nat.
Proof.
  refine (proj2 (C1_single_broadcast 1 reliable 0 0 (text_msg 1 "news")
                   (with_users (fun _ => five_users) initial_world))
            broadcast_twice _).
  reflexivity.
Defined.

(** C1, the claim as stated fails: when the already-running notice to
    the initiator bounces with status 403, [safeSend] marks the
    initiator, who is one of the stored users, inactive. *)
Lemma C1_rejection_marks_initiator_inactive :
  let w' := (startBroadcast blocked_initiator 3000 11 (text_msg 11 "news")
               five_users_world).2 in
  isActive (broadcastController five_users_world) = true /\
  map (fun u => (u_telegramId u, u_isActive u)) (users five_users_world)
    = [(11, true); (12, true); (13, true); (14, true); (15, true)] /\
  map (fun u => (u_telegramId u, u_isActive u)) (users w')
    = [(11, false); (12, true); (13, true); (14, true); (15, true)].
Proof. vm_compute. repeat split. Qed.






(** * Further properties of the handlers *)

(** * Numerals in callback payloads *)

Lemma pretty_N_char_digit x : (x < 10)%N -> is_digit (pretty_N_char x) = true.
Proof.
  intros H.
  assert (x = 0 \/ x = 1 \/ x = 2 \/ x = 3 \/ x = 4 \/ x = 5 \/ x = 6 \/ x = 7
          \/ x = 8 \/ x = 9)%N as Hx by lia.
  repeat destruct Hx as [->|Hx]; try reflexivity. subst. reflexivity.
Qed.

Lemma pretty_N_char_val x :
  (x < 10)%N -> digit_val 10 (pretty_N_char x) = Some (Z.of_N x).
Proof.
  intros H.
  assert (x = 0 \/ x = 1 \/ x = 2 \/ x = 3 \/ x = 4 \/ x = 5 \/ x = 6 \/ x = 7
          \/ x = 8 \/ x = 9)%N as Hx by lia.
  repeat destruct Hx as [->|Hx]; try reflexivity. subst. reflexivity.
Qed.

Lemma pretty_N_go_forall p x s :
  (forall c, is_digit c = true -> p c = true) ->
  string_forall p s = true -> string_forall p (pretty_N_go x s) = true.
Proof.
  intros Hp. revert s. induction (N.lt_wf_0 x) as [x _ IH]; intros s Hs.
  destruct (decide (x = 0)%N) as [->|Hx]; [by rewrite pretty_N_go_0|].
  rewrite pretty_N_go_step by lia. apply IH.
  - apply N.div_lt; lia.
  - cbn. rewrite Hs, Hp; [done|]. apply pretty_N_char_digit. by apply N.mod_lt.
Qed.

Lemma pretty_Zpos_eq (p : positive) : pretty (Z.pos p) = pretty_N_go (N.pos p) "".
Proof.
  change (pretty (Z.pos p)) with (pretty_N (N.pos p)). unfold pretty_N.
  by destruct (decide (N.pos p = 0%N)).
Qed.

Lemma pretty_Zneg_eq (p : positive) :
  pretty (Z.neg p) = String "-" (pretty_N_go (N.pos p) "").
Proof.
  change (pretty (Z.neg p)) with ("-" +:+ pretty_N (N.pos p)). unfold pretty_N.
  by destruct (decide (N.pos p = 0%N)).
Qed.

Lemma pretty_Z_forall p (z : Z) :
  (forall c, is_digit c = true -> p c = true) -> p "-"%char = true ->
  string_forall p (pretty z) = true.
Proof.
  intros Hp Hm. destruct z as [|x|x].
  - change (pretty 0) with "0". cbn. rewrite Hp; done.
  - rewrite pretty_Zpos_eq. apply pretty_N_go_forall; done.
  - rewrite pretty_Zneg_eq. cbn [string_forall]. rewrite Hm. cbn.
    apply pretty_N_go_forall; done.
Qed.

(** Reading back a numeral. *)

Lemma read_digits_pretty_go x : (0 < x)%N -> forall s acc,
  exists k : nat,
    read_digits 10 (pretty_N_go x s) acc
    = read_digits 10 s (Some (default 0 acc * 10 ^ Z.of_nat k + Z.of_N x)).
Proof.
  induction (N.lt_wf_0 x) as [x _ IH]; intros Hx s acc.
  rewrite pretty_N_go_step by done.
  destruct (decide (x `div` 10 = 0)%N) as [E|E].
  - rewrite E, pretty_N_go_0. exists 1%nat. cbn [read_digits].
    assert (x < 10)%N by (apply N.div_small_iff in E; lia).
    rewrite pretty_N_char_val by (by apply N.mod_lt).
    rewrite N.mod_small by done. f_equal. f_equal. lia.
  - destruct (IH (x `div` 10)%N) with (s := String (pretty_N_char (x `mod` 10)) s) (acc := acc)
      as [k Hk]; [apply N.div_lt; lia | by apply N.neq_0_lt_0 |].
    exists (S k). rewrite Hk. cbn [read_digits].
    rewrite pretty_N_char_val by (by apply N.mod_lt). cbn [default].
    f_equal. f_equal.
    rewrite Nat2Z.inj_succ, Z.pow_succ_r by lia.
    pose proof (N.div_mod x 10 ltac:(done)) as Hd.
    rewrite N2Z.inj_div, N2Z.inj_mod. cbn.
    pose proof (Z.div_mod (Z.of_N x) 10 ltac:(done)). lia.
Qed.

Lemma pretty_N_go_head x s : (0 < x)%N ->
  exists d r, pretty_N_go x s = String (pretty_N_char d) r /\ (0 < d < 10)%N.
Proof.
  revert s. induction (N.lt_wf_0 x) as [x _ IH]; intros s Hx.
  rewrite pretty_N_go_step by done.
  destruct (decide (x `div` 10 = 0)%N) as [E|E].
  - rewrite E, pretty_N_go_0.
    assert (x < 10)%N by (apply N.div_small_iff in E; lia).
    exists x, s. rewrite N.mod_small by done. split; [done | lia].
  - apply IH; [apply N.div_lt; lia | by apply N.neq_0_lt_0].
Qed.

Lemma parseInt_numeral (sign : Z) (p : positive) (s : string) :
  s = pretty_N_go (N.pos p) "" ->
  read_digits 10 s None = Some (Z.pos p) /\
  exists d r, s = String (pretty_N_char d) r /\ (0 < d < 10)%N.
Proof.
  intros ->. split.
  - destruct (read_digits_pretty_go (N.pos p) ltac:(done) "" None) as [k Hk].
    rewrite Hk. reflexivity.
  - by apply pretty_N_go_head.
Qed.

Lemma parseInt_pretty (z : Z) : parseInt (pretty z) = Some z.
Proof.
  destruct z as [|p|p].
  - reflexivity.
  - rewrite pretty_Zpos_eq.
    destruct (parseInt_numeral 1 p _ eq_refl) as (Hr & d & r & E & Hd).
    unfold parseInt. rewrite E in *.
    assert (d = 1 \/ d = 2 \/ d = 3 \/ d = 4 \/ d = 5 \/ d = 6 \/ d = 7
            \/ d = 8 \/ d = 9)%N as Hx by lia.
    repeat destruct Hx as [->|Hx]; try subst d;
      cbv beta iota delta [pretty_N_char] in *;
      cbv beta iota delta [trim_start];
      match goal with
      | |- context [is_space ?c] =>
          let b := eval vm_compute in (is_space c) in change (is_space c) with b
      end;
      cbn -[read_digits]; rewrite Hr; reflexivity.
  - rewrite pretty_Zneg_eq.
    destruct (parseInt_numeral 1 p _ eq_refl) as (Hr & d & r & E & Hd).
    unfold parseInt. rewrite E in *.
    assert (d = 1 \/ d = 2 \/ d = 3 \/ d = 4 \/ d = 5 \/ d = 6 \/ d = 7
            \/ d = 8 \/ d = 9)%N as Hx by lia.
    repeat destruct Hx as [->|Hx]; try subst d;
      cbv beta iota delta [pretty_N_char] in *;
      cbv beta iota delta [trim_start];
      match goal with
      | |- context [is_space ?c] =>
          let b := eval vm_compute in (is_space c) in change (is_space c) with b
      end;
      cbn -[read_digits]; rewrite Hr; reflexivity.
Qed.

Lemma append_cons (c : ascii) (s t : string) : String c s +:+ t = String c (s +:+ t).
Proof. reflexivity. Qed.

Lemma append_nil_r (s : string) : s +:+ "" = s.
Proof. induction s as [|c s IH]; [done|]. rewrite append_cons. by f_equal. Qed.

Lemma rev_app_rev_app (s a b : string) :
  String.rev_app (String.rev_app s a) b = String.rev_app a (s +:+ b).
Proof.
  revert a b. induction s as [|c s IH]; intros a b; [done|].
  cbn [String.rev_app]. rewrite IH. reflexivity.
Qed.

Lemma rev_rev_app (s : string) : String.rev (String.rev_app s "") = s.
Proof. unfold String.rev. rewrite rev_app_rev_app. cbn. apply append_nil_r. Qed.

Lemma prefix_us_hit (s : string) : String.prefix "_" (String "_" s) = true.
Proof.
  unfold String.prefix. destruct (ascii_dec "_" "_") as [_|?]; [by destruct s | done].
Qed.

Lemma prefix_us_miss (c : ascii) (s : string) :
  no_us c = true -> String.prefix "_" (String c s) = false.
Proof.
  intros H. unfold String.prefix.
  destruct (ascii_dec "_" c) as [<-|_]; [discriminate|]. reflexivity.
Qed.

Lemma split_go_piece (s cur t : string) :
  string_forall no_us s = true ->
  split_go "_" 0 cur (s +:+ t) = split_go "_" 0 (String.rev_app s cur) t.
Proof.
  revert cur. induction s as [|c s IH]; intros cur H; [done|].
  cbn in H. apply andb_true_iff in H as [Hc Hs].
  rewrite append_cons. cbn [String.rev_app split_go].
  rewrite <- (IH (String c cur) Hs).
  by rewrite prefix_us_miss.
Qed.

Lemma join_us_cons (x y : string) (r : list string) :
  join_us (x :: y :: r) = x +:+ String "_" (join_us (y :: r)).
Proof. reflexivity. Qed.

Lemma split_join (x : string) (r : list string) (cur : string) :
  string_forall no_us x = true -> Forall (fun p => string_forall no_us p = true) r ->
  split_go "_" 0 cur (join_us (x :: r)) = String.rev (String.rev_app x cur) :: r.
Proof.
  intros Hx Hr. revert x cur Hx. induction Hr as [|y r Hy Hr IH]; intros x cur Hx.
  - cbn [join_us]. rewrite <- (append_nil_r x) at 1. rewrite split_go_piece by done.
    reflexivity.
  - rewrite join_us_cons, split_go_piece by done. cbn [split_go].
    rewrite prefix_us_hit.
    f_equal. cbn [String.length Nat.sub]. rewrite IH by done. by rewrite rev_rev_app.
Qed.

Lemma js_split_join (x : string) (r : list string) :
  string_forall no_us x = true -> Forall (fun p => string_forall no_us p = true) r ->
  js_split (join_us (x :: r)) "_" = x :: r.
Proof.
  intros Hx Hr. unfold js_split. rewrite split_join by done. by rewrite rev_rev_app.
Qed.

Lemma pretty_no_us (z : Z) : string_forall no_us (pretty z) = true.
Proof.
  apply pretty_Z_forall; [|reflexivity].
  intros c Hc. unfold no_us. destruct (Ascii.eqb_spec c "_"); [|done].
  subst. discriminate.
Qed.


Lemma prefix_append (p s : string) : String.prefix p (p +:+ s) = true.
Proof.
  induction p as [|c p IH]; [by destruct s|].
  rewrite append_cons. cbn [String.prefix].
  destruct (ascii_dec c c) as [_|?]; [exact IH | done].
Qed.







Lemma prefix_split (p s : string) : String.prefix p s = true -> exists t, s = p +:+ t.
Proof.
  revert s. induction p as [|c p IH]; intros s H; [by exists s|].
  destruct s as [|d s]; [discriminate|]. cbn [String.prefix] in H.
  destruct (ascii_dec c d) as [<-|?]; [|discriminate].
  destruct (IH s H) as [t ->]. by exists t.
Qed.

(** Replaces the blocks whose condition computes to [false]. *)
Ltac decide_when :=
  repeat match goal with
  | |- context [when ?c ?b] =>
      let v := eval lazy in c in
      match v with
      | false => change (when c b) with (@ret bool false)
      end
  end.

Lemma isUserAdmin_cache superAdminId now userId w :
  exists b f, isUserAdmin superAdminId now userId w = (Ok b, with_adminCache f w).
Proof.
  unfold isUserAdmin.
  destruct (userId =? superAdminId); [by exists true, id; destruct w|].
  unfold bind, gets, modify, ret; cbn.
  destruct (adminCache w !! userId) as [c|]; [destruct (now <? c_expire c)|];
    try (by eexists _, _).
  by exists (c_isAdmin c), id; destruct w.
Qed.

Lemma safeSend_world tr chatId text w :
  exists r f, safeSend tr chatId text w
    = (Ok r, with_users f (with_out (fun o => o ++ [ESend chatId text]) w)).
Proof.
  unfold safeSend, bind, emit, modify, ret, User_updateOne_telegramId, modify. cbn.
  destruct (sendMessage tr chatId text) as [mid|code]; cbn.
  - exists (Some mid), id. by destruct w.
  - destruct (bool_decide (code = Some 403)); cbn; [by eexists _, _|].
    exists None, id. by destruct w.
Qed.

(** The user actions of the callback handler ([rate_], [dl_], [s_nav_],
    [s_dl_]) run before the admin gate, which is all that follows them. *)
Ltac dispatch_user H :=
  let t := fresh "t" in
  let Ht := fresh "Ht" in
  let H' := fresh "H" in
  pose proof H as H'; apply prefix_split in H' as [t Ht];
  unfold callback_body; cbv zeta; rewrite H; rewrite Ht;
  lazymatch goal with
  | |- context [String.append ?p t] =>
      let v := eval cbv in (String.append p "") in
      let rec build s :=
        lazymatch s with
        | String ?c ?r => let r' := build r in constr:(String c r')
        | EmptyString => constr:(t)
        end in
      let u := build v in
      change (String.append p t) with u
  end;
  decide_when;
  cbn [blocks when]; unfold bind, ret; cbv beta iota.






(** * Keyboards *)

Lemma button_rows_spec (bs t : list Button) :
  (length t < 3)%nat ->
  Forall (fun row => (0 < length row <= 3)%nat) (button_rows t bs) /\
  concat (button_rows t bs) = match bs with [] => [] | _ => t ++ bs end.
Proof.
  revert t. induction bs as [|b rest IH]; intros t Ht; [by split|].
  cbn [button_rows]. rewrite length_app. cbn [length].
  destruct (length t + 1 =? 3)%nat eqn:E3; cbn [orb].
  - destruct (IH [] ltac:(cbn; lia)) as [IH1 IH2]. split.
    + constructor; [|exact IH1]. rewrite length_app. cbn. lia.
    + cbn [concat]. rewrite IH2.
      destruct rest; [by rewrite app_nil_r | by rewrite <- app_assoc].
  - apply Nat.eqb_neq in E3.
    destruct (bool_decide (rest = [])) eqn:Er.
    + apply bool_decide_eq_true in Er. subst rest. cbn. split.
      * constructor; [|constructor]. rewrite length_app. cbn. lia.
      * by rewrite app_nil_r.
    + apply bool_decide_eq_false in Er.
      destruct (IH (t ++ [b]) ltac:(rewrite length_app; cbn; lia)) as [IH1 IH2].
      split; [exact IH1|]. rewrite IH2. destruct rest; [done|].
      by rewrite <- app_assoc.
Qed.

Lemma slice_page {A} (l : list A) (p : Z) :
  0 <= p -> slice l (p * 5) (p * 5 + 5) = take 5 (drop (Z.to_nat (p * 5)) l).
Proof.
  intros Hp. unfold slice, slice_bound.
  destruct (Z.ltb_spec (p * 5) 0); [lia|].
  destruct (Z.ltb_spec (p * 5 + 5) 0); [lia|].
  set (len := Z.of_nat (length l)).
  destruct (Z.le_gt_cases len (p * 5)) as [Hle|Hgt].
  - rewrite Z.min_r, Z.min_r by lia. rewrite Z.sub_diag. cbn [Z.to_nat take].
    rewrite (drop_ge l (Z.to_nat (p * 5))) by (subst len; lia). by rewrite take_nil.
  - rewrite (Z.min_l (p * 5)) by lia.
    destruct (Z.le_gt_cases (p * 5 + 5) len) as [Hle2|Hgt2].
    + rewrite Z.min_l by lia. f_equal. lia.
    + rewrite Z.min_r by lia.
      rewrite take_ge by (rewrite length_drop; subst len; lia).
      rewrite take_ge by (rewrite length_drop; subst len; lia). done.
Qed.


Lemma keyboard_buttons botUsername mv page :
  exists rows,
    generateSeriesKeyboard botUsername mv page
    = ratingRow mv :: rows ++
        [navRow mv page ((fun s => s + 5) <$> ((fun p => p * 5) <$> page))
           (Z.of_nat (length (mv_episodes mv)));
         [share_button botUsername mv]] /\
    Forall (fun row => (0 < length row <= 3)%nat) rows /\
    concat rows
    = map (episode_button mv)
        (slice (mv_episodes mv) (default 0 ((fun p => p * 5) <$> page))
           (default 0 ((fun s => s + 5) <$> ((fun p => p * 5) <$> page)))).
Proof.
  eexists. split; [reflexivity|].
  destruct (button_rows_spec
    (map (episode_button mv)
       (slice (mv_episodes mv) (default 0 ((fun p => p * 5) <$> page))
          (default 0 ((fun s => s + 5) <$> ((fun p => p * 5) <$> page))))) [])
    as [H1 H2]; [cbn; lia|].
  split; [exact H1|]. rewrite H2. by destruct (map _ _).
Qed.

(** X1.  For a page number [p >= 0] the keyboard of a series is the row
    of star buttons, the rows of episode buttons, the navigation row and
    the share row.  The episode buttons are those of the episodes at
    positions [5p .. 5p+4], in order, in rows of one to three buttons, so
    the episode at position [i] is offered on page [i / 5] and nowhere
    else.  The navigation row offers [Previous] exactly when [p > 0] and
    [Next] exactly when episodes remain after the page; they lead to
    pages [p - 1] and [p + 1]. *)
Theorem series_keyboard_page (botUsername : string) (mv : MovieDoc) (p : Z) :
  0 <= p ->
  let eps := mv_episodes mv in
  let shown := take 5 (drop (Z.to_nat (5 * p)) eps) in
  exists rows nav,
    generateSeriesKeyboard botUsername mv (Some p)
    = ratingRow mv :: rows ++ [nav; [share_button botUsername mv]] /\
    concat rows = map (episode_button mv) shown /\
    Forall (fun row => (0 < length row <= 3)%nat) rows /\
    (forall (i : nat) ep,
       eps !! i = Some ep -> Z.of_nat i / 5 = p -> shown !! (i mod 5)%nat = Some ep) /\
    (In LPrevious (map b_label nav) <-> 0 < p) /\
    (In LNext (map b_label nav) <-> 5 * p + 5 < Z.of_nat (length eps)) /\
    (forall b, In b nav ->
       (b_label b = LPrevious /\ b_target b = CallbackData (nav_data (mv_code mv) (p - 1))) \/
       (b_label b = LNext /\ b_target b = CallbackData (nav_data (mv_code mv) (p + 1)))).
Proof.
  intros Hp eps shown.
  destruct (keyboard_buttons botUsername mv (Some p)) as (rows & Hkb & Hrows & Hcat).
  cbv beta iota delta [fmap option_fmap option_map default id] in Hkb, Hcat.
  rewrite slice_page in Hcat by done.
  exists rows, (navRow mv (Some p) (Some (p * 5 + 5)) (Z.of_nat (length (mv_episodes mv)))).
  split; [exact Hkb|]. split.
  { rewrite Hcat. subst shown eps. do 3 f_equal. lia. }
  split; [exact Hrows|]. split.
  { intros i ep Hi Hdiv. subst shown. rewrite lookup_take_lt.
    - rewrite lookup_drop. rewrite <- Hi. f_equal.
      pose proof (Nat.div_mod_eq i 5) as Hdm.
      assert (Z.of_nat (i / 5) = p) as Hq by (rewrite Nat2Z.inj_div; exact Hdiv).
      lia.
    - pose proof (Nat.mod_upper_bound i 5). lia. }
  unfold navRow. subst eps.
  destruct (Z.ltb_spec 0 p) as [H0|H0];
    destruct (Z.ltb_spec (p * 5 + 5) (Z.of_nat (length (mv_episodes mv)))) as [H1|H1];
    cbn; (split; [|split]);
    try (split; intros H; [decompose [or] H; try discriminate; try contradiction; lia
                          | try lia; auto]);
    intros b H; decompose [or] H; try contradiction; subst; cbn; auto.
Qed.

Lemma series_keyboard_page_witness :
  exists rows nav,
    generateSeriesKeyboard "kinobot" seven_episodes (Some 1)
    = ratingRow seven_episodes :: rows ++ [nav; [share_button "kinobot" seven_episodes]] /\
    concat rows = map (episode_button seven_episodes) [mk_episode 6; mk_episode 7] /\
    (In LPrevious (map b_label nav) <-> 0 < 1) /\
    (In LNext (map b_label nav) <-> 5 * 1 + 5 < 7).
Proof.
  destruct (series_keyboard_page "kinobot" seven_episodes 1 ltac:(lia))
    as (rows & nav & H1 & H2 & _ & _ & H3 & H4 & _).
  exists rows, nav. split; [exact H1|]. split; [exact H2|]. split; [exact H3 | exact H4].
Defined.










(** * Downloads *)




(** Running the primitive steps. *)
Lemma bind_ret_l {A B} (a : A) (k : A -> M B) : bind (ret a) k = k a.
Proof. reflexivity. Qed.

Lemma run_gets {A B} (f : World -> A) (k : A -> M B) (w : World) :
  bind (gets f) k w = k (f w) w.
Proof. reflexivity. Qed.

Lemma run_modify {B} (f : World -> World) (k : unit -> M B) (w : World) :
  bind (modify f) k w = k tt (f w).
Proof. reflexivity. Qed.














Section KeepsLemmas.

Variable I : World -> Prop.

Lemma keeps_ret {A} (a : A) : Keeps I (ret a).
Proof. intros w H. exact H. Qed.

Lemma keeps_throw {A} (e : Exn) : Keeps I (@throw A e).
Proof. intros w H. exact H. Qed.

Lemma keeps_gets {A} (f : World -> A) : Keeps I (gets f).
Proof. intros w H. exact H. Qed.

Lemma keeps_defined {A} (o : option A) : Keeps I (defined o).
Proof. destruct o; [apply keeps_ret | apply keeps_throw]. Qed.

Lemma keeps_await {A} (o : Outcome A) : Keeps I (await o).
Proof. destruct o; [apply keeps_ret | apply keeps_throw]. Qed.

Lemma keeps_modify (f : World -> World) : (forall w, I w -> I (f w)) -> Keeps I (modify f).
Proof. intros H w. apply H. Qed.

Lemma keeps_bind {A B} (m : M A) (k : A -> M B) :
  Keeps I m -> (forall a, Keeps I (k a)) -> Keeps I (bind m k).
Proof.
  intros Hm Hk w Hw. unfold bind. specialize (Hm w Hw).
  destruct (m w) as [[a|e] w']; cbn in *; [by apply Hk | exact Hm].
Qed.

Lemma keeps_try_catch {A} (m : M A) (h : Exn -> M A) :
  Keeps I m -> (forall e, Keeps I (h e)) -> Keeps I (try_catch m h).
Proof.
  intros Hm Hh w Hw. unfold try_catch. specialize (Hm w Hw).
  destruct (m w) as [[a|e] w']; cbn in *; [exact Hm | by apply Hh].
Qed.

Lemma keeps_blocks (l : list (M bool)) : Forall (Keeps I) l -> Keeps I (blocks l).
Proof.
  induction 1 as [|b r Hb _ IH]; cbn.
  - apply keeps_ret.
  - apply keeps_bind; [exact Hb|]. intros [|]; [apply keeps_ret | exact IH].
Qed.

Lemma keeps_when (c : bool) (body : M bool) : Keeps I body -> Keeps I (when c body).
Proof. intros H. destruct c; cbn; [exact H | apply keeps_ret]. Qed.

Lemma keeps_run_events superAdminId tr evs :
  (forall ev, In ev evs -> Keeps I (handle superAdminId tr ev)) ->
  forall w, I w -> I (run_events superAdminId tr evs w).
Proof.
  induction evs as [|ev evs IH]; intros H w Hw; [exact Hw|].
  cbn. apply IH.
  - intros ev' Hin. apply H. by right.
  - apply (H ev); [by left | exact Hw].
Qed.

End KeepsLemmas.

(** Decomposes a goal [Keeps I m] along the structure of [m]; [tac]
    settles the updates of the world. *)
Ltac keeps_step tac :=
  match goal with
  | H : context [Keeps] |- Keeps _ _ => solve [apply H]
  | |- Keeps _ (ret _) => apply keeps_ret
  | |- Keeps _ (throw _) => apply keeps_throw
  | |- Keeps _ (gets _) => apply keeps_gets
  | |- Keeps _ (defined _) => apply keeps_defined
  | |- Keeps _ (await _) => apply keeps_await
  | |- Keeps _ (bind _ _) => apply keeps_bind; [| intros ?]
  | |- Keeps _ (try_catch _ _) => apply keeps_try_catch; [| intros ?]
  | |- Keeps _ (when _ _) => apply keeps_when
  | |- Keeps _ (blocks _) => apply keeps_blocks
  | |- Forall _ (_ :: _) => constructor
  | |- Forall _ [] => constructor
  | |- Keeps _ (modify _) => apply keeps_modify; tac
  | |- Keeps _ (match ?x with _ => _ end) => destruct x
  | |- Keeps _ (let _ := _ in _) => cbv zeta
  | |- Keeps _ ?m => let h := head_of m in progress unfold h
  end.

Ltac keeps_auto tac := repeat keeps_step tac.

(** * Ratings stay consistent *)

Lemma delete_first_Forall {A} (Q : A -> Prop) (p : A -> bool) (l : list A) :
  Forall Q l -> Forall Q (delete_first p l).
Proof.
  induction 1 as [|x r Hx Hr IH]; cbn; [constructor|].
  destruct (p x); [done | by constructor].
Qed.

Ltac ratings_update :=
  let w := fresh "w" in
  let Hw := fresh "Hw" in
  intros w Hw;
  first
    [ exact Hw
    | unfold ratings_consistent in *; cbn [movies with_movies];
      first
        [ apply update_first_Forall; [|exact Hw];
          let x := fresh "x" in
          let Hx := fresh "Hx" in
          let Hp := fresh "Hp" in
          intros x Hx Hp;
          first [ exact Hx
                | eapply rate_movie_rated_once; eassumption
                | destruct Hx; split; assumption ]
        | apply delete_first_Forall; exact Hw
        | apply Forall_app; split; [exact Hw|];
          constructor; [|constructor]; split; [constructor | reflexivity] ] ].

Section Ratings.

Variable superAdminId : Z.
Variable tr : Transport.

Lemma ratings_check_channels userId chs :
  Keeps ratings_consistent (check_channels tr userId chs).
Proof. induction chs as [|ch rest IH]; cbn; keeps_auto ratings_update. Qed.

Lemma ratings_handle ev : Keeps ratings_consistent (handle superAdminId tr ev).
Proof.
  pose proof ratings_check_channels as Hc.
  destruct ev; cbn [handle].
  - keeps_auto ratings_update.
  - keeps_auto ratings_update.
  - keeps_auto ratings_update.
  - keeps_auto ratings_update.
Qed.

End Ratings.

(** X10.  Whatever messages, callbacks, broadcast turns and sweeps
    happen, of whatever users and admins, every content record keeps
    listing each rater at most once and counting exactly one rating per
    listed rater: creating, editing, viewing, downloading and deleting
    content never disturb what [handleRating] maintains. *)
Theorem ratings_stay_consistent (superAdminId : Z) (tr : Transport) (evs : list Event)
    (w : World) :
  ratings_consistent w -> ratings_consistent (run_events superAdminId tr evs w).
Proof.
  apply keeps_run_events. intros ev _. apply ratings_handle.
Qed.

Lemma ratings_stay_consistent_witness :
  ratings_consistent small_catalogue /\
  ratings_consistent (run_events 1 reliable rating_session small_catalogue).
Proof.
  assert (H : ratings_consistent small_catalogue).
  { repeat constructor. }
  split; [exact H|]. exact (ratings_stay_consistent 1 reliable rating_session _ H).
Defined.

(** * Codes stay unique *)

Lemma map_update_first {A B} (g : A -> B) (p : A -> bool) (f : A -> A) (l : list A) :
  (forall x, g (f x) = g x) -> map g (update_first p f l) = map g l.
Proof.
  intros Hf. induction l as [|x r IH]; cbn; [done|].
  destruct (p x); cbn; [by rewrite Hf | by rewrite IH].
Qed.

Lemma delete_first_In {A} (p : A -> bool) (l : list A) (x : A) :
  In x (delete_first p l) -> In x l.
Proof.
  induction l as [|y r IH]; cbn; [done|].
  destruct (p y); [by right|]. intros [<-|H]; [by left | right; by apply IH].
Qed.

Lemma NoDup_map_delete_first {A B} (g : A -> B) (p : A -> bool) (l : list A) :
  NoDup (map g l) -> NoDup (map g (delete_first p l)).
Proof.
  induction l as [|x r IH]; cbn; [done|].
  intros H. apply NoDup_cons in H as [Hx Hr].
  destruct (p x); [exact Hr|]. cbn. apply NoDup_cons. split; [|by apply IH].
  intros Hin. apply Hx. apply list_elem_of_In in Hin. apply list_elem_of_In.
  apply in_map_iff in Hin as (y & <- & Hy). apply in_map, (delete_first_In p). exact Hy.
Qed.


Section Codes.

Variable superAdminId : Z.
Variable tr : Transport.


Lemma keeps_bind_at (I : World -> Prop) {A B} (m : M A) (k : A -> M B) (w : World) :
  I (m w).2 -> (forall a, Keeps I (k a)) -> I (bind m k w).2.
Proof.
  intros Hm Hk. unfold bind. destruct (m w) as [[a|e] w']; cbn in *; [by apply Hk | exact Hm].
Qed.



End Codes.


(** * Sessions carry their creation time *)

Lemma stamped_alter (f : Session -> Session) (k : Z) (m : gmap Z Session) :
  (forall st, timestamp (f st) = timestamp st) ->
  map_Forall (fun _ st => is_Some (timestamp st)) m ->
  map_Forall (fun _ st => is_Some (timestamp st)) (alter f k m).
Proof.
  intros Hf Hm i st Hi. destruct (decide (i = k)) as [->|Hne].
  - rewrite lookup_alter_eq in Hi. destruct (m !! k) as [st0|] eqn:E; [|discriminate].
    injection Hi as <-. rewrite Hf. by eapply Hm.
  - rewrite lookup_alter_ne in Hi by done. by eapply Hm.
Qed.

Ltac stamped_update :=
  let w := fresh "w" in
  let Hw := fresh "Hw" in
  intros w Hw;
  first
    [ exact Hw
    | unfold sessions_stamped in *; cbn [state with_state];
      first
        [ apply map_Forall_insert_2; [by eexists | exact Hw]
        | apply map_Forall_delete; exact Hw
        | apply stamped_alter; [intros ?; reflexivity | exact Hw]
        | intros ? ? [? ?]%map_lookup_filter_Some; eapply Hw; eassumption ] ].

Section Stamped.

Variable superAdminId : Z.
Variable tr : Transport.

Lemma stamped_check_channels userId chs :
  Keeps sessions_stamped (check_channels tr userId chs).
Proof. induction chs as [|ch rest IH]; cbn; keeps_auto stamped_update. Qed.

Lemma stamped_handle ev : Keeps sessions_stamped (handle superAdminId tr ev).
Proof.
  pose proof stamped_check_channels as Hc.
  destruct ev; cbn [handle]; keeps_auto stamped_update.
Qed.

End Stamped.

(** X12.  Every session that any handler stores carries its creation
    time: if all stored sessions have a [timestamp], so have all
    sessions after any sequence of events.  The steps of the wizards
    change a session's step and data in place and never its
    [timestamp]. *)
Theorem sessions_stay_stamped (superAdminId : Z) (tr : Transport) (evs : list Event)
    (w : World) :
  sessions_stamped w -> sessions_stamped (run_events superAdminId tr evs w).
Proof.
  apply keeps_run_events. intros ev _. apply stamped_handle.
Qed.

Lemma sessions_stay_stamped_witness :
  sessions_stamped (run_events 1 reliable add_parasyte initial_world).
Proof.
  apply (sessions_stay_stamped 1 reliable add_parasyte initial_world).
  apply map_Forall_empty.
Defined.


(** * What a chat that is not an admin can change *)

Lemma is_admin_of_find l c :
  is_admin_of l c = false -> List.find (fun a => a_telegramId a =? c) l = None.
Proof.
  unfold is_admin_of. induction l as [|a r IH]; cbn; [done|].
  destruct (a_telegramId a =? c); cbn; [discriminate | exact IH].
Qed.

Lemma keeps_blocks_cons (I : World -> Prop) (b : M bool) (r : list (M bool)) :
  Keeps I b -> Keeps I (blocks r) -> Keeps I (blocks (b :: r)).
Proof.
  intros Hb Hr. cbn [blocks]. apply keeps_bind; [exact Hb|].
  intros [|]; [apply keeps_ret | exact Hr].
Qed.

Ltac operators_update :=
  let w := fresh "w" in
  let Hw := fresh "Hw" in
  intros w Hw;
  first
    [ exact Hw
    | destruct Hw as (HA & HC & HS & HL & HU & Hcache & Hstrict);
      repeat split; unfold cache_sound;
      cbn [admins channels settings movies users adminCache jobs broadcastController
           with_floodMap with_downloadLimitMap with_state with_adminCache with_controller
           with_users with_movies with_channels with_admins with_settings with_nextId
           with_jobs with_out];
      try assumption; try (by apply Hstrict); try congruence;
      first
        [ rewrite map_update_first; [assumption | intros ?; reflexivity]
        | rewrite map_app; by apply prefix_app_r
        | intros ? ? [? ?]%map_lookup_filter_Some; by eapply Hcache ] ].

Section Outsider.

Variable superAdminId : Z.
Variable tr : Transport.
Variable strict : bool.
Variable w0 : World.

Let I := operators_data strict w0.

Lemma outsider_isUserAdmin now c w :
  I w -> outsider superAdminId (admins w0) c ->
  exists w1, isUserAdmin superAdminId now c w = (Ok false, w1) /\ I w1.
Proof.
  intros Hw [Hne Hno]. pose proof Hw as (HA & HC & HS & HL & HU & Hcache & Hstrict).
  unfold isUserAdmin. destruct (Z.eqb_spec c superAdminId) as [?|_]; [done|].
  assert (Hfresh : forall w',
    (let! admin := Admin_findOne c in
     let isAdmin := bool_decide (is_Some admin) in
     modify (with_adminCache
       <[c := {| c_isAdmin := isAdmin; c_expire := now + adminCacheTTL |}]>);;
     ret isAdmin) w' = (Ok false, w') -> True) by done.
  assert (Hfind : List.find (fun a => a_telegramId a =? c) (admins w) = None)
    by (rewrite HA; by apply is_admin_of_find).
  assert (Hnew : I (with_adminCache
            <[c := {| c_isAdmin := false; c_expire := now + adminCacheTTL |}]> w)).
  { repeat split; unfold cache_sound;
      cbn [admins channels settings movies users adminCache jobs broadcastController
           with_adminCache];
      try assumption; try (by apply Hstrict).
    intros c' e He Ht. destruct (decide (c' = c)) as [->|Hc].
    - rewrite lookup_insert_eq in He. injection He as <-. discriminate.
    - rewrite lookup_insert_ne in He by done. by eapply Hcache. }
  rewrite run_gets.
  destruct (adminCache w !! c) as [e|] eqn:E.
  - destruct (now <? c_expire e).
    + destruct (c_isAdmin e) eqn:Ea.
      * pose proof (Hcache c e E Ea) as Hin. rewrite HA in Hin. congruence.
      * exists w. by split.
    + unfold Admin_findOne. rewrite run_gets, Hfind. cbv zeta.
      eexists. split; [reflexivity|]. exact Hnew.
  - unfold Admin_findOne. rewrite run_gets, Hfind. cbv zeta.
    eexists. split; [reflexivity|]. exact Hnew.
Qed.

Lemma outsider_bind_isUserAdmin {B} now c (k : bool -> M B) :
  outsider superAdminId (admins w0) c -> Keeps I (k false) ->
  Keeps I (bind (isUserAdmin superAdminId now c) k).
Proof.
  intros Hc Hk w Hw. unfold bind.
  destruct (outsider_isUserAdmin now c w Hw Hc) as (w1 & -> & Hw1). by apply Hk.
Qed.

Lemma outsider_keeps_isUserAdmin now c :
  outsider superAdminId (admins w0) c -> Keeps I (isUserAdmin superAdminId now c).
Proof.
  intros Hc w Hw. by destruct (outsider_isUserAdmin now c w Hw Hc) as (w1 & -> & Hw1).
Qed.

Lemma outsider_gate now c (r : list (M bool)) :
  outsider superAdminId (admins w0) c ->
  Keeps I (blocks ((let! a := isUserAdmin superAdminId now c in ret (negb a)) :: r)).
Proof.
  intros Hc w Hw. cbn [blocks]. unfold bind.
  destruct (outsider_isUserAdmin now c w Hw Hc) as (w1 & -> & Hw1). exact Hw1.
Qed.

End Outsider.

Ltac outsider_pre :=
  match goal with
  | |- Keeps _ (blocks (bind (isUserAdmin _ _ _) _ :: _)) =>
      apply outsider_gate; assumption
  | |- Keeps _ (blocks (_ :: _)) => apply keeps_blocks_cons
  | |- Keeps _ (bind (isUserAdmin _ _ _) _) =>
      apply outsider_bind_isUserAdmin; [assumption | cbv beta iota]
  | |- Keeps _ (isUserAdmin _ _ _) => apply outsider_keeps_isUserAdmin; assumption
  end.

Ltac outsider_auto := repeat first [outsider_pre | keeps_step operators_update].

Section OutsiderHandlers.

Variable superAdminId : Z.
Variable tr : Transport.
Variable strict : bool.
Variable w0 : World.

Let I := operators_data strict w0.

Lemma outsider_check_channels userId chs : Keeps I (check_channels tr userId chs).
Proof. induction chs as [|ch rest IH]; cbn; keeps_auto operators_update. Qed.

Lemma outsider_on_message now y msg :
  outsider superAdminId (admins w0) (m_chat msg) ->
  Keeps I (on_message superAdminId tr now y msg).
Proof.
  intros Hout. pose proof outsider_check_channels as Hc.
  outsider_auto.
Qed.

Lemma outsider_on_callback now q :
  outsider superAdminId (admins w0) (q_chat q) ->
  Keeps I (on_callback superAdminId tr now q).
Proof.
  intros Hout. pose proof outsider_check_channels as Hc.
  outsider_auto.
Qed.

Lemma outsider_sweep now : Keeps I (sweep now).
Proof. outsider_auto. Qed.

End OutsiderHandlers.

Lemma outsider_broadcast_turn tr w0 now i :
  Keeps (operators_data false w0) (broadcast_turn tr now i).
Proof. outsider_auto. Qed.

(** X13.  What a chat that is not an admin can change.  Take a world
    whose admin cache answers [true] only for recorded admins, and any
    sequence of events in which every message and every callback comes
    from a chat that is neither the super admin nor a recorded admin,
    interleaved with sweeps and (unless [strict]) turns of a running
    broadcast.  Afterwards the admin, channel and settings collections
    are as before, the catalogue is as before but for view, download and
    rating counters, every user of before has the same ban flag and
    download restrictions, and the admin cache is still sound; with
    [strict], the broadcast controller and its jobs are as before too. *)
Theorem outsiders_cannot_administrate (superAdminId : Z) (tr : Transport) (strict : bool)
    (evs : list Event) (w0 : World) :
  cache_sound w0 ->
  Forall (outside_event superAdminId strict (admins w0)) evs ->
  operators_data strict w0 (run_events superAdminId tr evs w0).
Proof.
  intros Hcache Hevs. apply keeps_run_events.
  - intros ev Hin. rewrite Forall_forall in Hevs.
    apply list_elem_of_In in Hin. specialize (Hevs ev Hin).
    destruct ev as [now y msg|now q|now i|now]; cbn [handle outside_event] in *.
    + by apply outsider_on_message.
    + by apply outsider_on_callback.
    + subst strict. apply outsider_broadcast_turn.
    + apply outsider_sweep.
  - repeat split; try done.
Qed.

Lemma outsiders_cannot_administrate_witness :
  operators_data true small_catalogue (run_events 1 reliable intrusion small_catalogue).
Proof.
  apply (outsiders_cannot_administrate 1 reliable true intrusion small_catalogue).
  - intros c e H. cbn in H. rewrite lookup_empty in H. discriminate.
  - repeat constructor; vm_compute; discriminate.
Defined.

(** * The download cooldown *)

Ltac same_update :=
  let w := fresh "w" in
  let Hw := fresh "Hw" in
  intros w Hw; exact Hw.

Lemma stamped_isUserAdmin superAdminId userId now d t c :
  Keeps (stamped_download userId now d) (isUserAdmin superAdminId t c).
Proof. keeps_auto same_update. Qed.






(** * Refused downloads *)




(** * The cleanup service *)





(** * Removing an admin *)

Lemma del_admin_data_parts tid :
  js_split (del_admin_data tid) "_" = ["del"; "admin"; pretty tid].
Proof.
  apply (js_split_join "del" ["admin"; pretty tid]); [reflexivity|].
  repeat constructor; try apply pretty_no_us; reflexivity.
Qed.

Lemma isUserAdmin_super superAdminId now w :
  isUserAdmin superAdminId now superAdminId w = (Ok true, w).
Proof. unfold isUserAdmin. by rewrite Z.eqb_refl. Qed.

Lemma dispatch_del_admin superAdminId tr now q w :
  q_chat q = superAdminId -> startsWith (q_data q) "del_admin_" = true ->
  callback_body superAdminId tr now q w
  = (match parseInt_at (js_split (q_data q) "_") 2 with
     | Some uid => modify (with_admins (delete_first (fun a => a_telegramId a =? uid)))
     | None => throw CastError
     end;;
     safeSend tr superAdminId NDeleted;;
     showAdminPanel superAdminId tr now superAdminId None) w.
Proof.
  intros Hc H. dispatch_user H. rewrite Hc, isUserAdmin_super. cbn [negb].
  destruct (parseInt_at _ 2) as [uid|]; [|reflexivity]. unfold modify.
  match goal with |- context [safeSend tr superAdminId NDeleted ?w1] =>
    destruct (safeSend tr superAdminId NDeleted w1) as [[r|e] w2]; [|reflexivity] end.
  by destruct (showAdminPanel superAdminId tr now superAdminId None w2) as [[[]|e] w3].
Qed.

Lemma panel_keeps (I : World -> Prop) superAdminId tr now :
  (forall f w, I w -> I (with_users f w)) ->
  (forall f w, I w -> I (with_out f w)) ->
  Keeps I (safeSend tr superAdminId NDeleted;;
           showAdminPanel superAdminId tr now superAdminId None).
Proof.
  intros Hu Ho.
  assert (Ha : Keeps I (isUserAdmin superAdminId now superAdminId)).
  { intros w Hw. by rewrite isUserAdmin_super. }
  keeps_auto ltac:(first [apply Hu | apply Ho]).
Qed.

(** X9.  Removing an admin deletes the admin record but not the
    admin's entry of [adminCache].  When the super admin presses the
    removal button for an admin whose cached entry says [true] and
    expires at [e], the record is deleted, yet until [e] the admin check
    still answers [true] for the removed admin; from [e] on it answers
    by the collection.  The permission check reads the collection, so
    with no record left it answers [false] at once. *)
Theorem removed_admin_keeps_access (superAdminId : Z) (tr : Transport) (now tid e : Z)
    (q : Callback) (w : World) :
  let w' := (on_callback superAdminId tr now q w).2 in
  q_chat q = superAdminId -> q_data q = del_admin_data tid -> tid <> superAdminId ->
  adminCache w !! tid = Some {| c_isAdmin := true; c_expire := e |} ->
  admins w' = delete_first (fun a => a_telegramId a =? tid) (admins w) /\
  (forall t, t < e -> (isUserAdmin superAdminId t tid w').1 = Ok true) /\
  (forall t, e <= t ->
     (isUserAdmin superAdminId t tid w').1 = Ok (is_admin_of (admins w') tid)) /\
  (forall perm, is_admin_of (admins w') tid = false ->
     (hasPermission superAdminId tid perm w').1 = Ok false).
Proof.
  intros w' Hc Hq Hne Hcache.
  assert (Hsw : startsWith (q_data q) "del_admin_" = true) by (rewrite Hq; apply prefix_append).
  pose proof (dispatch_del_admin superAdminId tr now q w Hc Hsw) as Hbody.
  rewrite Hq, del_admin_data_parts in Hbody. cbn [parseInt_at lookup list_lookup] in Hbody.
  rewrite parseInt_pretty in Hbody.
  assert (Hrun : forall I : World -> Prop,
    (forall f w, I w -> I (with_users f w)) ->
    (forall f w, I w -> I (with_out f w)) ->
    I (with_admins (delete_first (fun a => a_telegramId a =? tid)) w) -> I w').
  { intros I Hu Ho Hw. subst w'. unfold on_callback, try_catch. rewrite Hbody.
    pose proof (panel_keeps I superAdminId tr now Hu Ho _ Hw) as Hp.
    rewrite run_modify.
    destruct ((safeSend tr superAdminId NDeleted;;
               showAdminPanel superAdminId tr now superAdminId None) _) as [[[]|ex] w2];
      cbn in Hp |- *; [exact Hp|].
    apply Ho, Ho. exact Hp. }
  assert (Hadm : admins w' = delete_first (fun a => a_telegramId a =? tid) (admins w))
    by (apply (Hrun (same_admins _)); done).
  assert (Hcw : adminCache w' = adminCache w)
    by (apply (Hrun (same_admin_cache _)); done).
  split; [exact Hadm|].
  assert (Hfind : forall l, List.find (fun a => a_telegramId a =? tid) l
                            = None <-> is_admin_of l tid = false).
  { intros l. unfold is_admin_of. induction l as [|a r IH]; cbn; [done|].
    destruct (a_telegramId a =? tid); cbn; [split; discriminate | exact IH]. }
  split; [|split].
  - intros t Ht. unfold isUserAdmin.
    destruct (Z.eqb_spec tid superAdminId) as [?|_]; [done|].
    rewrite run_gets, Hcw, Hcache. cbn [c_expire c_isAdmin].
    by destruct (Z.ltb_spec t e); [|lia].
  - intros t Ht. unfold isUserAdmin.
    destruct (Z.eqb_spec tid superAdminId) as [?|_]; [done|].
    rewrite run_gets, Hcw, Hcache. cbn [c_expire c_isAdmin].
    destruct (Z.ltb_spec t e); [lia|].
    unfold Admin_findOne. rewrite run_gets. cbv zeta. rewrite run_modify. cbn [fst ret].
    f_equal. destruct (List.find _ (admins w')) as [a|] eqn:Ef.
    + destruct (is_admin_of (admins w') tid) eqn:Ea; [done|].
      apply Hfind in Ea. congruence.
    + apply Hfind in Ef. rewrite Ef. by apply bool_decide_eq_false_2, is_Some_None.
  - intros perm Hno. unfold hasPermission.
    destruct (Z.eqb_spec tid superAdminId) as [?|_]; [done|].
    unfold Admin_findOne. rewrite run_gets. apply Hfind in Hno. by rewrite Hno.
Qed.

Lemma removed_admin_keeps_access_witness :
  let w' := (on_callback 1 reliable 1010000 (callback 1 "del_admin_7") admin_seen).2 in
  admins w' = [] /\
  (isUserAdmin 1 1050000 7 w').1 = Ok true /\
  (hasPermission 1 7 P_users w').1 = Ok false.
Proof.
  destruct (removed_admin_keeps_access 1 reliable 1010000 7 1060000
              (callback 1 "del_admin_7") admin_seen eq_refl eq_refl
              ltac:(discriminate) eq_refl) as (H1 & H2 & _ & H4).
  split; [exact H1|]. split; [apply H2; lia | apply H4; rewrite H1; reflexivity].
Defined.

(** * Escaping *)

Lemma string_forall_impl (p p' : ascii -> bool) (s : string) :
  (forall c, p c = true -> p' c = true) ->
  string_forall p s = true -> string_forall p' s = true.
Proof.
  intros H. induction s as [|c s IH]; cbn; [done|].
  intros [Hc Hs]%andb_true_iff. by rewrite (H c Hc), IH.
Qed.

Lemma string_forall_app (p : ascii -> bool) (s t : string) :
  string_forall p (s +:+ t) = string_forall p s && string_forall p t.
Proof.
  induction s as [|c s IH]; [done|]. rewrite append_cons. cbn.
  by rewrite IH, andb_assoc.
Qed.

Lemma string_forall_rev_app (p : ascii -> bool) (s a : string) :
  string_forall p (String.rev_app s a) = string_forall p s && string_forall p a.
Proof.
  revert a. induction s as [|c s IH]; intros a; [done|]. cbn [String.rev_app].
  rewrite IH. cbn. destruct (p c), (string_forall p s), (string_forall p a); done.
Qed.

Lemma string_forall_trim_start (p : ascii -> bool) (s : string) :
  string_forall p s = true -> string_forall p (trim_start s) = true.
Proof.
  induction s as [|c s IH]; [done|]. cbn [trim_start].
  intros H. destruct (is_space c); [|exact H].
  cbn in H. apply andb_true_iff in H as [_ H]. by apply IH.
Qed.

Lemma string_forall_trim (p : ascii -> bool) (s : string) :
  string_forall p s = true -> string_forall p (trim s) = true.
Proof.
  intros H. unfold trim, String.rev.
  rewrite string_forall_rev_app, andb_true_r.
  apply string_forall_trim_start.
  rewrite string_forall_rev_app, andb_true_r.
  by apply string_forall_trim_start.
Qed.

Lemma string_forall_replace_all (p : ascii -> bool) (c : ascii) (rep s : string) :
  string_forall p rep = true ->
  string_forall (fun d => Ascii.eqb c d || p d) s = true ->
  string_forall p (replace_all c rep s) = true.
Proof.
  intros Hrep. induction s as [|d s IH]; [done|]. cbn [replace_all string_forall].
  intros [Hd Hs]%andb_true_iff. destruct (Ascii.eqb c d) eqn:E.
  - rewrite string_forall_app, Hrep. by apply IH.
  - cbn in Hd |- *. by rewrite Hd, IH.
Qed.

(** X14.  Whatever the input, the result of [sanitize] contains none of
    the characters [<], [>] and the double quote: text that went through
    it cannot open or close a tag or an attribute value in a message sent
    with [parse_mode: 'HTML']. *)
Theorem sanitize_html_safe (str : string) :
  string_forall html_safe (sanitize str) = true.
Proof.
  unfold sanitize. apply string_forall_trim.
  apply string_forall_replace_all; [reflexivity|].
  apply (string_forall_impl
           (fun d => negb (Ascii.eqb d "<" || Ascii.eqb d ">"))).
  { intros d Hd. unfold html_safe.
    destruct (Ascii.eqb_spec dq d) as [<-|Hne]; [done|]. cbn.
    destruct (Ascii.eqb d "<"), (Ascii.eqb d ">"); try discriminate.
    destruct (Ascii.eqb_spec d dq) as [->|_]; [done|]. done. }
  apply string_forall_replace_all; [reflexivity|].
  apply (string_forall_impl (fun d => negb (Ascii.eqb d "<"))).
  { intros d Hd. destruct (Ascii.eqb_spec ">"%char d) as [<-|Hne]; [done|]. cbn.
    destruct (Ascii.eqb d "<"); [discriminate|]. cbn.
    destruct (Ascii.eqb_spec d ">") as [->|_]; done. }
  apply string_forall_replace_all; [reflexivity|].
  apply (string_forall_impl (fun _ => true)).
  { intros d _. destruct (Ascii.eqb_spec "<"%char d) as [<-|Hne]; [done|]. cbn.
    destruct (Ascii.eqb_spec d "<") as [->|_]; done. }
  clear. generalize (replace_all "&" "&amp;" str). intros s.
  induction s as [|c s IH]; done.
Qed.

(** * Episode numbers *)

Lemma update_first_find_Forall {A} (Q : A -> Prop) (p : A -> bool) (f : A -> A)
    (l : list A) (m : A) :
  List.find p l = Some m -> Forall Q l -> Q (f m) -> Forall Q (update_first p f l).
Proof.
  intros Hfind Hl Hm. induction Hl as [|x r Hx Hr IH]; [discriminate|].
  cbn in Hfind |- *. destruct (p x).
  - injection Hfind as ->. by constructor.
  - constructor; [exact Hx | by apply IH].
Qed.

Lemma episodes_numbered_snoc (m m' : MovieDoc) (ep : Episode) :
  episodes_numbered m -> mv_episodes m' = mv_episodes m ++ [ep] ->
  e_number ep = Z.of_nat (length (mv_episodes m)) + 1 -> episodes_numbered m'.
Proof.
  intros Hm He Hn i x Hi. rewrite He in Hi.
  apply lookup_app_Some in Hi as [Hi|[Hlen Hi]]; [by apply Hm|].
  apply list_lookup_singleton_Some in Hi as [Hz <-]. rewrite Hn. lia.
Qed.

Ltac numbered_update :=
  let w := fresh "w" in
  let Hw := fresh "Hw" in
  intros w Hw;
  first
    [ exact Hw
    | unfold catalogue_numbered in *; cbn [movies with_movies];
      first
        [ apply update_first_Forall; [|exact Hw];
          let x := fresh "x" in
          let Hx := fresh "Hx" in
          intros x Hx _; exact Hx
        | apply delete_first_Forall; exact Hw ] ].

Section Numbered.

Variable superAdminId : Z.
Variable tr : Transport.

Lemma numbered_check_channels userId chs :
  Keeps catalogue_numbered (check_channels tr userId chs).
Proof. induction chs as [|ch rest IH]; cbn; keeps_auto numbered_update. Qed.

(** A new record has no episode, or the one numbered 1. *)
Lemma numbered_create_content now chatId st code :
  Keeps catalogue_numbered (create_content superAdminId tr now chatId st code).
Proof.
  pose proof numbered_check_channels as Hc.
  intros w Hw. unfold create_content. cbv zeta.
  destruct (bool_decide (contentType st = Some series));
    [destruct (data st) as [sd|]; unfold defined; [rewrite !bind_ret_l | exact Hw]
    | rewrite bind_ret_l];
    (apply keeps_bind_at; [|intros ?; keeps_auto numbered_update]);
    unfold Movie_create; rewrite run_gets, run_modify, run_modify;
    unfold catalogue_numbered; cbn [snd ret movies with_movies with_nextId];
    (apply Forall_app; split; [exact Hw|]); (constructor; [|constructor]);
    intros i ep Hi; cbn [mv_episodes] in Hi.
  - apply list_lookup_singleton_Some in Hi as [-> <-]. reflexivity.
  - by rewrite lookup_nil in Hi.
Qed.

(** The episode wizard numbers the new episode after those of the
    record it loaded, which is the record it saves. *)
Lemma numbered_add_episode now chatId msg st text :
  Keeps catalogue_numbered (add_episode tr now chatId msg st text).
Proof.
  intros w Hw. unfold add_episode.
  destruct (movieId st) as [mid|]; cbn [Movie_findById].
  - rewrite run_gets.
    destruct (List.find (fun m => String.eqb (mv_id m) mid) (movies w)) as [mv|] eqn:E.
    + destruct (step st) as [[]|];
        try solve
          [ revert w Hw E;
            match goal with |- forall w, _ -> _ -> catalogue_numbered (?m w).2 =>
              intros w Hw _; revert w Hw; change (Keeps catalogue_numbered m) end;
            keeps_auto numbered_update ].
      cbv zeta. destruct (tempEpisodeData st) as [te|]; unfold defined;
        [rewrite bind_ret_l | exact Hw].
      apply keeps_bind_at; [|intros ?; keeps_auto numbered_update].
      unfold Movie_save. cbn [snd modify]. unfold catalogue_numbered in *.
      cbn [movies with_movies].
      assert (Hid : mv_id mv = mid).
      { apply find_some in E as [_ H]. by apply String.eqb_eq in H. }
      rewrite Hid. apply (update_first_find_Forall _ _ _ _ mv E Hw).
      eapply episodes_numbered_snoc; [|reflexivity|reflexivity].
      rewrite Forall_forall in Hw. apply Hw. apply find_some in E as [H _].
      by apply list_elem_of_In.
    + revert w Hw E.
      match goal with |- forall w, _ -> _ -> catalogue_numbered (?m w).2 =>
        intros w Hw _; revert w Hw; change (Keeps catalogue_numbered m) end.
      keeps_auto numbered_update.
  - rewrite bind_ret_l. revert w Hw.
    match goal with |- forall w, _ -> catalogue_numbered (?m w).2 =>
      change (Keeps catalogue_numbered m) end.
    keeps_auto numbered_update.
Qed.

Lemma numbered_handle ev : Keeps catalogue_numbered (handle superAdminId tr ev).
Proof.
  pose proof numbered_check_channels as Hc.
  pose proof numbered_create_content as Hcreate.
  pose proof numbered_add_episode as Hadd.
  destruct ev; cbn [handle]; keeps_auto numbered_update.
Qed.

End Numbered.

(** X15.  Episodes are numbered as they are stored.  If in every content
    record the episode at position [i] (from 0) has number [i + 1], the
    same holds after any sequence of events: a series is created with
    the single episode 1, the episode wizard appends to the record it
    loaded an episode numbered one more than that record's episode count,
    and nothing else writes the episode list. *)
Theorem episodes_stay_numbered (superAdminId : Z) (tr : Transport) (evs : list Event)
    (w : World) :
  catalogue_numbered w -> catalogue_numbered (run_events superAdminId tr evs w).
Proof.
  apply keeps_run_events. intros ev _. apply numbered_handle.
Qed.

Example episode_session_adds :
  map (fun m => map e_number (mv_episodes m))
    (movies (run_events 1 reliable episode_session small_catalogue))
  = [[]; [1; 2; 3; 4; 5; 6; 7; 8]].
Proof. vm_compute. reflexivity. Qed.

Lemma episodes_stay_numbered_witness :
  catalogue_numbered small_catalogue /\
  catalogue_numbered (run_events 1 reliable episode_session small_catalogue).
Proof.
  assert (H : catalogue_numbered small_catalogue).
  { change (Forall episodes_numbered [parasyte; seven_episodes]).
    apply Forall_cons_2; [|apply Forall_cons_2; [|apply Forall_nil_2]];
      intros i ep Hi; [destruct i; discriminate|].
    do 7 (destruct i as [|i]; [injection Hi as <-; reflexivity|]). discriminate. }
  split; [exact H|]. exact (episodes_stay_numbered 1 reliable episode_session _ H).
Defined.

(** * One record per account *)

Lemma map_update_first_In {A B} (g : A -> B) (p : A -> bool) (f : A -> A) (l : list A) :
  (forall x, In x l -> p x = true -> g (f x) = g x) ->
  map g (update_first p f l) = map g l.
Proof.
  induction l as [|x r IH]; cbn; [done|]. intros Hf.
  destruct (p x) eqn:E; cbn.
  - rewrite Hf; [done | by left | done].
  - rewrite IH; [done|]. intros y Hy. apply Hf. by right.
Qed.

Lemma NoDup_map_inj {A B} (g : A -> B) (l : list A) (x y : A) :
  NoDup (map g l) -> In x l -> In y l -> g x = g y -> x = y.
Proof.
  induction l as [|a r IH]; cbn; [done|].
  intros H. apply NoDup_cons in H as [Ha Hr].
  intros [->|Hx] [->|Hy] E; try done.
  - exfalso. apply Ha. rewrite E. apply list_elem_of_In, in_map, Hy.
  - exfalso. apply Ha. rewrite <- E. apply list_elem_of_In, in_map, Hx.
  - by apply IH.
Qed.

Lemma users_unique_same (w w' : World) :
  map u_telegramId (users w') = map u_telegramId (users w) ->
  map u_id (users w') = map u_id (users w) ->
  (nextId w <= nextId w')%nat ->
  users_unique w -> users_unique w'.
Proof.
  intros Ht Hi Hn (H1 & H2 & H3). unfold users_unique. rewrite Ht, Hi.
  repeat split; [done | done |]. eapply Forall_impl; [exact H3|]. cbn. lia.
Qed.

Ltac users_update :=
  let w := fresh "w" in
  let Hw := fresh "Hw" in
  intros w Hw;
  first
    [ exact Hw
    | apply (users_unique_same w); [ | | | exact Hw];
      cbn [users nextId with_users with_nextId];
      first [ reflexivity | lia
            | apply map_update_first; intros ?; reflexivity ] ].

Section Users.

Variable superAdminId : Z.
Variable tr : Transport.

Lemma users_check_channels userId chs :
  Keeps users_unique (check_channels tr userId chs).
Proof. induction chs as [|ch rest IH]; cbn; keeps_auto users_update. Qed.

(** The upsert of the message handler inserts only when the lookup of
    the account found nothing. *)
Lemma users_findOneAndUpdate tid firstName username :
  Keeps users_unique (User_findOneAndUpdate tid firstName username).
Proof.
  intros w Hw. unfold User_findOneAndUpdate, User_findOne. rewrite run_gets.
  destruct (List.find (fun u => u_telegramId u =? tid) (users w)) as [u|] eqn:E.
  - assert (Keeps users_unique
              (User_updateOne_telegramId tid (set_u_isActive true);;
               ret (set_u_isActive true u))) as H by keeps_auto users_update.
    by apply H.
  - rewrite run_gets, run_modify, run_modify. cbn [snd ret].
    destruct Hw as (H1 & H2 & H3). unfold users_unique.
    cbn [users nextId with_users with_nextId]. rewrite !map_app. cbn [map new_user u_telegramId u_id].
    repeat split.
    + apply NoDup_app. split; [exact H1|]. split; [|apply NoDup_singleton].
      intros x Hx Hx'. apply list_elem_of_singleton in Hx'. subst x.
      apply list_elem_of_In, in_map_iff in Hx as (u & Hu & Hin).
      pose proof (find_none _ _ E u Hin) as Hn. cbn in Hn. rewrite Hu in Hn.
      by rewrite Z.eqb_refl in Hn.
    + apply NoDup_app. split; [exact H2|]. split; [|apply NoDup_singleton].
      intros x Hx Hx'. apply list_elem_of_singleton in Hx'. subst x.
      rewrite Forall_forall in H3. apply H3 in Hx. lia.
    + apply Forall_app. split.
      * eapply Forall_impl; [exact H3|]. cbn. lia.
      * constructor; [lia | constructor].
Qed.

(** The user buttons save the record they loaded: with distinct [_id]s
    it is the record of the account. *)
Lemma users_usr_block chatId msgId act (uid : option Z) :
  Keeps users_unique
    (let! found :=
       match uid with
       | Some tid => User_findOne tid
       | None => ret None
       end in
     match found with
     | Some u =>
         let u1 := if String.eqb act "ban" then toggle_u_isBanned u else u in
         let u2 := if String.eqb act "dl" then toggle_u_canDownload u1 else u1 in
         User_updateOne_id (u_id u) (fun _ => u2);;
         showUserManagePanel tr chatId u2 (Some msgId)
     | None => ret tt
     end;;
     ret false).
Proof.
  intros w Hw. destruct uid as [tid|]; [|exact Hw].
  unfold User_findOne. rewrite run_gets.
  destruct (List.find (fun u => u_telegramId u =? tid) (users w)) as [u|] eqn:E;
    [|exact Hw].
  cbv zeta. apply keeps_bind_at; [|intros ?; keeps_auto users_update].
  apply keeps_bind_at; [|intros ?; keeps_auto users_update].
  apply find_some in E as [Hin _].
  assert (Hsame : forall x, In x (users w) -> Nat.eqb (u_id x) (u_id u) = true -> x = u).
  { intros x Hx Hp. apply Nat.eqb_eq in Hp. destruct Hw as (_ & H2 & _).
    by apply (NoDup_map_inj u_id (users w)). }
  unfold User_updateOne_id. cbn [snd modify].
  apply (users_unique_same w); [ | | | exact Hw]; cbn [users nextId with_users]; [| |lia];
    apply map_update_first_In; intros x Hx Hp; rewrite (Hsame x Hx Hp);
    by destruct (String.eqb act "ban"), (String.eqb act "dl").
Qed.

Lemma users_handle ev : Keeps users_unique (handle superAdminId tr ev).
Proof.
  pose proof users_check_channels as Hc.
  pose proof users_findOneAndUpdate as Hu.
  pose proof users_usr_block as Hb.
  destruct ev; cbn [handle]; keeps_auto users_update.
Qed.

End Users.

(** X16.  One record per account.  If no two user records share a
    Telegram account or an [_id] (all [_id]s having been drawn from the
    store's counter), the same holds after any sequence of events: the
    upsert of the message handler inserts only when its lookup found no
    record of the account, and every later write (activity flag, birth
    year, ban and download toggles, broadcast bookkeeping) saves a record
    under the keys it was loaded with. *)
Theorem users_stay_unique (superAdminId : Z) (tr : Transport) (evs : list Event)
    (w : World) :
  users_unique w -> users_unique (run_events superAdminId tr evs w).
Proof.
  apply keeps_run_events. intros ev _. apply users_handle.
Qed.

Example signup_session_users :
  map (fun u => (u_id u, u_telegramId u, u_birthYear u, u_isBanned u))
    (users (run_events 1 reliable signup_session initial_world))
  = [(0%nat, 11, Some 2001, false); (1%nat, 12, None, true)].
Proof. vm_compute. reflexivity. Qed.

Lemma users_stay_unique_witness :
  users_unique initial_world /\
  users_unique (run_events 1 reliable signup_session initial_world).
Proof.
  assert (H : users_unique initial_world).
  { repeat split; constructor. }
  split; [exact H|]. exact (users_stay_unique 1 reliable signup_session _ H).
Defined.

(** * The admin records *)

Ltac admins_update :=
  let w := fresh "w" in
  let Hw := fresh "Hw" in
  intros w Hw;
  first
    [ exact Hw
    | let H1 := fresh "H1" in
      let H2 := fresh "H2" in
      destruct Hw as [H1 H2]; unfold admins_unique; cbn [admins with_admins];
      first
        [ rewrite map_update_first_In; [by split|];
          let x := fresh "x" in
          let Hp := fresh "Hp" in
          intros x _ Hp; apply Z.eqb_eq in Hp; cbn [a_telegramId]; congruence
        | split; [by apply NoDup_map_delete_first|];
          let Hin := fresh "Hin" in
          let x := fresh "x" in
          intros Hin; apply H2; apply in_map_iff in Hin as (x & <- & Hin);
          apply in_map; eapply delete_first_In; exact Hin ] ].

Section Admins.

Variable superAdminId : Z.
Variable tr : Transport.

Lemma admins_check_channels userId chs :
  Keeps (admins_unique superAdminId) (check_channels tr userId chs).
Proof. induction chs as [|ch rest IH]; cbn; keeps_auto admins_update. Qed.

(** The admin wizard creates a record only for an account that is not
    the super-administrator and has none. *)
Lemma admins_manage_step chatId (tid : Z) :
  Keeps (admins_unique superAdminId)
    (if tid =? superAdminId then safeSend tr chatId NSuperAdminImmune;; ret tt
     else
       let! found := Admin_findOne tid in
       let! adm :=
         match found with
         | Some a => ret a
         | None => Admin_create tid chatId
         end in
       state_delete chatId;;
       showAdminPermsPanel tr chatId adm None).
Proof.
  destruct (Z.eqb_spec tid superAdminId) as [->|Hne]; [keeps_auto admins_update|].
  intros w Hw. unfold Admin_findOne. rewrite run_gets.
  destruct (List.find (fun a => a_telegramId a =? tid) (admins w)) as [a|] eqn:E.
  - rewrite bind_ret_l. revert w Hw E.
    match goal with |- forall w, _ -> _ -> admins_unique _ (?m w).2 =>
      intros w Hw _; revert w Hw; change (Keeps (admins_unique superAdminId) m) end.
    keeps_auto admins_update.
  - apply keeps_bind_at; [|intros ?; keeps_auto admins_update].
    unfold Admin_create. cbv zeta. rewrite run_modify. cbn [snd ret].
    destruct Hw as [H1 H2]. unfold admins_unique. cbn [admins with_admins].
    rewrite map_app. cbn [map a_telegramId]. split.
    + apply NoDup_app. split; [exact H1|]. split; [|apply NoDup_singleton].
      intros x Hx Hx'. apply list_elem_of_singleton in Hx'. subst x.
      apply list_elem_of_In, in_map_iff in Hx as (a & Ha & Hin).
      pose proof (find_none _ _ E a Hin) as Hn. cbn in Hn. rewrite Ha in Hn.
      by rewrite Z.eqb_refl in Hn.
    + intros Hin. apply in_app_iff in Hin as [Hin|[Hin|[]]]; [by apply H2 | congruence].
Qed.

Lemma admins_handle ev : Keeps (admins_unique superAdminId) (handle superAdminId tr ev).
Proof.
  pose proof admins_check_channels as Hc.
  pose proof admins_manage_step as Hm.
  destruct ev; cbn [handle]; keeps_auto admins_update.
Qed.

End Admins.

(** X17.  If there is at most one admin record per account and none for
    the super-administrator, the same holds after any sequence of
    events: the admin wizard refuses the super-administrator's id and
    creates a record only when the lookup of the id found none, the
    permission buttons rewrite a record under its own id, and removal
    only deletes. *)
Theorem admins_stay_unique (superAdminId : Z) (tr : Transport) (evs : list Event)
    (w : World) :
  admins_unique superAdminId w ->
  admins_unique superAdminId (run_events superAdminId tr evs w).
Proof.
  apply keeps_run_events. intros ev _. apply admins_handle.
Qed.

Example admin_session_admins :
  map a_telegramId (admins (run_events 1 reliable admin_session initial_world)) = [7].
Proof. vm_compute. reflexivity. Qed.

Lemma admins_stay_unique_witness :
  admins_unique 1 initial_world /\
  admins_unique 1 (run_events 1 reliable admin_session initial_world).
Proof.
  assert (H : admins_unique 1 initial_world).
  { split; [constructor | intros []]. }
  split; [exact H|]. exact (admins_stay_unique 1 reliable admin_session _ H).
Defined.

(** * Banning *)

Lemma trim_start_id (s : string) :
  string_forall (fun c => negb (is_space c)) s = true -> trim_start s = s.
Proof.
  destruct s as [|c s]; [done|]. cbn [string_forall trim_start].
  intros [Hc _]%andb_true_iff. by destruct (is_space c).
Qed.

Lemma trim_id (s : string) :
  string_forall (fun c => negb (is_space c)) s = true -> trim s = s.
Proof.
  intros H. unfold trim. rewrite (trim_start_id s H).
  rewrite trim_start_id.
  - apply rev_rev_app.
  - unfold String.rev. by rewrite string_forall_rev_app, H.
Qed.

Lemma is_digit_no_space c : is_digit c = true -> negb (is_space c) = true.
Proof.
  destruct c as [[] [] [] [] [] [] [] []]; try discriminate; reflexivity.
Qed.

Lemma trim_pretty (z : Z) : trim (pretty z) = pretty z.
Proof.
  apply trim_id. apply pretty_Z_forall; [apply is_digit_no_space | reflexivity].
Qed.

Lemma all_digits_from_forall s : all_digits_from s = string_forall is_digit s.
Proof. induction s as [|c s IH]; [done|]. cbn. by rewrite IH. Qed.

Lemma cast_id_pretty (z : Z) : cast_id (Some (pretty z)) = ret (Some z).
Proof.
  unfold cast_id. rewrite trim_pretty, parseInt_pretty.
  destruct z as [|p|p].
  - reflexivity.
  - rewrite pretty_Zpos_eq.
    destruct (pretty_N_go_head (N.pos p) "" ltac:(done)) as (d & r & E & Hd).
    assert (Hall : all_digits_from (pretty_N_go (N.pos p) "") = true).
    { rewrite all_digits_from_forall. by apply pretty_N_go_forall. }
    rewrite E in *.
    assert (d = 1 \/ d = 2 \/ d = 3 \/ d = 4 \/ d = 5 \/ d = 6 \/ d = 7
            \/ d = 8 \/ d = 9)%N as Hx by lia.
    repeat destruct Hx as [->|Hx]; try subst d;
      cbv beta iota delta [pretty_N_char all_digits] in *; by rewrite Hall.
  - rewrite pretty_Zneg_eq.
    destruct (pretty_N_go_head (N.pos p) "" ltac:(done)) as (d & r & E & Hd).
    assert (Hall : all_digits_from (pretty_N_go (N.pos p) "") = true).
    { rewrite all_digits_from_forall. by apply pretty_N_go_forall. }
    rewrite E in *. unfold all_digits. by rewrite Hall.
Qed.

Lemma usr_data_parts act tid :
  string_forall no_us act = true ->
  js_split (usr_data act tid) "_" = ["usr"; act; pretty tid].
Proof.
  intros H. apply (js_split_join "usr" [act; pretty tid]); [reflexivity|].
  repeat constructor; [exact H | apply pretty_no_us].
Qed.

Lemma dispatch_usr superAdminId tr now q w :
  startsWith (q_data q) "usr_" = true ->
  callback_body superAdminId tr now q w
  = (let! a := isUserAdmin superAdminId now (q_chat q) in
     if negb a then ret tt
     else
       let parts := js_split (q_data q) "_" in
       let act := default "undefined" (parts !! 1%nat) in
       let! uid := cast_id (parts !! 2%nat) in
       let! found :=
         match uid with
         | Some tid => User_findOne tid
         | None => ret None
         end in
       match found with
       | Some u =>
           let u1 := if String.eqb act "ban" then toggle_u_isBanned u else u in
           let u2 := if String.eqb act "dl" then toggle_u_canDownload u1 else u1 in
           User_updateOne_id (u_id u) (fun _ => u2);;
           showUserManagePanel tr (q_chat q) u2 (Some (q_message_id q))
       | None => ret tt
       end) w.
Proof.
  intros H. dispatch_user H.
  destruct (isUserAdmin_cache superAdminId now (q_chat q) w) as (b & f & ->).
  destruct b; cbn [negb]; [|reflexivity].
  unfold User_findOne, User_updateOne_id, showUserManagePanel, emit, modify, gets.
  cbv beta iota zeta.
  match goal with |- context [cast_id ?a ?w1] =>
    destruct (cast_id a w1) as [[[uid|]|e] w2]; try reflexivity end.
  by destruct (List.find _ (users w2)).
Qed.

Lemma update_first_find_none {A} (p : A -> bool) (f : A -> A) (l : list A) :
  List.find p l = None -> update_first p f l = l.
Proof.
  induction l as [|x r IH]; cbn; [done|].
  destruct (p x); [discriminate|]. intros H. by rewrite IH.
Qed.

(** Saving the loaded record by its [_id] changes the record of the
    account, when [_id]s are distinct. *)
Lemma update_first_saved (p : UserDoc -> bool) (g : UserDoc -> UserDoc)
    (l : list UserDoc) (u : UserDoc) :
  NoDup (map u_id l) -> List.find p l = Some u ->
  update_first (fun x => Nat.eqb (u_id x) (u_id u)) (fun _ => g u) l
  = update_first p g l.
Proof.
  induction l as [|x r IH]; cbn; [done|].
  intros Hnd Hfind. apply NoDup_cons in Hnd as [Hx Hr].
  destruct (p x).
  - injection Hfind as ->. by rewrite Nat.eqb_refl.
  - destruct (Nat.eqb_spec (u_id x) (u_id u)) as [E|_].
    + exfalso. apply Hx. rewrite E. apply find_some in Hfind as [Hin _].
      apply list_elem_of_In, in_map, Hin.
    + by rewrite IH.
Qed.

(** X18.  The ban and download buttons of the user panel.  When any
    chat that passes the admin check presses [usr_ban_<id>] (or
    [usr_dl_<id>]), and user records have distinct accounts and [_id]s,
    the user collection afterwards is the one of before with the ban flag
    (or the download permission) of the record of account [<id>]
    flipped, and nothing else changed; if there is no such record the
    collection is unchanged.  The [users] permission of the presser is
    not consulted. *)
Theorem user_button_toggles (superAdminId : Z) (tr : Transport) (now tid : Z)
    (act : string) (q : Callback) (w : World) :
  q_data q = usr_data act tid ->
  act = "ban" \/ act = "dl" ->
  (isUserAdmin superAdminId now (q_chat q) w).1 = Ok true ->
  users_unique w ->
  users (on_callback superAdminId tr now q w).2
  = update_first (fun u => u_telegramId u =? tid)
      (if String.eqb act "ban" then toggle_u_isBanned else toggle_u_canDownload)
      (users w).
Proof.
  intros Hq Hact Hadm (_ & Hid & _).
  assert (Hsw : startsWith (q_data q) "usr_" = true) by (rewrite Hq; apply prefix_append).
  unfold on_callback, try_catch. rewrite (dispatch_usr _ _ _ _ _ Hsw).
  rewrite Hq, usr_data_parts by (by destruct Hact as [-> | ->]).
  cbn [lookup list_lookup default]. rewrite cast_id_pretty.
  destruct (isUserAdmin_cache superAdminId now (q_chat q) w) as (b & f & E).
  unfold bind at 1. rewrite E in Hadm |- *. cbn in Hadm. injection Hadm as ->.
  cbn [negb]. cbv zeta. rewrite bind_ret_l. unfold User_findOne. rewrite run_gets.
  cbn [users with_adminCache].
  destruct (List.find (fun u => u_telegramId u =? tid) (users w)) as [u|] eqn:Ef.
  - unfold User_updateOne_id, showUserManagePanel, emit. rewrite run_modify.
    cbn [modify snd users with_out with_users with_adminCache].
    destruct Hact as [-> | ->]; cbn [String.eqb Ascii.eqb Bool.eqb];
      by rewrite <- (update_first_saved _ _ _ u Hid Ef).
  - cbn [ret snd users with_adminCache]. by rewrite update_first_find_none.
Qed.

Lemma user_button_toggles_witness :
  (hasPermission 1 7 P_users two_users).1 = Ok false /\
  map u_isBanned
    (users (on_callback 1 reliable 1000000 (callback 7 "usr_ban_12") two_users).2)
  = [false; true].
Proof.
  split; [reflexivity|].
  rewrite (user_button_toggles 1 reliable 1000000 12 "ban" (callback 7 "usr_ban_12")
             two_users eq_refl (or_introl eq_refl) eq_refl).
  - reflexivity.
  - repeat split.
    + apply (NoDup_cons_2 11); [|apply NoDup_singleton].
      by intros ?%list_elem_of_singleton.
    + apply (NoDup_cons_2 0%nat); [|apply NoDup_singleton].
      by intros ?%list_elem_of_singleton.
    + repeat constructor.
Defined.

Lemma bind_assoc_at {A B C} (m : M A) (k1 : A -> M B) (k2 : B -> M C) (w : World) :
  bind (bind m k1) k2 w = bind m (fun x => bind (k1 x) k2) w.
Proof. unfold bind. by destruct (m w) as [[a|e] w1]. Qed.

(** * Permissions *)

Lemma perm_data_parts k tid :
  string_forall no_us k = true ->
  js_split (perm_data k tid) "_" = ["perm"; k; pretty tid].
Proof.
  intros H. apply (js_split_join "perm" [k; pretty tid]); [reflexivity|].
  repeat constructor; [exact H | apply pretty_no_us].
Qed.

Lemma dispatch_perm superAdminId tr now q w :
  startsWith (q_data q) "perm_" = true ->
  callback_body superAdminId tr now q w
  = (let! a := isUserAdmin superAdminId now (q_chat q) in
     if negb a then ret tt
     else
       let parts := js_split (q_data q) "_" in
       let k := default "undefined" (parts !! 1%nat) in
       let! uid := cast_id (parts !! 2%nat) in
       let! found :=
         match uid with
         | Some tid => Admin_findOne tid
         | None => ret None
         end in
       match found with
       | Some a =>
           let a' := {| a_telegramId := a_telegramId a; a_addedBy := a_addedBy a;
                        a_permissions := toggle_perm k (a_permissions a) |} in
           modify (with_admins
             (update_first (fun x => a_telegramId x =? a_telegramId a) (fun _ => a')));;
           match parseInt_at parts 2 with
           | Some tid => modify (with_adminCache (delete tid))
           | None => ret tt
           end;;
           showAdminPermsPanel tr (q_chat q) a' (Some (q_message_id q))
       | None => ret tt
       end) w.
Proof.
  intros H. dispatch_user H.
  destruct (isUserAdmin_cache superAdminId now (q_chat q) w) as (b & f & ->).
  destruct b; cbn [negb]; [|reflexivity].
  unfold Admin_findOne, showAdminPermsPanel, emit, modify, gets.
  cbv beta iota zeta.
  match goal with |- context [cast_id ?a ?w1] =>
    destruct (cast_id a w1) as [[[uid|]|e] w2]; try reflexivity end.
  destruct (List.find _ (admins w2)); [|reflexivity].
  by destruct (parseInt_at _ 2).
Qed.

Lemma find_update_first {A} (p : A -> bool) (a' : A) (l : list A) :
  is_Some (List.find p l) -> p a' = true ->
  List.find p (update_first p (fun _ => a') l) = Some a'.
Proof.
  intros Hsome Ha'. induction l as [|x r IH]; cbn in *; [by destruct Hsome|].
  destruct (p x) eqn:E; cbn; [by rewrite Ha'|]. rewrite E. by apply IH.
Qed.

(** X19.  The permission buttons of the admin panel.  When any chat that
    passes the admin check presses [perm_<k>_<id>] and account [<id>] has
    an admin record, then afterwards that record has permission [k]
    flipped and is otherwise the same, the admin cache has no entry for
    [<id>], and [hasPermission] answers for [<id>] from the flipped
    permissions at once.  The presser may be [<id>] itself, and its own
    permissions are not consulted. *)
Theorem permission_button_toggles (superAdminId : Z) (tr : Transport) (now tid : Z)
    (k : string) (q : Callback) (a : AdminDoc) (w : World) :
  q_data q = perm_data k tid ->
  string_forall no_us k = true ->
  (isUserAdmin superAdminId now (q_chat q) w).1 = Ok true ->
  List.find (fun x => a_telegramId x =? tid) (admins w) = Some a ->
  let w' := (on_callback superAdminId tr now q w).2 in
  List.find (fun x => a_telegramId x =? tid) (admins w')
  = Some {| a_telegramId := tid; a_addedBy := a_addedBy a;
            a_permissions := toggle_perm k (a_permissions a) |} /\
  adminCache w' !! tid = None /\
  (tid <> superAdminId -> forall perm,
     (hasPermission superAdminId tid perm w').1
     = Ok (get_perm perm (toggle_perm k (a_permissions a)))).
Proof.
  intros Hq Hk Hadm Hfind w'.
  assert (Htid : a_telegramId a = tid).
  { apply find_some in Hfind as [_ H]. by apply Z.eqb_eq in H. }
  assert (Hsw : startsWith (q_data q) "perm_" = true) by (rewrite Hq; apply prefix_append).
  assert (Hw' : exists f,
    w' = with_out f (with_adminCache (delete tid) (with_admins
           (update_first (fun x => a_telegramId x =? tid)
              (fun _ => {| a_telegramId := tid; a_addedBy := a_addedBy a;
                           a_permissions := toggle_perm k (a_permissions a) |}))
           (isUserAdmin superAdminId now (q_chat q) w).2))).
  { subst w'. unfold on_callback, try_catch. rewrite (dispatch_perm _ _ _ _ _ Hsw).
    rewrite Hq, perm_data_parts by done.
    cbn [lookup list_lookup default parseInt_at]. rewrite cast_id_pretty, parseInt_pretty.
    destruct (isUserAdmin_cache superAdminId now (q_chat q) w) as (b & f & E).
    unfold bind at 1. rewrite E in Hadm |- *. cbn in Hadm. injection Hadm as ->.
    cbn [negb]. cbv zeta. rewrite bind_ret_l. unfold Admin_findOne. rewrite run_gets.
    cbn [admins with_adminCache]. rewrite Hfind, Htid.
    rewrite run_modify, run_modify. unfold showAdminPermsPanel, emit, modify.
    cbn [snd]. by eexists. }
  destruct Hw' as [f ->]. cbn [admins adminCache with_out with_adminCache with_admins].
  assert (Hnew : List.find (fun x => a_telegramId x =? tid)
            (update_first (fun x => a_telegramId x =? tid)
               (fun _ => {| a_telegramId := tid; a_addedBy := a_addedBy a;
                            a_permissions := toggle_perm k (a_permissions a) |})
               (admins (isUserAdmin superAdminId now (q_chat q) w).2))
          = Some {| a_telegramId := tid; a_addedBy := a_addedBy a;
                    a_permissions := toggle_perm k (a_permissions a) |}).
  { destruct (isUserAdmin_cache superAdminId now (q_chat q) w) as (b & g & ->).
    cbn [snd admins with_adminCache].
    apply find_update_first; [by rewrite Hfind | apply Z.eqb_refl]. }
  split; [exact Hnew|]. split; [apply lookup_delete_eq|].
  intros Hne perm. unfold hasPermission.
  destruct (Z.eqb_spec tid superAdminId) as [?|_]; [done|].
  unfold Admin_findOne. rewrite run_gets.
  cbn [admins with_out with_adminCache with_admins]. by rewrite Hnew.
Qed.

Lemma permission_button_toggles_witness :
  let w' := (on_callback 1 reliable 1000000 (callback 7 "perm_users_7") two_users).2 in
  (hasPermission 1 7 P_users two_users).1 = Ok false /\
  (hasPermission 1 7 P_users w').1 = Ok true.
Proof.
  intros w'. split; [reflexivity|].
  destruct (permission_button_toggles 1 reliable 1000000 7 "users"
              (callback 7 "perm_users_7") powerless_admin two_users
              eq_refl eq_refl eq_refl eq_refl) as (_ & _ & H).
  apply (H ltac:(discriminate) P_users).
Defined.

(** * Birth years *)

Ltac years_update :=
  let w := fresh "w" in
  let Hw := fresh "Hw" in
  intros w Hw;
  first
    [ exact Hw
    | unfold years_valid in *; cbn [users with_users];
      apply update_first_Forall; [|exact Hw];
      let x := fresh "x" in
      let Hx := fresh "Hx" in
      intros x Hx _; exact Hx ].

Section Years.

Variable superAdminId : Z.
Variable tr : Transport.
Variable Y : Z.

Lemma years_check_channels userId chs :
  Keeps (years_valid Y) (check_channels tr userId chs).
Proof. induction chs as [|ch rest IH]; cbn; keeps_auto years_update. Qed.

(** A new record has no birth year. *)
Lemma years_findOneAndUpdate tid firstName username :
  Keeps (years_valid Y) (User_findOneAndUpdate tid firstName username).
Proof.
  intros w Hw. unfold User_findOneAndUpdate, User_findOne. rewrite run_gets.
  destruct (List.find (fun u => u_telegramId u =? tid) (users w)) as [u|].
  - assert (Keeps (years_valid Y)
              (User_updateOne_telegramId tid (set_u_isActive true);;
               ret (set_u_isActive true u))) as H by keeps_auto years_update.
    by apply H.
  - rewrite run_gets, run_modify, run_modify. cbn [snd ret].
    unfold years_valid in *. cbn [users with_users with_nextId].
    apply Forall_app. split; [exact Hw|]. constructor; [|constructor].
    intros y Hy. discriminate.
Qed.

(** The answer to the birth-year question is stored only after the
    range check. *)
Lemma years_birth_step currentYear (Hy : currentYear <= Y) now chatId user st year :
  Keeps (years_valid Y)
    (if (year <? 1950) || (currentYear <? year)
     then safeSend tr chatId (NBadYear currentYear);; ret true
     else
       User_updateOne_id (u_id user) (set_u_birthYear year);;
       state_delete chatId;;
       safeSend tr chatId NYearSaved;;
       match pendingCode st with
       | Some (String c r) => handleMovieCodeRequest superAdminId tr now chatId (String c r)
       | _ => ret tt
       end;;
       ret true).
Proof.
  pose proof years_check_channels as Hc.
  destruct (Z.ltb_spec year 1950) as [?|Hlo]; cbn [orb]; [keeps_auto years_update|].
  destruct (Z.ltb_spec currentYear year) as [?|Hhi]; [keeps_auto years_update|].
  apply keeps_bind; [|intros ?; keeps_auto years_update].
  intros w Hw. unfold User_updateOne_id. cbn [modify snd]. unfold years_valid in *.
  cbn [users with_users]. apply update_first_Forall; [|exact Hw].
  intros x _ _ y E. cbn in E. injection E as <-. lia.
Qed.

(** The user buttons save the loaded record with its birth year. *)
Lemma years_usr_block chatId msgId act (uid : option Z) :
  Keeps (years_valid Y)
    (let! found :=
       match uid with
       | Some tid => User_findOne tid
       | None => ret None
       end in
     match found with
     | Some u =>
         let u1 := if String.eqb act "ban" then toggle_u_isBanned u else u in
         let u2 := if String.eqb act "dl" then toggle_u_canDownload u1 else u1 in
         User_updateOne_id (u_id u) (fun _ => u2);;
         showUserManagePanel tr chatId u2 (Some msgId)
     | None => ret tt
     end;;
     ret false).
Proof.
  intros w Hw. destruct uid as [tid|]; [|exact Hw].
  unfold User_findOne. rewrite run_gets.
  destruct (List.find (fun u => u_telegramId u =? tid) (users w)) as [u|] eqn:E;
    [|exact Hw].
  cbv zeta. apply keeps_bind_at; [|intros ?; keeps_auto years_update].
  apply keeps_bind_at; [|intros ?; keeps_auto years_update].
  unfold User_updateOne_id. cbn [modify snd]. unfold years_valid in *.
  cbn [users with_users]. apply update_first_Forall; [|exact Hw].
  intros x _ _. apply find_some in E as [Hin _].
  rewrite Forall_forall in Hw. apply list_elem_of_In, Hw in Hin.
  by destruct (String.eqb act "ban"), (String.eqb act "dl").
Qed.

Lemma years_handle ev : year_at_most Y ev -> Keeps (years_valid Y) (handle superAdminId tr ev).
Proof.
  pose proof years_check_channels as Hc.
  pose proof years_findOneAndUpdate as Hu.
  pose proof years_usr_block as Hb.
  destruct ev as [now currentYear msg| | |]; cbn [handle year_at_most]; intros Hy;
    [pose proof (years_birth_step currentYear Hy) as Hs|..];
    keeps_auto years_update.
Qed.

End Years.

(** X20.  Stored birth years are in range.  Let [Y] bound the calendar
    year at which every message of a sequence of events is handled.  If
    every stored birth year lies between 1950 and [Y], so does every
    stored birth year after the events: the answer to the birth-year
    question is saved only after the range check, new records have no
    birth year, and no other write changes one. *)
Theorem birth_years_stay_valid (superAdminId : Z) (tr : Transport) (Y : Z)
    (evs : list Event) (w : World) :
  Forall (year_at_most Y) evs -> years_valid Y w ->
  years_valid Y (run_events superAdminId tr evs w).
Proof.
  intros Hevs. apply keeps_run_events. intros ev Hin. apply years_handle.
  rewrite Forall_forall in Hevs. by apply Hevs, list_elem_of_In.
Qed.

Example birth_year_session_years :
  map (fun evs => map u_birthYear (users (run_events 1 reliable evs initial_world)))
    [take 3 birth_year_session; birth_year_session]
  = [[None]; [Some 2004]].
Proof. vm_compute. reflexivity. Qed.

Lemma birth_years_stay_valid_witness :
  Forall (year_at_most 2024) birth_year_session /\
  years_valid 2024 initial_world /\
  years_valid 2024 (run_events 1 reliable birth_year_session initial_world).
Proof.
  assert (He : Forall (year_at_most 2024) birth_year_session).
  { repeat apply Forall_cons_2; try apply Forall_nil_2; cbn; lia. }
  assert (H : years_valid 2024 initial_world) by apply Forall_nil_2.
  split; [exact He|]. split; [exact H|].
  exact (birth_years_stay_valid 1 reliable 2024 birth_year_session _ He H).
Defined.

(** * Cancelling *)

Lemma keeps_try_catch_at (I : World -> Prop) {A} (m : M A) (h : Exn -> M A) (w : World) :
  I (m w).2 -> (forall e, Keeps I (h e)) -> I (try_catch m h w).2.
Proof.
  intros Hm Hh. unfold try_catch. destruct (m w) as [[a|e] w']; cbn in *;
    [exact Hm | by apply Hh].
Qed.

(** Whatever holds once the session is deleted, and is indifferent to
    messages sent, the activity flag of users and the admin cache, holds
    after the cancel button. *)
Lemma cancel_keeps (I : World -> Prop) superAdminId tr now q w :
  q_data q = "cancel_action" ->
  (forall f w, I w -> I (with_users f w)) ->
  (forall f w, I w -> I (with_out f w)) ->
  (forall f w, I w -> I (with_adminCache f w)) ->
  I (with_state (delete (q_chat q)) w) ->
  I (on_callback superAdminId tr now q w).2.
Proof.
  intros Hq Hu Ho Hc Hw. unfold on_callback.
  apply keeps_try_catch_at;
    [|intros e; keeps_auto ltac:(first [apply Hu | apply Ho | apply Hc])].
  unfold callback_body. cbv zeta. rewrite Hq. decide_when.
  cbn [blocks when String.eqb Ascii.eqb Bool.eqb]. cbv iota.
  rewrite !bind_assoc_at. apply keeps_bind_at; [exact Hw|]. intros _.
  keeps_auto ltac:(first [apply Hu | apply Ho | apply Hc]).
Qed.

(** X21.  The cancel button ends the wizard, whatever the transport
    does and whoever presses it: after [cancel_action] the session table
    is the one of before without the presser's entry, and the content,
    admin and channel collections and the settings are unchanged. *)
Theorem cancel_clears_session (superAdminId : Z) (tr : Transport) (now : Z)
    (q : Callback) (w : World) :
  q_data q = "cancel_action" ->
  let w' := (on_callback superAdminId tr now q w).2 in
  state w' = delete (q_chat q) (state w) /\
  movies w' = movies w /\ admins w' = admins w /\
  channels w' = channels w /\ settings w' = settings w.
Proof.
  intros Hq w'. subst w'. repeat split.
  - by apply (cancel_keeps (same_state _)).
  - by apply (cancel_keeps (same_movies _)).
  - by apply (cancel_keeps (same_admins _)).
  - by apply (cancel_keeps (same_channels _)).
  - by apply (cancel_keeps (same_settings _)).
Qed.

Lemma cancel_clears_session_witness :
  let w := run_events 1 reliable add_parasyte initial_world in
  let w' := (on_callback 1 reliable 1010000 (callback 1 "cancel_action") w).2 in
  is_Some (state w !! 1) /\ state w' !! 1 = None /\ movies w' = movies w.
Proof.
  intros w w'.
  destruct (cancel_clears_session 1 reliable 1010000 (callback 1 "cancel_action") w eq_refl)
    as (H1 & H2 & _).
  split; [by vm_compute; eexists|]. split; [|exact H2].
  fold w' in H1. rewrite H1. apply lookup_delete_eq.
Defined.

(** * The capability check of the wizard *)

Lemma upsert_world tid firstName username w :
  exists u f g,
    User_findOneAndUpdate tid firstName username w
    = (Ok u, with_users f (with_nextId g w)) /\
    u_isBanned u =
      match List.find (fun u => u_telegramId u =? tid) (users w) with
      | Some u0 => u_isBanned u0
      | None => false
      end.
Proof.
  unfold User_findOneAndUpdate, User_findOne, User_updateOne_telegramId,
    bind, gets, modify, ret. cbn.
  destruct (List.find _ (users w)) as [u0|]; cbn.
  - exists (set_u_isActive true u0),
      (update_first (fun u => u_telegramId u =? tid) (set_u_isActive true)), id.
    split; [|reflexivity]. by destruct w.
  - exists (new_user (nextId w) tid firstName username),
      (fun us => us ++ [new_user (nextId w) tid firstName username]), S.
    split; reflexivity.
Qed.

Lemma isUserAdmin_result superAdminId now userId w1 w :
  adminCache w1 = adminCache w -> admins w1 = admins w ->
  (isUserAdmin superAdminId now userId w1).1 = (isUserAdmin superAdminId now userId w).1.
Proof.
  intros Hc Ha. unfold isUserAdmin, Admin_findOne, bind, gets, modify, ret.
  destruct (userId =? superAdminId); [done|]. cbv beta. rewrite Hc.
  destruct (adminCache w !! userId) as [c|]; [destruct (now <? c_expire c)|];
    cbv beta iota zeta; rewrite ?Ha; done.
Qed.

Lemma hasPermission_result superAdminId userId perm w1 w :
  admins w1 = admins w ->
  hasPermission superAdminId userId perm w1
  = ((hasPermission superAdminId userId perm w).1, w1).
Proof.
  intros Ha. unfold hasPermission, Admin_findOne, bind, gets, ret.
  destruct (userId =? superAdminId); [done|]. cbv beta. rewrite Ha.
  by destruct (List.find _ (admins w)).
Qed.

(** X22.  The permission a wizard requires is checked again at every
    input.  When a message reaches the wizard of a sender who passes the
    admin check (the message passes the flood guard, the sender is not
    banned, the session has not expired and is not the birth-year
    question), and [hasPermission] denies the permission the session
    requires, the handler deletes the session, sends the refusal and
    does nothing else: content, channels, admins and settings are
    unchanged, whatever the message carried. *)
Theorem wizard_rechecks_permission (superAdminId : Z) (tr : Transport)
    (now currentYear : Z) (msg : Msg) (st : Session) (perm : Perm) (w : World) :
  let chatId := m_chat msg in
  floodLimit <= now - default 0 (floodMap w !! chatId) ->
  not_banned chatId w ->
  state w !! chatId = Some st ->
  now - default 0 (timestamp st) <= stateTTL ->
  action st <> ASK_BIRTH_YEAR ->
  permissionRequired st = Some perm ->
  (isUserAdmin superAdminId now chatId w).1 = Ok true ->
  (hasPermission superAdminId chatId perm w).1 = Ok false ->
  let w' := (on_message superAdminId tr now currentYear msg w).2 in
  state w' = delete chatId (state w) /\
  out w' = out w ++ [ESend chatId NNoPermission] /\
  movies w' = movies w /\ channels w' = channels w /\
  admins w' = admins w /\ settings w' = settings w.
Proof.
  intros chatId Hflood Hban Hst Hfresh Hact Hperm Hadm Hno w'. subst chatId.
  assert (Hrun : exists f0 g0 f1 f2,
    w' = with_users f2 (with_out (fun o => o ++ [ESend (m_chat msg) NNoPermission])
           (with_state (delete (m_chat msg))
              (with_adminCache f1 (with_users f0 (with_nextId g0
                 (with_floodMap <[m_chat msg := now]> w))))))); [subst w'|].
  2: { destruct Hrun as (f0 & g0 & f1 & f2 & ->).
       cbn [state out movies channels admins settings with_users with_out with_state
              with_adminCache with_nextId with_floodMap].
       done. }
  unfold on_message, bind at 1. rewrite isFlooding_accepted by exact Hflood.
  cbn iota beta. unfold try_catch, message_body, bind at 1.
  destruct (upsert_world (m_chat msg) (sanitize (default "" (m_first_name msg)))
              (m_username msg) (with_floodMap <[m_chat msg := now]> w))
    as (u & f0 & g0 & -> & Hb).
  cbn [users with_floodMap] in Hb.
  assert (u_isBanned u = false) as ->.
  { rewrite Hb. unfold not_banned in Hban. by destruct (List.find _ _). }
  unfold bind at 1, gets at 1. cbn iota beta.
  cbn [state with_users with_nextId with_floodMap]. rewrite Hst.
  unfold bind at 1. unfold state_handler. cbv zeta.
  destruct (Z.ltb_spec stateTTL (now - default 0 (timestamp st))) as [?|_]; [lia|].
  rewrite bool_decide_eq_false_2 by exact Hact.
  unfold bind at 1.
  match goal with |- context [isUserAdmin superAdminId now ?c ?w1] =>
    pose proof (isUserAdmin_result superAdminId now c w1 w eq_refl eq_refl) as Hres;
    destruct (isUserAdmin_cache superAdminId now c w1) as (b & f1 & E)
  end.
  rewrite E in Hres |- *. cbn [fst] in Hres.
  rewrite Hadm in Hres. injection Hres as ->.
  unfold bind at 1, handleAdminInput, bind at 1, gets at 1. cbn iota beta.
  cbn [state with_adminCache with_users with_nextId with_floodMap]. rewrite Hst.
  unfold bind at 1, defined, ret at 1. cbn iota beta. rewrite Hperm.
  unfold bind at 1.
  match goal with |- context [hasPermission superAdminId ?c perm ?w1] =>
    rewrite (hasPermission_result superAdminId c perm w1 w eq_refl)
  end.
  rewrite Hno. cbn [negb]. unfold state_delete. rewrite run_modify.
  unfold bind at 1.
  match goal with |- context [safeSend tr ?c NNoPermission ?w1] =>
    destruct (safeSend_world tr c NNoPermission w1) as (r & f2 & ->)
  end.
  cbn [snd ret]. by exists f0, g0, f1, f2.
Qed.

Lemma wizard_rechecks_permission_witness :
  let w' := (on_message 1 reliable 1001000 2024 (video_msg 7) revoked_wizard).2 in
  state w' !! 7 = None /\ movies w' = [] /\
  out w' = [ESend 7 NNoPermission].
Proof.
  intros w'.
  destruct (wizard_rechecks_permission 1 reliable 1001000 2024 (video_msg 7)
              (fresh_add_movie 1000000) P_movies revoked_wizard)
    as (H1 & H2 & H3 & _); try reflexivity.
  - by vm_compute.
  - by vm_compute.
  - discriminate.
  - fold w' in H1, H2, H3. rewrite H1, H2, H3. split; [apply lookup_delete_eq|done].
Defined.

(** * Asking for a code *)

Lemma digit_not_command (c : ascii) (r : string) :
  is_digit c = true ->
  startsWith (String c r) "/start" = false /\ String.eqb (String c r) "/admin" = false.
Proof.
  destruct c as [[] [] [] [] [] [] [] []]; try discriminate; intros _; split; reflexivity.
Qed.

Lemma pretty_nonneg_digits (z : Z) :
  0 <= z ->
  all_digits (pretty z) = true /\
  exists c r, pretty z = String c r /\ is_digit c = true.
Proof.
  intros Hz. destruct z as [|p|p]; [| |lia].
  - split; [reflexivity | by exists "0"%char, ""].
  - rewrite pretty_Zpos_eq.
    destruct (pretty_N_go_head (N.pos p) "" ltac:(done)) as (d & r & E & Hd).
    assert (Hall : all_digits_from (pretty_N_go (N.pos p) "") = true).
    { rewrite all_digits_from_forall. by apply pretty_N_go_forall. }
    split.
    + rewrite E in *. exact Hall.
    + exists (pretty_N_char d), r. split; [exact E|]. apply pretty_N_char_digit. lia.
Qed.

Lemma checkSubscription_world superAdminId tr now userId w :
  exists f,
    checkSubscription superAdminId tr now userId w
    = (Ok (gate_missing superAdminId tr now userId w),
       with_out (fun o => o ++ gate_trace superAdminId tr now userId w)
         (with_adminCache f w)).
Proof.
  unfold gate_missing, gate_trace, checkSubscription, bind.
  destruct (isUserAdmin_cache superAdminId now userId w) as (b & f & ->).
  exists f. cbn [fst]. destruct b.
  - unfold ret. by rewrite with_out_nil.
  - unfold gets. cbn [channels with_adminCache].
    destruct (channels w) as [|ch chs].
    + unfold ret. cbn. by rewrite with_out_nil.
    + by rewrite check_channels_spec.
Qed.

Lemma gate_frame superAdminId tr now userId w1 w :
  adminCache w1 = adminCache w -> admins w1 = admins w -> channels w1 = channels w ->
  gate_missing superAdminId tr now userId w1 = gate_missing superAdminId tr now userId w /\
  gate_trace superAdminId tr now userId w1 = gate_trace superAdminId tr now userId w.
Proof.
  intros Hc Ha Hch. unfold gate_missing, gate_trace.
  by rewrite (isUserAdmin_result _ _ _ w1 w Hc Ha), Hch.
Qed.

Lemma showMovieCard_found tr chatId code mv w :
  List.find (fun m => mv_code m =? code) (movies w) = Some mv ->
  exists f, showMovieCard tr chatId (pretty code) w
    = (Ok tt, with_users f (with_out (fun o => o ++ [card_effect chatId mv])
         (with_movies (update_first (fun m => mv_code m =? code) viewed) w))).
Proof.
  intros Hmv.
  assert (Hmc : mv_code mv = code).
  { apply find_some in Hmv as [_ H]. by apply Z.eqb_eq in H. }
  unfold showMovieCard. rewrite parseInt_pretty.
  unfold Movie_findOne. rewrite run_gets, Hmv, run_modify, Hmc.
  unfold card_effect. destruct (truthy (mv_posterId mv)).
  - exists id. unfold emit, modify. by f_equal.
  - unfold bind.
    match goal with |- context [safeSend tr ?c ?n ?w2] =>
      destruct (safeSend_world tr c n w2) as (r0 & f2 & ->) end.
    by exists f2.
Qed.

(** X23.  Asking for a code.  A registered user who is not banned, has
    given a birth year and has no session sends the decimal numeral of
    a code that exists; the message passes the flood guard and the
    subscription gate reports no missing channel.  Then the handler
    counts one view on the record of that code and on no other, sends
    the card of the record as found (a photo when it has a poster)
    after the membership queries of the gate, and leaves the session
    table as it was. *)
Theorem code_request_counts_view (superAdminId : Z) (tr : Transport)
    (now currentYear code : Z) (msg : Msg) (u : UserDoc) (mv : MovieDoc) (w : World) :
  msg_text msg = pretty code -> 0 <= code ->
  floodLimit <= now - default 0 (floodMap w !! m_chat msg) ->
  List.find (fun x => u_telegramId x =? m_chat msg) (users w) = Some u ->
  u_isBanned u = false -> has_birthYear u = true ->
  state w !! m_chat msg = None ->
  gate_missing superAdminId tr now (m_chat msg) w = [] ->
  List.find (fun m => mv_code m =? code) (movies w) = Some mv ->
  let w' := (on_message superAdminId tr now currentYear msg w).2 in
  movies w' = update_first (fun m => mv_code m =? code) viewed (movies w) /\
  out w' = out w ++ gate_trace superAdminId tr now (m_chat msg) w
             ++ [card_effect (m_chat msg) mv] /\
  state w' = state w.
Proof.
  intros Htext Hcode Hflood Hu Hban Hyear Hst Hgate Hmv w'.
  destruct (pretty_nonneg_digits code Hcode) as (Hall & c & r & Hc & Hd).
  destruct (digit_not_command c r Hd) as [Hstart Hadmin].
  assert (Hrun : exists f0 f1 f2,
    w' = with_users f2 (with_out (fun o => o ++ [card_effect (m_chat msg) mv])
           (with_movies (update_first (fun m => mv_code m =? code) viewed)
              (with_out (fun o => o ++ gate_trace superAdminId tr now (m_chat msg) w)
                 (with_adminCache f1 (with_users f0
                    (with_floodMap <[m_chat msg := now]> w))))))); [subst w'|].
  2: { destruct Hrun as (f0 & f1 & f2 & ->).
       cbn [state out movies with_users with_out with_movies with_adminCache
              with_floodMap].
       by rewrite <- app_assoc. }
  unfold on_message, bind at 1. rewrite isFlooding_accepted by exact Hflood.
  cbn iota beta. unfold try_catch, message_body. cbv zeta.
  unfold User_findOneAndUpdate, User_findOne. rewrite bind_assoc_at, run_gets.
  cbn [users with_floodMap]. rewrite Hu.
  unfold User_updateOne_telegramId. rewrite bind_assoc_at, run_modify, bind_ret_l.
  cbn [u_isBanned set_u_isActive]. rewrite Hban. rewrite run_gets.
  cbn [state with_users with_floodMap]. rewrite Hst, bind_ret_l.
  unfold message_tail. cbv zeta.
  change (has_birthYear (set_u_isActive true u)) with (has_birthYear u).
  rewrite Hyear, Htext, Hc, Hstart, Hadmin. cbn [negb]. rewrite bind_ret_l.
  rewrite <- Hc, Hall.
  unfold handleMovieCodeRequest. unfold bind at 1.
  match goal with |- context [checkSubscription superAdminId tr now ?c ?w1] =>
    destruct (checkSubscription_world superAdminId tr now c w1) as (f1 & ->);
    destruct (gate_frame superAdminId tr now c w1 w eq_refl eq_refl eq_refl) as [-> ->]
  end.
  rewrite Hgate.
  match goal with |- context [showMovieCard tr _ _ ?w1] =>
    destruct (showMovieCard_found tr (m_chat msg) code mv w1 Hmv) as (f2 & ->) end.
  cbn [snd]. by eexists _, f1, f2.
Qed.

Lemma code_request_counts_view_witness :
  let w' := (on_message 1 reliable 1000000 2024 (text_msg 11 "4242") small_catalogue).2 in
  map mv_views (movies w') = [1; 0] /\
  out w' = [EPhoto "11" (NCard parasyte)].
Proof.
  intros w'.
  destruct (code_request_counts_view 1 reliable 1000000 2024 4242 (text_msg 11 "4242")
              (mk_user 1 11) parasyte small_catalogue
              eq_refl ltac:(lia) ltac:(by vm_compute) eq_refl eq_refl eq_refl eq_refl
              eq_refl eq_refl)
    as (H1 & H2 & _).
  fold w' in H1, H2. rewrite H1, H2. split; reflexivity.
Defined.

(** * Waiting for the subscription *)

(** X24.  Asking for a code before joining.  A registered user who is
    not banned, has given a birth year and has no session sends the
    decimal numeral of a code; the message passes the flood guard and
    the subscription gate reports at least one missing channel.  Then
    the handler stores a [WAITING_SUB] session holding the code and the
    time, sends the subscription request for exactly the missing
    channels after the membership queries, and leaves the catalogue
    untouched: no view is counted. *)
Theorem code_request_waits (superAdminId : Z) (tr : Transport)
    (now currentYear code : Z) (msg : Msg) (u : UserDoc) (ch : ChannelDoc)
    (rest : list ChannelDoc) (w : World) :
  msg_text msg = pretty code -> 0 <= code ->
  floodLimit <= now - default 0 (floodMap w !! m_chat msg) ->
  List.find (fun x => u_telegramId x =? m_chat msg) (users w) = Some u ->
  u_isBanned u = false -> has_birthYear u = true ->
  state w !! m_chat msg = None ->
  gate_missing superAdminId tr now (m_chat msg) w = ch :: rest ->
  let w' := (on_message superAdminId tr now currentYear msg w).2 in
  state w' = <[m_chat msg := waiting_sub now (pretty code)]> (state w) /\
  out w' = out w ++ gate_trace superAdminId tr now (m_chat msg) w
             ++ [ESend (m_chat msg) (NSubRequest (ch :: rest))] /\
  movies w' = movies w.
Proof.
  intros Htext Hcode Hflood Hu Hban Hyear Hst Hgate w'.
  destruct (pretty_nonneg_digits code Hcode) as (Hall & c & r & Hc & Hd).
  destruct (digit_not_command c r Hd) as [Hstart Hadmin].
  assert (Hrun : exists f0 f1 f2,
    w' = with_users f2
           (with_out (fun o => o ++ [ESend (m_chat msg) (NSubRequest (ch :: rest))])
              (with_state <[m_chat msg := waiting_sub now (pretty code)]>
                 (with_out (fun o => o ++ gate_trace superAdminId tr now (m_chat msg) w)
                    (with_adminCache f1 (with_users f0
                       (with_floodMap <[m_chat msg := now]> w))))))); [subst w'|].
  2: { destruct Hrun as (f0 & f1 & f2 & ->).
       cbn [state out movies with_users with_out with_state with_adminCache
              with_floodMap].
       by rewrite <- app_assoc. }
  unfold on_message, bind at 1. rewrite isFlooding_accepted by exact Hflood.
  cbn iota beta. unfold try_catch, message_body. cbv zeta.
  unfold User_findOneAndUpdate, User_findOne. rewrite bind_assoc_at, run_gets.
  cbn [users with_floodMap]. rewrite Hu.
  unfold User_updateOne_telegramId. rewrite bind_assoc_at, run_modify, bind_ret_l.
  cbn [u_isBanned set_u_isActive]. rewrite Hban. rewrite run_gets.
  cbn [state with_users with_floodMap]. rewrite Hst, bind_ret_l.
  unfold message_tail. cbv zeta.
  change (has_birthYear (set_u_isActive true u)) with (has_birthYear u).
  rewrite Hyear, Htext, Hc, Hstart, Hadmin. cbn [negb]. rewrite bind_ret_l.
  rewrite <- Hc, Hall.
  unfold handleMovieCodeRequest. unfold bind at 1.
  match goal with |- context [checkSubscription superAdminId tr now ?c ?w1] =>
    destruct (checkSubscription_world superAdminId tr now c w1) as (f1 & ->);
    destruct (gate_frame superAdminId tr now c w1 w eq_refl eq_refl eq_refl) as [-> ->]
  end.
  rewrite Hgate, run_modify. unfold sendSubRequest, bind.
  match goal with |- context [safeSend tr ?c ?n ?w2] =>
    destruct (safeSend_world tr c n w2) as (r0 & f2 & ->) end.
  cbn [snd]. by eexists _, f1, f2.
Qed.

Lemma pretty_nonempty (z : Z) : exists c r, pretty z = String c r.
Proof.
  destruct z as [|p|p].
  - by exists "0"%char, "".
  - rewrite pretty_Zpos_eq.
    destruct (pretty_N_go_head (N.pos p) "" ltac:(done)) as (d & r & E & _). by eexists _, _.
  - rewrite pretty_Zneg_eq. by eexists _, _.
Qed.

(** X25.  Confirming the subscription resumes the pending request.  When
    [check_sub] is pressed by a chat whose session holds the numeral of
    an existing code as [pendingCode], the gate reports no missing
    channel and the prompt can be deleted, the handler deletes the
    prompt, counts one view on the record of that code and sends its
    card; the session, pending code included, stays in the table. *)
Theorem subscription_confirmed_shows_card (superAdminId : Z) (tr : Transport)
    (now code : Z) (q : Callback) (st : Session) (mv : MovieDoc) (w : World) :
  q_data q = "check_sub" ->
  gate_missing superAdminId tr now (q_chat q) w = [] ->
  deleteMessage tr (q_chat q) (q_message_id q) = Delivered tt ->
  state w !! q_chat q = Some st ->
  pendingCode st = Some (pretty code) ->
  List.find (fun m => mv_code m =? code) (movies w) = Some mv ->
  let w' := (on_callback superAdminId tr now q w).2 in
  movies w' = update_first (fun m => mv_code m =? code) viewed (movies w) /\
  out w' = out w ++ gate_trace superAdminId tr now (q_chat q) w
             ++ [EDelete (q_chat q) (q_message_id q); card_effect (q_chat q) mv] /\
  state w' = state w.
Proof.
  intros Hq Hgate Hdel Hst Hpending Hmv w'.
  destruct (pretty_nonempty code) as (c & r & Hc).
  assert (Hrun : exists f1 f2,
    w' = with_users f2 (with_out (fun o => o ++ [card_effect (q_chat q) mv])
           (with_movies (update_first (fun m => mv_code m =? code) viewed)
              (with_out (fun o => o ++ [EDelete (q_chat q) (q_message_id q)])
                 (with_out (fun o => o ++ gate_trace superAdminId tr now (q_chat q) w)
                    (with_adminCache f1 w)))))); [subst w'|].
  2: { destruct Hrun as (f1 & f2 & ->).
       cbn [state out movies with_users with_out with_movies with_adminCache].
       by rewrite <- !app_assoc. }
  unfold on_callback, try_catch, callback_body. cbv zeta. rewrite Hq. decide_when.
  cbn [blocks when String.eqb Ascii.eqb Bool.eqb]. cbv iota.
  rewrite bind_ret_l. cbv iota. rewrite !bind_assoc_at. unfold bind at 1.
  destruct (checkSubscription_world superAdminId tr now (q_chat q) w) as (f1 & ->).
  rewrite Hgate. rewrite ?bind_assoc_at. unfold emit at 1. rewrite run_modify.
  rewrite Hdel. cbn [await]. rewrite ?bind_assoc_at, bind_ret_l, ?bind_assoc_at, run_gets.
  cbn [state with_out with_adminCache]. rewrite Hst. cbn [mbind option_bind].
  rewrite Hpending, Hc, <- Hc.
  unfold bind at 1.
  match goal with |- context [showMovieCard tr _ _ ?w1] =>
    destruct (showMovieCard_found tr (q_chat q) code mv w1 Hmv) as (f2 & ->) end.
  cbn. by exists f1, f2.
Qed.

Lemma code_request_waits_witness :
  state waiting_world !! 11 = Some (waiting_sub 1000000 "4242") /\
  map mv_views (movies waiting_world) = [0; 0].
Proof.
  destruct (code_request_waits 1 not_joined_yet 1000000 2024 4242 (text_msg 11 "4242")
              (mk_user 1 11) _ _ gated_catalogue
              eq_refl ltac:(lia) ltac:(by vm_compute) eq_refl eq_refl eq_refl eq_refl
              eq_refl)
    as (H1 & _ & H3).
  fold waiting_world in H1, H3. rewrite H1, H3. split; [apply lookup_insert_eq | reflexivity].
Defined.

Lemma subscription_confirmed_shows_card_witness :
  let w' := (on_callback 1 reliable 1010000 (callback 11 "check_sub") waiting_world).2 in
  map mv_views (movies w') = [1; 0] /\
  last (out w') = Some (EPhoto "11" (NCard parasyte)).
Proof.
  intros w'.
  destruct (subscription_confirmed_shows_card 1 reliable 1010000 4242
              (callback 11 "check_sub") (waiting_sub 1000000 "4242") parasyte waiting_world
              eq_refl eq_refl eq_refl eq_refl eq_refl eq_refl)
    as (H1 & H2 & _).
  fold w' in H1, H2. rewrite H1, H2. split; reflexivity.
Defined.

(** * The required channels *)

Ltac channels_update :=
  let w := fresh "w" in
  let Hw := fresh "Hw" in
  intros w Hw;
  first
    [ exact Hw
    | unfold channels_unique in *; cbn [channels with_channels];
      apply NoDup_map_delete_first; exact Hw ].

Section Channels.

Variable superAdminId : Z.
Variable tr : Transport.

Lemma channels_check_channels userId chs :
  Keeps channels_unique (check_channels tr userId chs).
Proof. induction chs as [|ch rest IH]; cbn; keeps_auto channels_update. Qed.

(** The upsert rewrites the record of the channel id, or appends one
    when there is none. *)
Lemma channels_upsert cid name url t :
  Keeps channels_unique (Channel_upsert cid name url t).
Proof.
  intros w Hw. unfold Channel_upsert. rewrite run_gets.
  destruct (List.find (fun c => String.eqb (ch_channelId c) cid) (channels w)) as [c|] eqn:E.
  - cbn [modify snd]. unfold channels_unique in *. cbn [channels with_channels].
    rewrite map_update_first_In; [exact Hw|].
    intros x _ Hp. apply String.eqb_eq in Hp. by rewrite Hp.
  - rewrite run_gets, run_modify. cbn [modify snd]. unfold channels_unique in *.
    cbn [channels with_channels with_nextId]. rewrite map_app. cbn [map ch_channelId].
    apply NoDup_app. split; [exact Hw|]. split; [|apply NoDup_singleton].
    intros x Hx Hx'. apply list_elem_of_singleton in Hx'. subst x.
    apply list_elem_of_In, in_map_iff in Hx as (c & Hc & Hin).
    pose proof (find_none _ _ E c Hin) as Hn. cbn in Hn. rewrite Hc in Hn.
    by rewrite String.eqb_refl in Hn.
Qed.

Lemma channels_handle ev : Keeps channels_unique (handle superAdminId tr ev).
Proof.
  pose proof channels_check_channels as Hc.
  pose proof channels_upsert as Hu.
  destruct ev; cbn [handle]; keeps_auto channels_update.
Qed.

End Channels.

(** X26.  If no two channel records share a channel id, the same holds
    after any sequence of events: the channel wizard upserts by channel
    id, rewriting the record of that id or appending one when there is
    none, and the delete button only deletes.  Adding a channel a second
    time, by whatever link resolves to the same id, never lists it
    twice. *)
Theorem channels_stay_unique (superAdminId : Z) (tr : Transport) (evs : list Event)
    (w : World) :
  channels_unique w -> channels_unique (run_events superAdminId tr evs w).
Proof.
  apply keeps_run_events. intros ev _. apply channels_handle.
Qed.

Example channel_session_channels :
  map (fun c => (ch_channelId c, ch_name c, ch_url c))
    (channels (run_events 1 reliable channel_session initial_world))
  = [("-1001", Some "Kinolar 2", "https://t.me/kinolar")].
Proof. vm_compute. reflexivity. Qed.

Lemma channels_stay_unique_witness :
  channels_unique initial_world /\
  channels_unique (run_events 1 reliable channel_session initial_world).
Proof.
  assert (H : channels_unique initial_world) by constructor.
  split; [exact H|]. exact (channels_stay_unique 1 reliable channel_session _ H).
Defined.

(** X27.  A channel that cannot be resolved.  At the link step of the
    channel wizard, under a passing capability check, when the input is
    not a numeric channel id and [getChat] fails for the username
    computed from it, the failure is caught where it occurs: it is
    logged, the admin is sent the help text, no channel is stored, and
    the session stays as it is, so that the next message is again taken
    as the link. *)
Theorem channel_lookup_failure (superAdminId : Z) (tr : Transport) (now chatId : Z)
    (msg : Msg) (st : Session) (d : Draft) (username : string) (code : option Z)
    (w : World) :
  state w !! chatId = Some st ->
  permitted superAdminId chatId st w ->
  action st = ADD_CHANNEL -> step st = Some URL -> data st = Some d ->
  is_channel_id (msg_text msg) = false ->
  (channel_username (msg_text msg) w).1 = Ok username ->
  getChat tr username = Failed code ->
  let w' := (handleAdminInput superAdminId tr now chatId msg w).2 in
  state w' = state w /\ channels w' = channels w /\
  out w' = out w ++ [EGetChat username; ELog LChannelAdd; ESend chatId NChannelError].
Proof.
  intros Hst Hp Hact Hstep Hdata Hid Hname Hfail w'.
  assert (Hrun : exists f,
    w' = with_users f (with_out (fun o => o ++ [ESend chatId NChannelError])
           (with_out (fun o => o ++ [ELog LChannelAdd])
              (with_out (fun o => o ++ [EGetChat username]) w)))); [subst w'|].
  2: { destruct Hrun as (f & ->).
       cbn [state channels out with_users with_out]. by rewrite <- !app_assoc. }
  rewrite (handleAdminInput_permitted _ _ _ _ _ _ _ Hst Hp).
  unfold admin_input_body. rewrite Hact. unfold add_channel. rewrite Hstep.
  assert (Hu : channel_username (msg_text msg) w = (Ok username, w)).
  { revert Hname. unfold channel_username.
    destruct (includes (msg_text msg) "t.me/").
    - destruct (js_split (msg_text msg) "t.me/" !! 1%nat) as [p1|]; [|discriminate].
      cbn [defined]. rewrite bind_ret_l.
      destruct (head (js_split p1 "/")) as [p2|]; [|discriminate].
      cbn [defined]. rewrite bind_ret_l.
      destruct (head (js_split p2 "?")) as [p3|]; [|discriminate].
      cbn [defined]. rewrite bind_ret_l. cbn. by intros [= ->].
    - destruct (_ && _); cbn; by intros [= ->]. }
  unfold try_catch at 1. unfold bind at 1. rewrite Hu. cbv iota beta.
  rewrite Hdata. cbn [defined]. rewrite bind_ret_l.
  unfold try_catch at 1. rewrite Hid. cbv iota.
  rewrite !bind_assoc_at. unfold emit at 1. rewrite run_modify.
  rewrite Hfail. cbn [await]. unfold bind at 1, throw. cbv iota beta.
  unfold bind at 1. cbv iota beta.
  unfold emit at 1. rewrite run_modify. unfold bind at 1.
  match goal with |- context [safeSend tr ?c ?n ?w2] =>
    destruct (safeSend_world tr c n w2) as (r0 & f & ->) end.
  cbn. by exists f.
Qed.

Lemma channel_lookup_failure_witness :
  let w' := (handleAdminInput 1 chat_unknown 1002000 1 (text_msg 1 "https://t.me/kinolar")
               naming_channel).2 in
  state w' = state naming_channel /\ channels w' = [] /\
  out w' = out naming_channel
           ++ [EGetChat "@kinolar"; ELog LChannelAdd; ESend 1 NChannelError].
Proof.
  intros w'.
  assert (Hst : exists st d, state naming_channel !! 1 = Some st /\ action st = ADD_CHANNEL
                  /\ step st = Some URL /\ data st = Some d).
  { vm_compute. eexists _, _. repeat split; reflexivity. }
  destruct Hst as (st & d & Hst & Ha & Hs & Hd).
  destruct (channel_lookup_failure 1 chat_unknown 1002000 1 (text_msg 1 "https://t.me/kinolar")
              st d "@kinolar" (Some 400) naming_channel Hst
              ltac:(intros perm _; reflexivity) Ha Hs Hd eq_refl eq_refl eq_refl)
    as (H1 & H2 & H3).
  split; [exact H1|]. split; [exact H2 | exact H3].
Defined.
